(** * Polymarket read-only client: the aggregation core of [api.py]

    A shallow embedding of [flatten_tokens_from_simplified], [get_book],
    [get_best_prices], [_to_float] and [sum_yes_by_market], together
    with the fragments of Python they rest on: JSON values, truthiness,
    insertion-ordered dictionaries, [float()], [str()], [sum()],
    [list.sort] and the [requests] calls. *)

From Stdlib Require Import ZArith List String Ascii Bool Lia.
From Stdlib Require Import Permutation Sorted.
From Stdlib Require Import SpecFloat DecimalString.
Import ListNotations.

Local Open Scope string_scope.
Local Open Scope Z_scope.
Local Open Scope list_scope.

(* ================================================================== *)
(** ** Binary64 floating point (Python's [float]) *)
(* ================================================================== *)

Module Float64.

Definition float := spec_float.

Definition prec : Z := 53.
Definition emax : Z := 1024.

Definition nan : float := S754_nan.           (* math.nan *)
Definition inf : float := S754_infinity false. (* math.inf *)
Definition zero : float := S754_zero false.

Definition add : float -> float -> float := SFadd prec emax.
Definition ltb : float -> float -> bool := SFltb.
Definition leb : float -> float -> bool := SFleb.
Definition eqb : float -> float -> bool := SFeqb.

(** [math.isnan] *)
Definition isnan (x : float) : bool :=
  match x with S754_nan => true | _ => false end.

(** [math.isfinite] *)
Definition isfinite (x : float) : bool :=
  match x with S754_zero _ | S754_finite _ _ _ => true | _ => false end.

(** The double nearest to the integer [z] (ties to even);
    an infinity when [z] is out of range. *)
Definition of_Z (z : Z) : float := binary_normalize prec emax z 0 false.

(** The double nearest to [(-1)^neg * m * 10^e10]. *)
Definition of_decimal (neg : bool) (m : Z) (e10 : Z) : float :=
  match m with
  | Zpos p =>
      let nd := Z.of_nat (String.length (NilZero.string_of_uint (Pos.to_uint p))) in
      if 310 <? e10 + nd then S754_infinity neg
      else if e10 + nd <? -330 then S754_zero neg
      else if 0 <=? e10 then
        binary_normalize prec emax (if neg then - (m * 10 ^ e10) else m * 10 ^ e10) 0 neg
      else
        match 10 ^ (- e10) with
        | Zpos d => SFdiv prec emax (S754_finite neg p 0) (S754_finite false d 0)
        | _ => S754_nan
        end
  | _ => S754_zero neg
  end.

(** Exact comparison of an integer with a double, as Python's [==]
    between an [int] and a [float]. *)
Definition eqb_Z (z : Z) (x : float) : bool :=
  match x with
  | S754_zero _ => z =? 0
  | S754_finite s m e =>
      let sm := if s then Z.neg m else Z.pos m in
      if 0 <=? e then z =? sm * 2 ^ e else z * 2 ^ (- e) =? sm
  | _ => false
  end.

End Float64.

Definition float : Type := Float64.float.

(* ================================================================== *)
(** ** Python values as decoded from JSON *)
(* ================================================================== *)

(** A [dict] is kept in insertion order, as Python does; JSON objects
    have string keys. *)
#[warnings="-register-all"]
Inductive pyval : Type :=
| PyNone
| PyBool (b : bool)
| PyInt (z : Z)
| PyFloat (x : float)
| PyStr (s : string)
| PyList (l : list pyval)
| PyDict (d : list (string * pyval)).

Definition pydict := list (string * pyval).

(** Why a request brings no response: what [requests] raises in the
    place of returning one. *)
Inductive failure : Type :=
| ConnectTimeout
| ReadTimeout
| ConnectionFailed
| SSLFailed
| ProxyFailed
| TooManyRedirects
| ChunkedEncodingError
| ContentDecodingError.

(** Exceptions the modelled code can raise.  The last four are those
    of [requests.exceptions]: the HTTP error of an error status,
    [JSONDecodeError] (in Python also a kind of [ValueError]) for a
    body that is not JSON, [InvalidJSONError] for a payload that
    cannot be written as JSON, and the exception of a request that
    brought no response. *)
Inductive exn : Type :=
| TypeError
| ValueError
| OverflowError
| AttributeError
| HTTPError (status : Z)
| JSONDecodeError
| InvalidJSONError
| RequestFailed (why : failure).

Inductive result (A : Type) : Type :=
| Ok (a : A)
| Raise (e : exn).
Arguments Ok {A} a.
Arguments Raise {A} e.

Definition rbind {A B} (r : result A) (k : A -> result B) : result B :=
  match r with Ok a => k a | Raise e => Raise e end.

(** Truth value testing ([bool(v)], [if v], [not v], [a or b]). *)
Definition truthy (v : pyval) : bool :=
  match v with
  | PyNone => false
  | PyBool b => b
  | PyInt z => negb (z =? 0)
  | PyFloat x => negb (Float64.eqb x Float64.zero)
  | PyStr s => negb (String.eqb s "")
  | PyList l => match l with [] => false | _ => true end
  | PyDict d => match d with [] => false | _ => true end
  end.

(** [a or b] *)
Definition py_or (a b : pyval) : pyval := if truthy a then a else b.

(** *** Dictionaries with string keys *)

Fixpoint dict_lookup (k : string) (d : pydict) : option pyval :=
  match d with
  | [] => None
  | (k', v) :: d' => if String.eqb k k' then Some v else dict_lookup k d'
  end.

(** [d.get(k)] *)
Definition dict_get (k : string) (d : pydict) : pyval :=
  match dict_lookup k d with Some v => v | None => PyNone end.

(** [d.get(k, dflt)] *)
Definition dict_get_default (k : string) (dflt : pyval) (d : pydict) : pyval :=
  match dict_lookup k d with Some v => v | None => dflt end.

(** [k in d] *)
Definition dict_mem (k : string) (d : pydict) : bool :=
  match dict_lookup k d with Some _ => true | None => false end.

(** [d[k] = v]: an existing key keeps its place, a new one goes last. *)
Fixpoint dict_set (k : string) (v : pyval) (d : pydict) : pydict :=
  match d with
  | [] => [(k, v)]
  | (k', v') :: d' =>
      if String.eqb k k' then (k, v) :: d' else (k', v') :: dict_set k v d'
  end.

(** [v.get(k)] on an arbitrary value: only a [dict] has the method. *)
Definition py_get (v : pyval) (k : string) : result pyval :=
  match v with
  | PyDict d => Ok (dict_get k d)
  | _ => Raise AttributeError
  end.

(** Iteration ([for x in v]): a list yields its elements, a dict its
    keys, a string its characters; anything else is not iterable. *)
Fixpoint chars (s : string) : list pyval :=
  match s with
  | EmptyString => []
  | String c s' => PyStr (String c EmptyString) :: chars s'
  end.

Definition py_iter (v : pyval) : result (list pyval) :=
  match v with
  | PyList l => Ok l
  | PyDict d => Ok (map (fun kv => PyStr (fst kv)) d)
  | PyStr s => Ok (chars s)
  | _ => Raise TypeError
  end.

(* ================================================================== *)
(** ** [float(x)] *)
(* ================================================================== *)

(** Strings are taken to be ASCII text, so the white space [float]
    strips is tab, line feed, vertical tab, form feed, carriage return
    and space, and the digits are [0] to [9]. *)
Module FloatParse.

Definition is_space (c : ascii) : bool :=
  let n := nat_of_ascii c in
  ((9 <=? n) && (n <=? 13) || (n =? 32))%nat.

Definition digit_of (c : ascii) : option Z :=
  let n := Z.of_nat (nat_of_ascii c) in
  if (48 <=? n) && (n <=? 57) then Some (n - 48) else None.

Definition is_digit (c : ascii) : bool :=
  match digit_of c with Some _ => true | None => false end.

Definition lower (c : ascii) : ascii :=
  let n := nat_of_ascii c in
  if ((65 <=? n) && (n <=? 90))%nat then ascii_of_nat (n + 32) else c.

Fixpoint drop_spaces (l : list ascii) : list ascii :=
  match l with
  | c :: l' => if is_space c then drop_spaces l' else l
  | [] => []
  end.

(** [s.strip()] *)
Definition strip (l : list ascii) : list ascii :=
  rev (drop_spaces (rev (drop_spaces l))).

(** Underscores are legal only between two digits; they are then
    dropped.  [prev] tells whether the previous character was a digit. *)
Fixpoint drop_underscores (prev : bool) (l : list ascii) : option (list ascii) :=
  match l with
  | [] => Some []
  | c :: l' =>
      if Ascii.eqb c "_"%char then
        match l' with
        | d :: _ =>
            if prev && is_digit d then drop_underscores false l' else None
        | [] => None
        end
      else
        match drop_underscores (is_digit c) l' with
        | Some r => Some (c :: r)
        | None => None
        end
  end.

(** Leading digits of [l]: their value continuing from [acc], how
    many there are, and the rest. *)
Fixpoint digits (acc : Z) (n : Z) (l : list ascii) : Z * Z * list ascii :=
  match l with
  | c :: l' =>
      match digit_of c with
      | Some d => digits (10 * acc + d) (n + 1) l'
      | None => (acc, n, l)
      end
  | [] => (acc, n, [])
  end.

Definition split_sign (l : list ascii) : bool * list ascii :=
  match l with
  | c :: l' =>
      if Ascii.eqb c "-"%char then (true, l')
      else if Ascii.eqb c "+"%char then (false, l')
      else (false, l)
  | [] => (false, [])
  end.

(** The exponent part: [e], an optional sign and at least one digit,
    up to the end of the input. *)
Definition exponent (l : list ascii) : option Z :=
  match l with
  | [] => Some 0
  | c :: l' =>
      if Ascii.eqb (lower c) "e"%char then
        let '(neg, l'') := split_sign l' in
        match digits 0 0 l'' with
        | (v, n, []) => if 0 <? n then Some (if neg then - v else v) else None
        | _ => None
        end
      else None
  end.

Definition number (neg : bool) (l : list ascii) : option float :=
  let '(ip, ni, r1) := digits 0 0 l in
  let '(m, nf, r2) :=
    match r1 with
    | c :: r =>
        if Ascii.eqb c "."%char then
          let '(m, n, r') := digits ip 0 r in (m, n, r')
        else (ip, 0, r1)
    | [] => (ip, 0, r1)
    end in
  if 0 <? ni + nf then
    match exponent r2 with
    | Some e => Some (Float64.of_decimal neg m (e - nf))
    | None => None
    end
  else None.

Definition parse (s : string) : option float :=
  match drop_underscores false (list_ascii_of_string s) with
  | None => None
  | Some l =>
      let '(neg, body) := split_sign (strip l) in
      let word := string_of_list_ascii (map lower body) in
      if String.eqb word "inf" || String.eqb word "infinity" then
        Some (S754_infinity neg)
      else if String.eqb word "nan" then Some S754_nan
      else number neg body
  end.

End FloatParse.

(** [float(x)]: a number converts, a string is parsed, anything else is
    a [TypeError]. *)
Definition py_float (x : pyval) : result float :=
  match x with
  | PyFloat f => Ok f
  | PyInt z =>
      let f := Float64.of_Z z in
      if Float64.isfinite f then Ok f else Raise OverflowError
  | PyBool b => Ok (Float64.of_Z (if b then 1 else 0))
  | PyStr s =>
      match FloatParse.parse s with
      | Some f => Ok f
      | None => Raise ValueError
      end
  | PyNone | PyList _ | PyDict _ => Raise TypeError
  end.

Definition flt (s : string) : float :=
  match FloatParse.parse s with Some f => f | None => Float64.nan end.

(** [str(x)]; the text of a float or of a container is left to
    [py_repr]. *)
Definition py_str (py_repr : pyval -> string) (x : pyval) : string :=
  match x with
  | PyStr s => s
  | PyInt z => NilZero.string_of_int (Z.to_int z)
  | PyBool b => if b then "True" else "False"
  | PyNone => "None"
  | _ => py_repr x
  end.

(** [sum(l)] over floats: starts from the integer 0 and adds from left
    to right (the plain loop of CPython up to 3.11; later versions
    carry a correction term, which changes nothing for two addends). *)
Definition py_sum (l : list float) : float :=
  fold_left Float64.add l (Float64.of_Z 0).

(** *** Keys of a dictionary *)

Definition hashable (v : pyval) : bool :=
  match v with PyList _ | PyDict _ => false | _ => true end.

Definition as_int (v : pyval) : option Z :=
  match v with
  | PyBool b => Some (if b then 1 else 0)
  | PyInt z => Some z
  | _ => None
  end.

(** When two hashable values are the same dictionary key: they are
    equal ([True == 1 == 1.0]), or they are the decoder's one NaN
    object, which a dictionary finds by identity. *)
Definition py_key_eqb (a b : pyval) : bool :=
  match a, b with
  | PyNone, PyNone => true
  | PyStr s, PyStr t => String.eqb s t
  | PyFloat x, PyFloat y => Float64.eqb x y || (Float64.isnan x && Float64.isnan y)
  | PyFloat x, _ =>
      match as_int b with Some z => Float64.eqb_Z z x | None => false end
  | _, PyFloat y =>
      match as_int a with Some z => Float64.eqb_Z z y | None => false end
  | _, _ =>
      match as_int a, as_int b with
      | Some z, Some z' => z =? z'
      | _, _ => false
      end
  end.

(** [range(start, stop, step)] *)
Fixpoint range_from (fuel : nat) (i stop step : Z) : list Z :=
  match fuel with
  | O => []
  | S fuel' =>
      if (if 0 <? step then i <? stop else stop <? i)
      then i :: range_from fuel' (i + step) stop step
      else []
  end.

Definition py_range (start stop step : Z) : result (list Z) :=
  if step =? 0 then Raise ValueError
  else Ok (range_from (Z.abs_nat (stop - start)) start stop step).

(** [l[i:j]] for [0 <= i] and [0 <= j]. *)
Definition py_slice {A} (l : list A) (i j : Z) : list A :=
  firstn (Z.to_nat (j - i)) (skipn (Z.to_nat i) l).

(** [l.sort(key=key)] for float keys: the stable ascending order, each
    element placed in front of the first one whose key is not smaller.
    Python's sort is stable and compares keys with [<] only; without
    NaN among the keys the outcome is the one sorted stable
    rearrangement. *)
Section Sort.
Context {A : Type} (key : A -> float).

Fixpoint sort_insert (x : A) (l : list A) : list A :=
  match l with
  | [] => [x]
  | y :: l' =>
      if Float64.ltb (key y) (key x) then y :: sort_insert x l'
      else x :: y :: l'
  end.

Fixpoint py_sort (l : list A) : list A :=
  match l with
  | [] => []
  | x :: l' => sort_insert x (py_sort l')
  end.
End Sort.

(* ================================================================== *)
(** ** The HTTP boundary ([requests]) *)
(* ================================================================== *)

(** What the client sends to the order-book and pricing service:
    [GET /book?token_id=..] and [POST /prices] with the body
    [{"params": [{"token_id": .., "side": ..}, ..]}]. *)
Inductive request : Type :=
| GetBook (token_id : pyval)
| PostPrices (params : list (pyval * string)).

(** A response: its status code and its body, decoded when it is
    JSON text and [None] when it is not. *)
Record response : Type := { status_code : Z; body : option pyval }.

(** [r.json()] *)
Definition json (r : response) : result pyval :=
  match body r with
  | Some v => Ok v
  | None => Raise JSONDecodeError
  end.

(** What comes back for a request: a response, or none (no answer
    within the timeout, no connection, ...). *)
Inductive reply : Type :=
| Answered (r : response)
| NoAnswer (why : failure).

(** What [requests.get] and [requests.post] return or raise for it. *)
Definition received (rp : reply) : result response :=
  match rp with
  | Answered r => Ok r
  | NoAnswer why => Raise (RequestFailed why)
  end.

(** Whether [json.dumps(v, allow_nan=False)], with which [requests]
    writes a [json=] payload, accepts the value: it refuses NaN and
    the infinities. *)
Fixpoint json_encodable (v : pyval) : bool :=
  match v with
  | PyFloat x => Float64.isfinite x
  | PyList l => forallb json_encodable l
  | PyDict d => forallb (fun kv => json_encodable (snd kv)) d
  | _ => true
  end.

(** Whether the request can be written: the body of [POST /prices] is
    JSON, the parameters of a GET go into the address. *)
Definition encodable_request (q : request) : bool :=
  match q with
  | PostPrices params => forallb (fun p => json_encodable (fst p)) params
  | GetBook _ => true
  end.

(** [r.raise_for_status()] *)
Definition raise_for_status (r : response) : result unit :=
  if (400 <=? status_code r) && (status_code r <? 600)
  then Raise (HTTPError (status_code r))
  else Ok tt.

(** The functions of [api.py], against a service with states in [S]
    that answers one request at a time.  A [world] is the state of the
    service and the exchanges made so far. *)
Section Api.
Variable S : Type.
Variable clob : S -> request -> reply * S.

Record world : Type := { srv : S; trace : list (request * reply) }.

Definition M (A : Type) : Type := world -> result A * world.

Definition ret {A} (a : A) : M A := fun w => (Ok a, w).
Definition raise {A} (e : exn) : M A := fun w => (Raise e, w).
Definition bind {A B} (m : M A) (k : A -> M B) : M B :=
  fun w => match m w with
           | (Ok a, w') => k a w'
           | (Raise e, w') => (Raise e, w')
           end.
Definition lift {A} (r : result A) : M A := fun w => (r, w).

(** [requests.get(.., timeout=20)] / [requests.post(.., timeout=20)]:
    a payload that cannot be written raises before anything is sent;
    otherwise the request goes out and its reply is returned or
    raised. *)
Definition send (q : request) : M response :=
  fun w => if encodable_request q then
             let (rp, s') := clob (srv w) q in
             (received rp, {| srv := s'; trace := trace w ++ [(q, rp)] |})
           else (Raise InvalidJSONError, w).

(** *** [get_book] *)
Definition get_book (token_id : pyval) : M pyval :=
  bind (send (GetBook token_id)) (fun r =>
  if status_code r =? 404 then
    ret (PyDict [("error", PyStr "not_found"); ("token_id", token_id)])
  else
    bind (lift (raise_for_status r)) (fun _ =>
    lift (json r))).

(** *** [get_best_prices] *)

(** [for asset_id, sides in (data.items() if isinstance(data, dict)
    else []): out[str(asset_id)] = sides] *)
Definition merge_prices (out : pydict) (data : pyval) : pydict :=
  match data with
  | PyDict d => fold_left (fun o kv => dict_set (fst kv) (snd kv) o) d out
  | _ => out
  end.

Definition payload (side : string) (batch : list pyval) : list (pyval * string) :=
  map (fun tid => (tid, side)) batch.

(** The body of the loop, over the batches still to be sent. *)
Fixpoint fetch_batches (side : string) (batches : list (list pyval))
         (out : pydict) : M pydict :=
  match batches with
  | [] => ret out
  | batch :: rest =>
      bind (send (PostPrices (payload side batch))) (fun r =>
      bind (lift (raise_for_status r)) (fun _ =>
      bind (lift (json r)) (fun decoded =>
      let data := py_or decoded (PyDict []) in
      fetch_batches side rest (merge_prices out data))))
  end.

Definition batches_of (token_ids : list pyval) (starts : list Z)
           (batch_size : Z) : list (list pyval) :=
  map (fun i => py_slice token_ids i (i + batch_size)) starts.

Definition get_best_prices (token_ids : list pyval) (side : string)
           (batch_size : Z) : M pydict :=
  match token_ids with
  | [] => ret []
  | _ =>
      match py_range 0 (Z.of_nat (List.length token_ids)) batch_size with
      | Raise e => raise e
      | Ok starts =>
          fetch_batches side (batches_of token_ids starts batch_size) []
      end
  end.

(** *** [_to_float] *)
Definition _to_float (x : pyval) : float :=
  match x with
  | PyNone => Float64.nan
  | _ => match py_float x with
         | Ok f => f
         | Raise _ => Float64.nan
         end
  end.

(** *** [sum_yes_by_market] *)

(** [by_market]: the groups in the order their markets first occur. *)
Definition groups : Type := list (pyval * list pyval).

(** [by_market.setdefault(cond, []).append(tid)] for a hashable [cond] *)
Fixpoint group_add (cond tid : pyval) (bm : groups) : groups :=
  match bm with
  | [] => [(cond, [tid])]
  | (k, tids) :: bm' =>
      if py_key_eqb k cond then (k, tids ++ [tid]) :: bm'
      else (k, tids) :: group_add cond tid bm'
  end.

(** [cond and tid and not closed] *)
Definition keep_row (t : pydict) : bool :=
  truthy (dict_get "condition_id" t) && truthy (dict_get "token_id" t)
  && negb (truthy (dict_get "closed" t)).

Fixpoint group_tokens (tokens : list pydict) (bm : groups) : result groups :=
  match tokens with
  | [] => Ok bm
  | t :: rest =>
      let cond := dict_get "condition_id" t in
      let tid := dict_get "token_id" t in
      if keep_row t then
        if hashable cond then group_tokens rest (group_add cond tid bm)
        else Raise TypeError
      else group_tokens rest bm
  end.

(** [[tid for lst in by_market.values() for tid in lst]] *)
Definition all_token_ids (bm : groups) : list pyval :=
  flat_map snd bm.

(** The quote of one token: [price_map[tid].get("BUY")] when
    [tid in price_map], and [None] otherwise. *)
Definition quote (price_map : pydict) (tid : pyval) : result pyval :=
  if hashable tid then
    match tid with
    | PyStr s =>
        match dict_lookup s price_map with
        | Some sides => py_get sides "BUY"
        | None => Ok PyNone
        end
    | _ => Ok PyNone
    end
  else Raise TypeError.

Fixpoint asks_of (price_map : pydict) (tids : list pyval) : result (list float) :=
  match tids with
  | [] => Ok []
  | tid :: rest =>
      rbind (quote price_map tid) (fun p =>
      rbind (asks_of price_map rest) (fun asks =>
      Ok (_to_float p :: asks)))
  end.

Definition finite_of (asks : list float) : list float :=
  filter (fun x => negb (Float64.isnan x)) asks.

(** [sum(finite) if finite else math.nan] *)
Definition sum_or_nan (finite : list float) : float :=
  match finite with
  | [] => Float64.nan
  | _ => py_sum finite
  end.

Definition entry : Type := pyval * Z * float.

Definition entry_sum (x : entry) : float := snd x.

Fixpoint market_sums (price_map : pydict) (bm : groups) : result (list entry) :=
  match bm with
  | [] => Ok []
  | (cond, tids) :: rest =>
      rbind (asks_of price_map tids) (fun asks =>
      let s := sum_or_nan (finite_of asks) in
      rbind (market_sums price_map rest) (fun results =>
      Ok ((cond, Z.of_nat (List.length tids), s) :: results)))
  end.

(** [lambda x: math.inf if math.isnan(x[2]) else x[2]] *)
Definition sort_key (x : entry) : float :=
  if Float64.isnan (entry_sum x) then Float64.inf else entry_sum x.

Definition sum_yes_by_market (tokens : list pydict) : M (list entry) :=
  bind (lift (group_tokens tokens [])) (fun by_market =>
  bind (get_best_prices (all_token_ids by_market) "BUY" 50) (fun price_map =>
  bind (lift (market_sums price_map by_market)) (fun results =>
  ret (py_sort sort_key results)))).

End Api.

Arguments srv {S} w.
Arguments trace {S} w.
Arguments Build_world {S} srv trace.

(** *** [flatten_tokens_from_simplified] *)
Section Flatten.
Variable py_repr : pyval -> string.

(** One output row, for the token [t] of a market. *)
Definition token_row (cond active closed t : pyval) : result pydict :=
  match t with
  | PyDict td =>
      Ok [ ("condition_id", cond);
           ("active", PyBool (truthy active));
           ("closed", PyBool (truthy closed));
           ("token_id",
             match dict_get "token_id" td with
             | PyNone => PyNone
             | v => PyStr (py_str py_repr v)
             end);
           ("label",
             py_or (dict_get "name" td)
               (py_or (dict_get "outcome" td) (dict_get "title" td))) ]
  | _ => Raise AttributeError
  end.

Fixpoint token_rows (cond active closed : pyval) (ts : list pyval)
  : result (list pydict) :=
  match ts with
  | [] => Ok []
  | t :: rest =>
      rbind (token_row cond active closed t) (fun row =>
      rbind (token_rows cond active closed rest) (fun rows =>
      Ok (row :: rows)))
  end.

Definition market_rows (m : pyval) : result (list pydict) :=
  match m with
  | PyDict md =>
      let cond := dict_get "condition_id" md in
      let active := dict_get "active" md in
      let closed := dict_get "closed" md in
      let tokens := py_or (dict_get "tokens" md) (PyList []) in
      rbind (py_iter tokens) (token_rows cond active closed)
  | _ => Raise AttributeError
  end.

Fixpoint flatten_markets (ms : list pyval) : result (list pydict) :=
  match ms with
  | [] => Ok []
  | m :: rest =>
      rbind (market_rows m) (fun rows =>
      rbind (flatten_markets rest) (fun rows' =>
      Ok (rows ++ rows')))
  end.

Definition flatten_tokens_from_simplified (page_json : pydict)
  : result (list pydict) :=
  let data := dict_get_default "data" (PyList []) page_json in
  rbind (py_iter data) flatten_markets.
End Flatten.

(* ================================================================== *)
(** ** Vocabulary of the statements *)
(* ================================================================== *)

(** Ascending by key. *)
Definition key_le {A} (key : A -> float) (a b : A) : Prop :=
  Float64.leb (key a) (key b) = true.

Definition row_condition_id (t : pydict) : pyval := dict_get "condition_id" t.
Definition row_token_id (t : pydict) : pyval := dict_get "token_id" t.
Definition row_closed (t : pydict) : pyval := dict_get "closed" t.

(** The keys of a dictionary. *)
Definition dict_keys (d : pydict) : list string := map fst d.

(** No two groups have the same market id as key. *)
Definition keys_distinct (bm : groups) : Prop :=
  ForallOrdPairs (fun a b => py_key_eqb a b = false) (map fst bm).

(** Every token id of every group comes from a kept row of [tokens]
    whose market id is the key of the group. *)
Definition grouped_by_market (tokens : list pydict) (bm : groups) : Prop :=
  forall c tids tid, In (c, tids) bm -> In tid tids ->
    exists t, In t tokens /\ keep_row t = true
              /\ row_token_id t = tid
              /\ py_key_eqb c (row_condition_id t) = true.

(** The token ids carried by the requests of a trace. *)
Definition requested_ids (exch : list (request * reply)) : list pyval :=
  flat_map (fun qr => match fst qr with
                      | PostPrices params => map fst params
                      | GetBook _ => []
                      end) exch.

(** One result entry against its group: the market id, the number of
    tokens, and the sum of the quotes that are not NaN (NaN when there
    is none). *)
Definition entry_of_group (price_map : pydict) (g : pyval * list pyval)
           (e : entry) : Prop :=
  fst (fst e) = fst g /\
  snd (fst e) = Z.of_nat (List.length (snd g)) /\
  exists asks,
    Forall2 (fun tid a => exists p, quote price_map tid = Ok p /\ a = _to_float p)
            (snd g) asks /\
    ((exists a, In a asks /\ Float64.isnan a = false) ->
       entry_sum e
       = fold_left Float64.add (filter (fun a => negb (Float64.isnan a)) asks)
                   Float64.zero) /\
    ((forall a, In a asks -> Float64.isnan a = true) ->
       entry_sum e = Float64.nan).

(** *** A price oracle as pricing service

    The service answers a batch with the quote of each token the
    oracle knows, under the side asked for, in the order asked. *)
Section Oracle.
Variable oracle : string -> string -> option pyval.

Definition oracle_put (acc : pydict) (p : pyval * string) : pydict :=
  match fst p with
  | PyStr s =>
      match oracle s (snd p) with
      | Some price => dict_set s (PyDict [(snd p, price)]) acc
      | None => acc
      end
  | _ => acc
  end.

Definition oracle_prices (params : list (pyval * string)) : pydict :=
  fold_left oracle_put params [].

Definition oracle_clob (s : unit) (q : request) : reply * unit :=
  match q with
  | PostPrices params =>
      (Answered {| status_code := 200;
                   body := Some (PyDict (oracle_prices params)) |}, tt)
  | GetBook _ => (Answered {| status_code := 404; body := None |}, tt)
  end.

(** The entry of a token in an answer, and the tokens of a batch
    that get one. *)
Definition oracle_entry (side k : string) : string * pyval :=
  (k, PyDict [(side, match oracle k side with Some p => p | None => PyNone end)]).

Definition oracle_keys (side : string) (tids : list pyval) : list string :=
  flat_map (fun tid => match tid with
                       | PyStr s => match oracle s side with
                                    | Some _ => [s]
                                    | None => []
                                    end
                       | _ => []
                       end) tids.
End Oracle.

(** The bounds of a batch. *)
Definition batch_ok (batch_size : Z) (b : list pyval) : Prop :=
  b <> [] /\ Z.of_nat (List.length b) <= batch_size.

(** Every key of the object answered is a key of the mapping [out]. *)
Definition keys_kept (out : pydict) (qr : request * reply) : Prop :=
  forall r d k, snd qr = Answered r -> body r = Some (PyDict d) ->
                In k (dict_keys d) -> dict_mem k out = true.

(** An entry without its sum, and the same for a group. *)
Definition entry_head (e : entry) : pyval * Z := fst e.
Definition group_head (g : pyval * list pyval) : pyval * Z :=
  (fst g, Z.of_nat (List.length (snd g))).

Definition is_none (v : pyval) : bool :=
  match v with PyNone => true | _ => false end.

Definition is_dict (v : pyval) : bool :=
  match v with PyDict _ => true | _ => false end.

(** The token ids of the rows with a non-null token id whose market is
    not flagged closed. *)
Definition open_token_ids (tokens : list pydict) : list pyval :=
  map row_token_id
      (filter (fun t => negb (is_none (row_token_id t))
                        && negb (truthy (row_closed t))) tokens).

(** *** The shape of a simplified-markets page

    [{data: [{condition_id, active, closed, tokens: [{token_id, name}]}]}]:
    the markets are objects, and the tokens of a market are a list of
    objects (or are missing, null or empty). *)
Definition market_tokens (m : pyval) : list pyval :=
  match m with
  | PyDict md =>
      match py_or (dict_get "tokens" md) (PyList []) with
      | PyList ts => ts
      | _ => []
      end
  | _ => []
  end.

Definition well_shaped_market (m : pyval) : bool :=
  match m with
  | PyDict md =>
      match py_or (dict_get "tokens" md) (PyList []) with
      | PyList ts => forallb is_dict ts
      | _ => false
      end
  | _ => false
  end.

Definition page_markets (page : pydict) : list pyval :=
  match dict_get_default "data" (PyList []) page with
  | PyList ms => ms
  | _ => []
  end.

Definition well_shaped_page (page : pydict) : bool :=
  match dict_get_default "data" (PyList []) page with
  | PyList ms => forallb well_shaped_market ms
  | _ => false
  end.

(** [v.get(k)] where [v] is known to be an object. *)
Definition field (k : string) (v : pyval) : pyval :=
  match v with PyDict d => dict_get k d | _ => PyNone end.

(** The label as the first present of name, outcome and title: a
    field that is there and is not null. *)
Definition label_first_present (t : pyval) : pyval :=
  if negb (is_none (field "name" t)) then field "name" t
  else if negb (is_none (field "outcome" t)) then field "outcome" t
  else field "title" t.

(** The label as the first truthy of name, outcome and title, and
    whatever title holds when none is. *)
Definition label_first_truthy (t : pyval) : pyval :=
  if truthy (field "name" t) then field "name" t
  else if truthy (field "outcome" t) then field "outcome" t
  else field "title" t.

(** The row of the token [t] of the market [m]. *)
Definition row_of_token (py_repr : pyval -> string) (label : pyval -> pyval)
           (mt : pyval * pyval) (row : pydict) : Prop :=
  let (m, t) := mt in
  dict_keys row = ["condition_id"; "active"; "closed"; "token_id"; "label"]
  /\ dict_get "condition_id" row = field "condition_id" m
  /\ dict_get "active" row = PyBool (truthy (field "active" m))
  /\ dict_get "closed" row = PyBool (truthy (field "closed" m))
  /\ dict_get "token_id" row
     = (if is_none (field "token_id" t) then PyNone
        else PyStr (py_str py_repr (field "token_id" t)))
  /\ dict_get "label" row = label t.

(** The tokens of a page, each with its market, in page order. *)
Definition page_tokens (page : pydict) : list (pyval * pyval) :=
  flat_map (fun m => map (pair m) (market_tokens m)) (page_markets page).

(** *** Sample data *)

Definition token_row_of (cond tid closed : pyval) : pydict :=
  [("condition_id", cond); ("token_id", tid); ("closed", closed)].

Definition quote_of (side price : string) : pyval :=
  PyDict [(side, PyStr price)].

(** A service that answers every request with one body. *)
Definition const_clob (data : pyval) (s : unit) (q : request)
  : reply * unit :=
  (Answered {| status_code := 200; body := Some data |}, tt).

(** A service that answers every request with one status. *)
Definition status_clob (status : Z) (s : unit) (q : request)
  : reply * unit :=
  (Answered {| status_code := status; body := Some (PyDict []) |}, tt).

Definition w0 : world unit := {| srv := tt; trace := [] |}.

(** Four markets of one token each; the service quotes 0.92, nothing,
    1.05 and 0.5. *)
Definition four_rows : list pydict :=
  [token_row_of (PyStr "A") (PyStr "TA") (PyBool false);
   token_row_of (PyStr "B") (PyStr "TB") (PyBool false);
   token_row_of (PyStr "C") (PyStr "TC") (PyBool false);
   token_row_of (PyStr "D") (PyStr "TD") (PyBool false)].

Definition four_prices : pyval :=
  PyDict [("TA", quote_of "BUY" "0.92"); ("TC", quote_of "BUY" "1.05");
          ("TD", quote_of "BUY" "0.5")].

Definition four_groups : groups :=
  [(PyStr "A", [PyStr "TA"]); (PyStr "B", [PyStr "TB"]);
   (PyStr "C", [PyStr "TC"]); (PyStr "D", [PyStr "TD"])].

Definition four_result : list entry :=
  [(PyStr "D", 1, flt "0.5"); (PyStr "A", 1, flt "0.92");
   (PyStr "C", 1, flt "1.05"); (PyStr "B", 1, Float64.nan)].

(** The world after the one request of that run. *)
Definition four_world : world unit :=
  {| srv := tt;
     trace := [(PostPrices (payload "BUY" (map PyStr ["TA"; "TB"; "TC"; "TD"])),
                Answered {| status_code := 200;
                            body := Some four_prices |})] |}.

Definition two_rows : list pydict :=
  [token_row_of (PyStr "M1") (PyStr "T1") (PyBool false);
   token_row_of (PyStr "M1") (PyStr "T2") (PyBool false)].

Definition two_prices : pyval :=
  PyDict [("T1", quote_of "BUY" "0.45"); ("T2", quote_of "BUY" "0.52")].

(** A row without market id, and one token listed under two markets. *)
Definition stray_rows : list pydict :=
  [token_row_of PyNone (PyStr "T0") (PyBool false);
   token_row_of (PyStr "M1") (PyStr "T1") (PyBool false);
   token_row_of (PyStr "M2") (PyStr "T1") (PyBool false)].

(** A token with an empty name and an outcome. *)
Definition unnamed_token : pyval :=
  PyDict [("token_id", PyStr "T1"); ("name", PyStr ""); ("outcome", PyStr "Yes")].

Definition unnamed_page : pydict :=
  [("data", PyList [PyDict [("condition_id", PyStr "M1");
                            ("active", PyBool true);
                            ("closed", PyBool false);
                            ("tokens", PyList [unnamed_token])]])].

(** One market with two tokens, the second without an id. *)
Definition binary_page : pydict :=
  [("data", PyList [PyDict [("condition_id", PyStr "M1");
                            ("active", PyBool true);
                            ("closed", PyBool false);
                            ("tokens",
                             PyList [PyDict [("token_id", PyInt 7);
                                             ("name", PyStr "Yes")];
                                     PyDict [("outcome", PyStr "No")]])]]);
   ("next_cursor", PyStr "")].

(** A stand-in for the text of floats and containers. *)
Definition no_repr (v : pyval) : string := "".

Definition abc_oracle (tid side : string) : option pyval :=
  if String.eqb side "BUY" && negb (String.eqb tid "c")
  then Some (PyStr "0.5") else None.

(** Keys in order of first occurrence. *)
Definition add_uniq (l : list string) (k : string) : list string :=
  if existsb (String.eqb k) l then l else l ++ [k].

Fixpoint news (seen : list string) (ks : list string) : list string :=
  match ks with
  | [] => []
  | k :: ks' =>
      if existsb (String.eqb k) seen then news seen ks'
      else k :: news (seen ++ [k]) ks'
  end.

(* ================================================================== *)
(** ** The paginated reads of [api.py] *)
(* ================================================================== *)

(** [requests.get(url, params=params, timeout=20)] *)
Record get_request : Type := { url : string; params : pydict }.

Definition GAMMA : string := "https://gamma-api.polymarket.com".
Definition CLOB : string := "https://clob.polymarket.com".
Definition DATA : string := "https://data-api.polymarket.com".

(** [s.lower()] *)
Definition str_lower (s : string) : string :=
  string_of_list_ascii (map FloatParse.lower (list_ascii_of_string s)).

(** [str(b).lower()] for a boolean [b] *)
Definition bool_text (b : bool) : string :=
  str_lower (if b then "True" else "False").

(** The reads against services with states in [S] that answer one GET
    at a time. *)
Section Reads.
Variable S : Type.
Variable http_get : S -> get_request -> reply * S.

Record rworld : Type := { rsrv : S; gets : list (get_request * reply) }.

Definition G (A : Type) : Type := rworld -> result A * rworld.

Definition gret {A} (a : A) : G A := fun w => (Ok a, w).
Definition gbind {A B} (m : G A) (k : A -> G B) : G B :=
  fun w => match m w with
           | (Ok a, w') => k a w'
           | (Raise e, w') => (Raise e, w')
           end.
Definition glift {A} (r : result A) : G A := fun w => (r, w).

(** [requests.get(url, params=params, timeout=20)] *)
Definition gsend (q : get_request) : G response :=
  fun w => let (rp, s') := http_get (rsrv w) q in
           (received rp, {| rsrv := s'; gets := gets w ++ [(q, rp)] |}).

(** [r = requests.get(..); r.raise_for_status(); return r.json()] *)
Definition fetch_json (q : get_request) : G pyval :=
  gbind (gsend q) (fun r =>
  gbind (glift (raise_for_status r)) (fun _ =>
  glift (json r))).

(** *** [list_markets_gamma] *)
Definition gamma_params (limit : Z) (cursor : option string) (closed : bool)
           (active : option bool) : pydict :=
  let params := [("limit", PyInt limit); ("closed", PyStr (bool_text closed))] in
  let params :=
    match active with
    | Some a => dict_set "active" (PyStr (bool_text a)) params
    | None => params
    end in
  match cursor with
  | Some c => if truthy (PyStr c) then dict_set "cursor" (PyStr c) params
              else params
  | None => params
  end.

Definition list_markets_gamma (limit : Z) (cursor : option string)
           (closed : bool) (active : option bool) : G pyval :=
  fetch_json {| url := GAMMA ++ "/markets";
                params := gamma_params limit cursor closed active |}.

(** *** [list_simplified_markets] *)
Definition simplified_params (next_cursor : pyval) : pydict :=
  if truthy next_cursor then [("next_cursor", next_cursor)] else [].

Definition list_simplified_markets (next_cursor : pyval) : G pyval :=
  fetch_json {| url := CLOB ++ "/simplified-markets";
                params := simplified_params next_cursor |}.

(** *** [clob_simplified_pages]

    The generator run to its end, as [main] runs it: the pages it
    yields, and the exception that ends it, if one does.  [n] counts
    the rounds of [for _ in range(max_pages)] that are left. *)
Fixpoint simplified_pages_from (n : nat) (cursor : pyval) (w : rworld)
  : (list pyval * option exn) * rworld :=
  match n with
  | O => (([], None), w)
  | Datatypes.S n' =>
      match list_simplified_markets cursor w with
      | (Raise e, w1) => (([], Some e), w1)
      | (Ok page, w1) =>
          match py_get page "next_cursor" with
          | Raise e => (([page], Some e), w1)
          | Ok cursor' =>
              if truthy cursor' then
                let '((pages, e), w2) := simplified_pages_from n' cursor' w1 in
                ((page :: pages, e), w2)
              else (([page], None), w1)
          end
      end
  end.

Definition clob_simplified_pages (max_pages : Z) (w : rworld)
  : (list pyval * option exn) * rworld :=
  simplified_pages_from (Z.to_nat max_pages) PyNone w.

(** *** [get_trades_dataapi] *)
Definition trades_params (condition_id : option string) (limit : Z) : pydict :=
  let params := [("limit", PyInt limit)] in
  match condition_id with
  | Some c => if truthy (PyStr c) then dict_set "market" (PyStr c) params
              else params
  | None => params
  end.

Definition get_trades_dataapi (condition_id : option string) (limit : Z)
  : G pyval :=
  fetch_json {| url := DATA ++ "/trades";
                params := trades_params condition_id limit |}.
End Reads.

Arguments rsrv {S} _.
Arguments gets {S} _.
Arguments Build_rworld {S} rsrv gets.

(** *** The computing parts of [main] *)

(** [[t for t in tokens if t.get("token_id") and not t.get("closed")]] *)
Definition live_rows (tokens : list pydict) : list pydict :=
  filter (fun t => truthy (dict_get "token_id" t)
                   && negb (truthy (dict_get "closed" t))) tokens.

(** The entries the loop over [sums] prints: those whose sum is not
    NaN, until 15 are shown.  [shown] is the counter of the loop. *)
Fixpoint shown_from (sums : list entry) (shown : Z) : list entry :=
  match sums with
  | [] => []
  | x :: rest =>
      if negb (Float64.isnan (entry_sum x)) then
        x :: (if 15 <=? shown + 1 then [] else shown_from rest (shown + 1))
      else
        if 15 <=? shown then [] else shown_from rest shown
  end.

Definition shown_entries (sums : list entry) : list entry :=
  shown_from sums 0.

(** *** Vocabulary of the further statements *)

(** The status is not an error status. *)
Definition ok_status (r : response) : bool :=
  negb ((400 <=? status_code r) && (status_code r <? 600)).

(** What the client makes of a reply after [raise_for_status()] and
    [json()]: the decoded body, or the exception raised. *)
Definition reply_outcome (rp : reply) : result pyval :=
  rbind (received rp) (fun r =>
  rbind (raise_for_status r) (fun _ => json r)).

Definition good_reply (rp : reply) : bool :=
  match reply_outcome rp with Ok _ => true | Raise _ => false end.

(** The exceptions of a request: the payload cannot be written, no
    answer came, or the answer has an error status or a body that is
    not JSON. *)
Definition request_error (e : exn) : Prop :=
  e = InvalidJSONError \/ (exists why, e = RequestFailed why)
  \/ e = JSONDecodeError
  \/ exists status, e = HTTPError status /\ 400 <= status < 600.

(** The decoded body of a reply (null when there is none). *)
Definition reply_body (rp : reply) : pyval :=
  match rp with
  | Answered r => match body r with Some v => v | None => PyNone end
  | _ => PyNone
  end.

(** The items [get_best_prices] takes from an answer: those of its
    body when it is an object, none otherwise. *)
Definition answer_items (rp : reply) : pydict :=
  match reply_body rp with PyDict d => d | _ => [] end.

(** The items of all answers, in the order received. *)
Definition answered_items (exch : list (request * reply)) : pydict :=
  flat_map (fun qr => answer_items (snd qr)) exch.

(** The value given last to a key. *)
Definition lookup_last (k : string) (items : pydict) : option pyval :=
  dict_lookup k (rev items).

(** The number of tokens of an entry, and the total over a result. *)
Definition entry_count (x : entry) : Z := snd (fst x).

Definition total_count (res : list entry) : Z :=
  fold_right Z.add 0 (map entry_count res).

(** A kept row whose market id cannot be a key. *)
Definition unhashable_row (t : pydict) : Prop :=
  keep_row t = true /\ hashable (row_condition_id t) = false.

(** The pages the normalizer accepts: a list of well-shaped markets
    under [data] (or no [data] at all), or an empty object or an
    empty string there. *)
Definition accepted_page (page : pydict) : bool :=
  match dict_get_default "data" (PyList []) page with
  | PyList ms => forallb well_shaped_market ms
  | PyDict [] => true
  | PyStr s => String.eqb s ""
  | _ => false
  end.

(** A token id as the normalizer leaves it: null or a string. *)
Definition null_or_string (v : pyval) : Prop :=
  v = PyNone \/ exists s, v = PyStr s.

(** The cursor a page hands on. *)
Definition next_cursor_of (page : pyval) : pyval := field "next_cursor" page.

(** The cursor a request for a page carries (null when it has none). *)
Definition cursor_sent (q : get_request) : pyval :=
  dict_get "next_cursor" (params q).

(** Each request after the first carries the cursor of the answer
    before it. *)
Fixpoint cursors_chained (prev : pyval) (exch : list (get_request * reply))
  : Prop :=
  match exch with
  | [] => True
  | (q, rp) :: rest =>
      q = {| url := CLOB ++ "/simplified-markets";
             params := simplified_params prev |}
      /\ cursors_chained (next_cursor_of (reply_body rp)) rest
  end.

(** Sample services and data for the reads. *)
Definition page_service (pages : list pyval) (n : nat) (q : get_request)
  : reply * nat :=
  (Answered {| status_code := 200; body := Some (nth n pages PyNone) |},
   Datatypes.S n).

Definition three_pages : list pyval :=
  [PyDict [("data", PyList []); ("next_cursor", PyStr "c1")];
   PyDict [("data", PyList []); ("next_cursor", PyStr "c2")];
   PyDict [("data", PyList []); ("next_cursor", PyStr "")]].

Definition r0 : rworld nat := {| rsrv := O; gets := [] |}.

Definition status_get (status : Z) (s : unit) (q : get_request)
  : reply * unit :=
  (Answered {| status_code := status; body := Some (PyList []) |}, tt).

Definition g0 : rworld unit := {| rsrv := tt; gets := [] |}.

(** A price service that fails from its second answer on. *)
Definition failing_clob (n : nat) (q : request) : reply * nat :=
  (Answered {| status_code := match n with O => 200 | _ => 503 end;
               body := Some (PyDict [("a", quote_of "BUY" "0.5")]) |},
   Datatypes.S n).

Definition f0 : world nat := {| srv := O; trace := [] |}.

Definition abcde : list pyval := map PyStr ["a"; "b"; "c"; "d"; "e"].

Definition merged_page : pydict :=
  [("data", PyList (page_markets unnamed_page ++ page_markets binary_page))].

Definition unhashable_rows : list pydict :=
  [token_row_of (PyStr "M1") (PyStr "T1") (PyBool false);
   token_row_of (PyList [PyStr "M2"]) (PyStr "T2") (PyBool false)].

(* ================================================================== *)
(** *** Vocabulary of the grouping *)

(** The place of the first group whose key the market id [c] finds. *)
Fixpoint group_index (c : pyval) (bm : groups) : option nat :=
  match bm with
  | [] => None
  | (k, _) :: bm' =>
      if py_key_eqb k c then Some O
      else option_map Datatypes.S (group_index c bm')
  end.

(** The kept rows whose market id finds the group at place [i]. *)
Definition in_group (bm : groups) (i : nat) (t : pydict) : bool :=
  keep_row t
  && match group_index (row_condition_id t) bm with
     | Some j => Nat.eqb j i
     | None => false
     end.

(** Every group holds, in the order of the rows, the token ids of
    exactly the kept rows whose market id finds it. *)
Definition groups_exact (tokens : list pydict) (bm : groups) : Prop :=
  forall i k tids, nth_error bm i = Some (k, tids) ->
    tids = map row_token_id (filter (in_group bm i) tokens).

(** Every kept row has a group: its market id finds one, under a key
    equal to it, and its token id is there. *)
Definition rows_grouped (tokens : list pydict) (bm : groups) : Prop :=
  forall t, In t tokens -> keep_row t = true ->
    exists i k tids,
      group_index (row_condition_id t) bm = Some i
      /\ nth_error bm i = Some (k, tids)
      /\ py_key_eqb k (row_condition_id t) = true
      /\ In (row_token_id t) tids.

(** What holds of the groups once the rows [P] are through: every
    kept row finds a group, and the groups are exact. *)
Definition grouped_so_far (P : list pydict) (bm : groups) : Prop :=
  (forall t, In t P -> keep_row t = true ->
             group_index (row_condition_id t) bm <> None)
  /\ groups_exact P bm.

(** The partition by market id in the words of the specification: one
    group per market id of a kept row, in the order the market ids
    first occur, each with the token ids of the kept rows of that
    market, in the order of the rows. *)
Definition add_id (ids : list pyval) (c : pyval) : list pyval :=
  if existsb (fun k => py_key_eqb k c) ids then ids else ids ++ [c].

Definition market_ids (rows : list pydict) : list pyval :=
  fold_left add_id (map row_condition_id rows) [].

Definition tokens_of (c : pyval) (rows : list pydict) : list pyval :=
  map row_token_id
      (filter (fun t => py_key_eqb c (row_condition_id t)) rows).

Definition partition_by_market (tokens : list pydict) : groups :=
  map (fun c => (c, tokens_of c (filter keep_row tokens)))
      (market_ids (filter keep_row tokens)).

Definition is_str (v : pyval) : bool :=
  match v with PyStr _ => true | _ => false end.

(** The market ids of the kept rows are strings. *)
Definition string_market_ids (tokens : list pydict) : Prop :=
  forall t, In t tokens -> keep_row t = true ->
            is_str (row_condition_id t) = true.

(** The token has a quote to convert: it can be looked up, and what
    the price map holds for it, if anything, is an object. *)
Definition has_quote (price_map : pydict) (tid : pyval) : bool :=
  hashable tid
  && match tid with
     | PyStr s => match dict_lookup s price_map with
                  | Some sides => is_dict sides
                  | None => true
                  end
     | _ => true
     end.

(** Every token of every group has a quote to convert. *)
Definition all_quoted (price_map : pydict) (bm : groups) : bool :=
  forallb (fun g => forallb (has_quote price_map) (snd g)) bm.

(** The answer of [get_book] to a 404. *)
Definition not_found_answer (token_id : pyval) : pyval :=
  PyDict [("error", PyStr "not_found"); ("token_id", token_id)].

(** A service whose answers are not JSON, and one that never
    answers. *)
Definition text_clob (s : unit) (q : request) : reply * unit :=
  (Answered {| status_code := 200; body := None |}, tt).

Definition silent_clob (s : unit) (q : request) : reply * unit :=
  (NoAnswer ReadTimeout, tt).

(** Two markets of one token each, and two price maps for them: one
    with null in the place of the first token's quotes, one with a
    null quote there. *)
Definition two_markets : list pydict :=
  [token_row_of (PyStr "M1") (PyStr "T1") (PyBool false);
   token_row_of (PyStr "M2") (PyStr "T2") (PyBool false)].

Definition null_entry_prices : pyval :=
  PyDict [("T1", PyNone); ("T2", quote_of "BUY" "0.52")].

Definition null_quote_prices : pyval :=
  PyDict [("T1", PyDict [("BUY", PyNone)]); ("T2", quote_of "BUY" "0.52")].

(* ================================================================== *)
(** ** [float] on sample strings *)
(* ================================================================== *)

(** 0.45 is 0x1.ccccccccccccdp-2, 0.52 is 0x1.0a3d70a3d70a4p-1 and
    0.97 is 0x1.f0a3d70a3d70ap-1. *)
Example float_045 :
  py_float (PyStr "0.45") = Ok (S754_finite false 0x1ccccccccccccd (-54)).
Proof. reflexivity. Qed.

Example float_052 :
  py_float (PyStr "0.52") = Ok (S754_finite false 0x10a3d70a3d70a4 (-53)).
Proof. reflexivity. Qed.

Example float_097 :
  py_float (PyStr "0.97") = Ok (S754_finite false 0x1f0a3d70a3d70a (-53)).
Proof. reflexivity. Qed.

Example float_sum_097 :
  Float64.add (flt "0.45") (flt "0.52") = flt "0.97".
Proof. reflexivity. Qed.

Example float_words :
  map FloatParse.parse [" 1e3 "; "1_000"; "-Infinity"; "nan"; "1e400"]
  = [Some (Float64.of_Z 1000); Some (Float64.of_Z 1000);
     Some (S754_infinity true); Some S754_nan; Some (S754_infinity false)].
Proof. reflexivity. Qed.

Example float_rejects :
  map FloatParse.parse [""; "."; "1e"; "0x10"; "1__0"; "_1"; "1 2"; "n/a"]
  = [None; None; None; None; None; None; None; None].
Proof. reflexivity. Qed.

(* ================================================================== *)
(** ** The order on floats *)
(* ================================================================== *)

Lemma SFcompare_antisym x y c :
  SFcompare x y = Some c -> SFcompare y x = Some (CompOpp c).
Proof.
  destruct x as [s1|s1| |s1 m1 e1], y as [s2|s2| |s2 m2 e2]; simpl;
    try discriminate;
    try (intros H; injection H as <-);
    try (destruct s1; reflexivity);
    try (destruct s2; reflexivity);
    try (destruct s1, s2; reflexivity).
  destruct s1, s2; try reflexivity;
    rewrite (Z.compare_antisym e1 e2);
    destruct (e1 ?= e2); simpl; try reflexivity;
    change (Pos.compare_cont Eq) with Pos.compare;
    rewrite (Pos.compare_antisym m1 m2);
    try rewrite CompOpp_involutive; reflexivity.
Qed.

Lemma SFcompare_not_nan x y :
  Float64.isnan x = false -> Float64.isnan y = false ->
  exists c, SFcompare x y = Some c.
Proof.
  destruct x, y; simpl; try discriminate; intros _ _; eauto.
Qed.

Lemma SFleb_trans x y z :
  SFleb x y = true -> SFleb y z = true -> SFleb x z = true.
Proof.
  unfold SFleb.
  destruct x as [s1|s1| |s1 m1 e1], y as [s2|s2| |s2 m2 e2],
           z as [s3|s3| |s3 m3 e3]; simpl; try discriminate; try reflexivity;
    try (destruct s1; try discriminate; try reflexivity);
    try (destruct s2; try discriminate; try reflexivity);
    try (destruct s3; try discriminate; try reflexivity);
    change (Pos.compare_cont Eq) with Pos.compare;
    repeat match goal with
           | |- context [(?a ?= ?b)%Z] => destruct (Z.compare_spec a b)
           | |- context [(?a ?= ?b)%positive] => destruct (Pos.compare_spec a b)
           end; simpl; try discriminate; try reflexivity; intros _ _; lia.
Qed.

Lemma ltb_leb x y : Float64.ltb x y = true -> Float64.leb x y = true.
Proof.
  unfold Float64.ltb, Float64.leb, SFltb, SFleb.
  destruct (SFcompare x y) as [[]|]; congruence.
Qed.

Lemma not_ltb_leb x y :
  Float64.isnan x = false -> Float64.isnan y = false ->
  Float64.ltb y x = false -> Float64.leb x y = true.
Proof.
  intros Hx Hy.
  destruct (SFcompare_not_nan y x Hy Hx) as [c Hc].
  unfold Float64.ltb, Float64.leb, SFltb, SFleb.
  rewrite Hc, (SFcompare_antisym _ _ _ Hc).
  destruct c; simpl; congruence.
Qed.

Lemma leb_not_ltb x y : Float64.leb x y = true -> Float64.ltb y x = false.
Proof.
  unfold Float64.ltb, Float64.leb, SFltb, SFleb.
  destruct (SFcompare x y) as [c|] eqn:Hc; try discriminate.
  rewrite (SFcompare_antisym _ _ _ Hc).
  destruct c; simpl; congruence.
Qed.

Lemma eqb_leb x y : Float64.eqb x y = true -> Float64.leb x y = true.
Proof.
  unfold Float64.eqb, Float64.leb, SFeqb, SFleb.
  destruct (SFcompare x y) as [[]|]; congruence.
Qed.

Lemma eqb_sym x y : Float64.eqb x y = true -> Float64.eqb y x = true.
Proof.
  unfold Float64.eqb, SFeqb.
  destruct (SFcompare x y) as [c|] eqn:Hc; try discriminate.
  rewrite (SFcompare_antisym _ _ _ Hc).
  destruct c; simpl; congruence.
Qed.

Lemma eqb_refl x : Float64.isnan x = false -> Float64.eqb x x = true.
Proof.
  unfold Float64.eqb, SFeqb.
  destruct x as [s|s| |s m e]; simpl; try discriminate; intros _;
    try (destruct s; reflexivity).
  destruct s; rewrite Z.compare_refl;
    change (Pos.compare_cont Eq) with Pos.compare;
    rewrite Pos.compare_refl; reflexivity.
Qed.

(** Elements with one key cannot be strictly ordered. *)
Lemma same_key_not_ltb a b k :
  Float64.eqb a k = true -> Float64.eqb b k = true -> Float64.ltb b a = false.
Proof.
  intros Ha Hb. apply leb_not_ltb.
  apply (SFleb_trans a k b).
  - apply eqb_leb, Ha.
  - apply eqb_leb, eqb_sym, Hb.
Qed.

(* ================================================================== *)
(** ** [list.sort]: a stable sorted rearrangement *)
(* ================================================================== *)

Section SortFacts.
Context {A : Type} (key : A -> float).
Hypothesis key_not_nan : forall x, Float64.isnan (key x) = false.

Lemma sort_insert_perm x l : Permutation (sort_insert key x l) (x :: l).
Proof.
  induction l as [|y l IH]; simpl.
  - apply Permutation_refl.
  - destruct (Float64.ltb (key y) (key x)).
    + eapply perm_trans; [apply perm_skip, IH | apply perm_swap].
    + apply Permutation_refl.
Qed.

Lemma py_sort_perm l : Permutation (py_sort key l) l.
Proof.
  induction l as [|x l IH]; simpl.
  - apply perm_nil.
  - eapply perm_trans; [apply sort_insert_perm | apply perm_skip, IH].
Qed.

Lemma sort_insert_sorted x l :
  StronglySorted (key_le key) l -> StronglySorted (key_le key) (sort_insert key x l).
Proof.
  induction 1 as [|y l Hs IH Hall]; simpl.
  - constructor; constructor.
  - destruct (Float64.ltb (key y) (key x)) eqn:Hlt.
    + constructor; [exact IH|].
      eapply Permutation_Forall.
      * apply Permutation_sym, sort_insert_perm.
      * constructor; [apply ltb_leb, Hlt | exact Hall].
    + assert (Hxy : key_le key x y)
        by (apply not_ltb_leb; auto).
      constructor; [constructor; assumption|].
      constructor; [exact Hxy|].
      eapply Forall_impl; [|exact Hall].
      intros z Hz. eapply SFleb_trans; [exact Hxy | exact Hz].
Qed.

Lemma py_sort_sorted l : StronglySorted (key_le key) (py_sort key l).
Proof.
  induction l as [|x l IH]; simpl.
  - constructor.
  - apply sort_insert_sorted, IH.
Qed.

(** Stability: the elements of one key keep their order. *)
Lemma sort_insert_stable k x l :
  filter (fun a => Float64.eqb (key a) k) (sort_insert key x l)
  = filter (fun a => Float64.eqb (key a) k) (x :: l).
Proof.
  induction l as [|y l IH]; [reflexivity|].
  simpl sort_insert.
  destruct (Float64.ltb (key y) (key x)) eqn:Hlt; [|reflexivity].
  change (filter ?f (y :: ?t)) with (if f y then y :: filter f t else filter f t).
  cbv beta. rewrite IH. simpl.
  destruct (Float64.eqb (key x) k) eqn:Hx, (Float64.eqb (key y) k) eqn:Hy;
    try reflexivity.
  rewrite (same_key_not_ltb _ _ _ Hx Hy) in Hlt. discriminate.
Qed.

Lemma py_sort_stable k l :
  filter (fun a => Float64.eqb (key a) k) (py_sort key l)
  = filter (fun a => Float64.eqb (key a) k) l.
Proof.
  induction l as [|x l IH]; [reflexivity|].
  simpl py_sort. rewrite sort_insert_stable. simpl. now rewrite IH.
Qed.
End SortFacts.

(* ================================================================== *)
(** ** Grouping by market *)
(* ================================================================== *)

Lemma py_key_eqb_refl v : hashable v = true -> py_key_eqb v v = true.
Proof.
  destruct v as [|b|z|x|s|l|d]; simpl; try discriminate; intros _.
  - reflexivity.
  - destruct b; reflexivity.
  - apply Z.eqb_refl.
  - destruct (Float64.isnan x) eqn:Hn.
    + now rewrite orb_true_r.
    + now rewrite eqb_refl.
  - apply String.eqb_refl.
Qed.

Lemma group_add_ids c tid bm :
  Permutation (all_token_ids (group_add c tid bm)) (all_token_ids bm ++ [tid]).
Proof.
  unfold all_token_ids.
  induction bm as [|[k tids] bm IH]; simpl.
  - apply Permutation_refl.
  - destruct (py_key_eqb k c); simpl.
    + rewrite <- !app_assoc.
      apply Permutation_app_head, Permutation_app_comm.
    + rewrite <- app_assoc. apply Permutation_app_head, IH.
Qed.

Lemma group_add_keys c tid bm :
  map fst (group_add c tid bm)
  = if existsb (fun k => py_key_eqb k c) (map fst bm)
    then map fst bm else map fst bm ++ [c].
Proof.
  induction bm as [|[k tids] bm IH]; simpl; [reflexivity|].
  destruct (py_key_eqb k c); simpl; [reflexivity|].
  rewrite IH. now destruct (existsb _ _).
Qed.

Lemma ForallOrdPairs_snoc {A} (R : A -> A -> Prop) l x :
  ForallOrdPairs R l -> Forall (fun a => R a x) l ->
  ForallOrdPairs R (l ++ [x]).
Proof.
  induction 1 as [|a l Ha Hl IH]; intros Hx; simpl.
  - constructor; constructor.
  - inversion Hx; subst. constructor.
    + apply Forall_app; split; [assumption|]. constructor; [assumption|constructor].
    + apply IH; assumption.
Qed.

Lemma group_add_distinct c tid bm :
  keys_distinct bm -> keys_distinct (group_add c tid bm).
Proof.
  unfold keys_distinct. intros H. rewrite group_add_keys.
  destruct (existsb _ _) eqn:He; [exact H|].
  apply ForallOrdPairs_snoc; [exact H|].
  apply Forall_forall. intros k Hk.
  destruct (py_key_eqb k c) eqn:Hkc; [|reflexivity].
  assert (existsb (fun k => py_key_eqb k c) (map fst bm) = true)
    by (apply existsb_exists; eauto).
  congruence.
Qed.

Lemma group_add_In c tid bm k tids x :
  hashable c = true ->
  In (k, tids) (group_add c tid bm) -> In x tids ->
  (exists tids0, In (k, tids0) bm /\ In x tids0)
  \/ (x = tid /\ py_key_eqb k c = true).
Proof.
  intros Hh. induction bm as [|[k0 t0] bm IH]; simpl.
  - intros [H|[]] Hx. injection H as <- <-.
    destruct Hx as [<-|[]]. right. split; [reflexivity|].
    now apply py_key_eqb_refl.
  - destruct (py_key_eqb k0 c) eqn:Hk; simpl.
    + intros [H|H] Hx.
      * injection H as <- <-. apply in_app_or in Hx as [Hx|[<-|[]]].
        -- left. eauto.
        -- right. auto.
      * left. eauto.
    + intros [H|H] Hx.
      * injection H as <- <-. left. eauto.
      * destruct (IH H Hx) as [(t1 & H1 & H2)|H1]; [left; eauto|right; exact H1].
Qed.

Lemma group_tokens_ids tokens : forall bm0 bm,
  group_tokens tokens bm0 = Ok bm ->
  Permutation (all_token_ids bm)
              (all_token_ids bm0 ++ map row_token_id (filter keep_row tokens)).
Proof.
  induction tokens as [|t tokens IH]; simpl; intros bm0 bm H.
  - injection H as <-. rewrite app_nil_r. apply Permutation_refl.
  - destruct (keep_row t).
    + destruct (hashable _); [|discriminate].
      eapply perm_trans; [apply (IH _ _ H)|].
      simpl. eapply perm_trans.
      * apply Permutation_app_tail, group_add_ids.
      * rewrite <- app_assoc. apply Permutation_refl.
    + apply (IH _ _ H).
Qed.

Lemma group_tokens_distinct tokens : forall bm0 bm,
  group_tokens tokens bm0 = Ok bm -> keys_distinct bm0 -> keys_distinct bm.
Proof.
  induction tokens as [|t tokens IH]; simpl; intros bm0 bm H Hd.
  - now injection H as <-.
  - destruct (keep_row t).
    + destruct (hashable _); [|discriminate].
      apply (IH _ _ H), group_add_distinct, Hd.
    + apply (IH _ _ H Hd).
Qed.

Lemma group_tokens_grouped all tokens : forall bm0 bm,
  incl tokens all ->
  group_tokens tokens bm0 = Ok bm ->
  grouped_by_market all bm0 -> grouped_by_market all bm.
Proof.
  induction tokens as [|t tokens IH]; simpl; intros bm0 bm Hi H Hg.
  - now injection H as <-.
  - assert (Hi' : incl tokens all) by (intros x Hx; apply Hi; now right).
    destruct (keep_row t) eqn:Hk.
    + destruct (hashable _) eqn:Hh; [|discriminate].
      apply (IH _ _ Hi' H).
      intros c tids tid Hin Hx.
      destruct (group_add_In _ _ _ _ _ _ Hh Hin Hx) as [(t0 & H0 & H1)|[-> Hc]].
      * eapply Hg; eauto.
      * exists t. repeat split; auto. apply Hi. now left.
    + apply (IH _ _ Hi' H Hg).
Qed.

(** A row that is not kept leaves no mark. *)
Lemma group_tokens_skip l1 t l2 : forall bm0,
  keep_row t = false ->
  group_tokens (l1 ++ t :: l2) bm0 = group_tokens (l1 ++ l2) bm0.
Proof.
  induction l1 as [|x l1 IH]; simpl; intros bm0 Hk.
  - now rewrite Hk.
  - destruct (keep_row x); [destruct (hashable _)|]; auto.
Qed.

(** *** The groups, exactly *)

Lemma filter_none {A} (f : A -> bool) l :
  (forall x, In x l -> f x = false) -> filter f l = [].
Proof.
  induction l as [|x l IH]; intros H; [reflexivity|].
  simpl. rewrite (H x) by now left. apply IH. intros y Hy. apply H. now right.
Qed.

Lemma group_index_found c bm i :
  group_index c bm = Some i ->
  exists k tids, nth_error bm i = Some (k, tids) /\ py_key_eqb k c = true.
Proof.
  revert i. induction bm as [|[k tids] bm IH]; simpl; intros i H; [discriminate|].
  destruct (py_key_eqb k c) eqn:E.
  - injection H as <-. simpl. eauto.
  - destruct (group_index c bm) as [j|]; [|discriminate].
    injection H as <-. simpl. apply IH. reflexivity.
Qed.

Lemma group_index_lt c bm i :
  group_index c bm = Some i -> (i < List.length bm)%nat.
Proof.
  intros H. apply group_index_found in H as (k & tids & H & _).
  apply nth_error_Some. congruence.
Qed.

Lemma group_index_snoc c' bm c tids :
  group_index c' (bm ++ [(c, tids)])
  = match group_index c' bm with
    | Some j => Some j
    | None => if py_key_eqb c c' then Some (List.length bm) else None
    end.
Proof.
  induction bm as [|[k t] bm IH]; simpl.
  - now destruct (py_key_eqb c c').
  - destruct (py_key_eqb k c'); [reflexivity|].
    rewrite IH. destruct (group_index c' bm); [reflexivity|].
    now destruct (py_key_eqb c c').
Qed.

Lemma group_add_new c tid bm :
  group_index c bm = None -> group_add c tid bm = bm ++ [(c, [tid])].
Proof.
  induction bm as [|[k t] bm IH]; simpl; [reflexivity|].
  destruct (py_key_eqb k c); [discriminate|].
  destruct (group_index c bm); [discriminate|].
  intros _. now rewrite IH.
Qed.

(** Adding to an existing group changes no key. *)
Lemma group_add_index c tid bm j c' :
  group_index c bm = Some j ->
  group_index c' (group_add c tid bm) = group_index c' bm.
Proof.
  revert j. induction bm as [|[k t] bm IH]; simpl; intros j H; [discriminate|].
  destruct (py_key_eqb k c) eqn:E; simpl; [reflexivity|].
  destruct (group_index c bm) as [j'|]; [|discriminate].
  now rewrite (IH j').
Qed.

Lemma group_add_nth c tid bm j i :
  group_index c bm = Some j ->
  nth_error (group_add c tid bm) i
  = if Nat.eqb j i
    then option_map (fun g => (fst g, snd g ++ [tid])) (nth_error bm i)
    else nth_error bm i.
Proof.
  revert j i. induction bm as [|[k t] bm IH]; simpl; intros j i H; [discriminate|].
  destruct (py_key_eqb k c) eqn:E; simpl.
  - injection H as <-. destruct i; reflexivity.
  - destruct (group_index c bm) as [j'|]; [|discriminate].
    injection H as <-. destruct i as [|i]; [reflexivity|].
    simpl. now apply IH.
Qed.

Lemma in_group_other bm i t : keep_row t = false -> in_group bm i t = false.
Proof. unfold in_group. now intros ->. Qed.

Lemma grouped_so_far_skip P bm t :
  keep_row t = false -> grouped_so_far P bm -> grouped_so_far (P ++ [t]) bm.
Proof.
  intros Hk [H1 H2]. split.
  - intros t' Hin Hk'. apply in_app_or in Hin as [Hin|[<-|[]]]; [auto|congruence].
  - intros i k tids Hn. rewrite filter_app. simpl.
    rewrite (in_group_other _ _ _ Hk), app_nil_r. apply (H2 _ _ _ Hn).
Qed.

Lemma grouped_so_far_add P bm t :
  keep_row t = true -> hashable (row_condition_id t) = true ->
  grouped_so_far P bm ->
  grouped_so_far (P ++ [t]) (group_add (row_condition_id t) (row_token_id t) bm).
Proof.
  intros Hk Hh [H1 H2].
  assert (Hcc := py_key_eqb_refl _ Hh).
  set (c := row_condition_id t) in *. set (tid := row_token_id t).
  assert (Hsame : forall t', In t' P -> keep_row t' = true ->
            group_index (row_condition_id t') (group_add c tid bm)
            = group_index (row_condition_id t') bm).
  { intros t' Hin Hk'. destruct (group_index c bm) as [j|] eqn:Hc.
    - apply (group_add_index _ _ _ _ _ Hc).
    - rewrite (group_add_new _ _ _ Hc), group_index_snoc.
      destruct (group_index (row_condition_id t') bm) eqn:E; [reflexivity|].
      now apply H1 in E. }
  assert (Hfil : forall i, filter (in_group (group_add c tid bm) i) P
                           = filter (in_group bm i) P).
  { intros i. apply filter_ext_in. intros t' Hin. unfold in_group.
    destruct (keep_row t') eqn:Hk'; [|reflexivity].
    now rewrite (Hsame _ Hin Hk'). }
  assert (Hnew : exists j, group_index c (group_add c tid bm) = Some j
                           /\ match group_index c bm with
                              | Some j' => j = j'
                              | None => j = List.length bm
                              end).
  { destruct (group_index c bm) as [j|] eqn:Hc.
    - exists j. split; [|reflexivity].
      rewrite (group_add_index _ _ _ _ _ Hc). exact Hc.
    - exists (List.length bm). split; [|reflexivity].
      rewrite (group_add_new _ _ _ Hc), group_index_snoc, Hc.
      now rewrite Hcc. }
  destruct Hnew as (j & Hj & Hjj).
  split.
  - intros t' Hin Hk'. apply in_app_or in Hin as [Hin|[<-|[]]].
    + rewrite (Hsame _ Hin Hk'). now apply H1.
    + fold c. congruence.
  - intros i k tids Hn. rewrite filter_app, Hfil, map_app. simpl.
    unfold in_group at 2. fold c. rewrite Hk, Hj. simpl.
    destruct (group_index c bm) as [j'|] eqn:Hc.
    + subst j'. rewrite (group_add_nth _ _ _ _ i Hc) in Hn.
      destruct (Nat.eqb j i) eqn:E.
      * destruct (nth_error bm i) as [[k0 t0]|] eqn:Hb; [|discriminate].
        simpl in Hn. injection Hn as <- <-.
        now rewrite (H2 _ _ _ Hb) at 1.
      * rewrite app_nil_r. apply (H2 _ _ _ Hn).
    + subst j. rewrite (group_add_new _ _ _ Hc) in Hn.
      destruct (Nat.eqb (List.length bm) i) eqn:E.
      * apply Nat.eqb_eq in E. subst i.
        rewrite nth_error_app2, Nat.sub_diag in Hn by lia.
        simpl in Hn. injection Hn as <- <-.
        rewrite filter_none; [reflexivity|].
        intros t' Hin. unfold in_group.
        destruct (keep_row t') eqn:Hk'; [|reflexivity]. simpl.
        destruct (group_index (row_condition_id t') bm) as [j|] eqn:Ej;
          [|reflexivity].
        apply group_index_lt in Ej. apply Nat.eqb_neq. lia.
      * apply Nat.eqb_neq in E. rewrite app_nil_r.
        assert (Hi : (i < List.length bm)%nat).
        { assert (Hl : (i < List.length (bm ++ [(c, [tid])]))%nat)
            by (apply nth_error_Some; congruence).
          rewrite length_app in Hl. simpl in Hl. lia. }
        rewrite nth_error_app1 in Hn by exact Hi. apply (H2 _ _ _ Hn).
Qed.

Lemma group_tokens_exact tokens : forall P bm0 bm,
  group_tokens tokens bm0 = Ok bm ->
  grouped_so_far P bm0 -> grouped_so_far (P ++ tokens) bm.
Proof.
  induction tokens as [|t tokens IH]; simpl; intros P bm0 bm H Hinv.
  - injection H as <-. now rewrite app_nil_r.
  - replace (P ++ t :: tokens) with ((P ++ [t]) ++ tokens)
      by (now rewrite <- app_assoc).
    destruct (keep_row t) eqn:Hk.
    + destruct (hashable _) eqn:Hh; [|discriminate].
      apply (IH _ _ _ H). now apply grouped_so_far_add.
    + apply (IH _ _ _ H). now apply grouped_so_far_skip.
Qed.

Lemma grouped_so_far_rows tokens bm :
  grouped_so_far tokens bm -> rows_grouped tokens bm.
Proof.
  intros [H1 H2] t Hin Hk.
  destruct (group_index (row_condition_id t) bm) as [i|] eqn:Hi;
    [|now apply H1 in Hi].
  destruct (group_index_found _ _ _ Hi) as (k & tids & Hn & He).
  exists i, k, tids. split; [reflexivity|]. split; [exact Hn|].
  split; [exact He|]. rewrite (H2 _ _ _ Hn). apply in_map.
  apply filter_In. split; [exact Hin|].
  unfold in_group. now rewrite Hk, Hi, Nat.eqb_refl.
Qed.

(** When every kept market id can be a key, the grouping succeeds. *)
Lemma group_tokens_total tokens : forall bm0,
  (forall t, In t tokens -> keep_row t = true ->
             hashable (row_condition_id t) = true) ->
  exists bm, group_tokens tokens bm0 = Ok bm.
Proof.
  induction tokens as [|t tokens IH]; simpl; intros bm0 H; eauto.
  destruct (keep_row t) eqn:Hk.
  - fold (row_condition_id t). rewrite (H t) by auto.
    apply IH. intros t' Hin. apply H. now right.
  - apply IH. intros t' Hin. apply H. now right.
Qed.

(** *** The partition of the specification *)

Lemma str_key_eqb a b :
  is_str a = true -> is_str b = true ->
  py_key_eqb a b = true <-> a = b.
Proof.
  destruct a; try discriminate. destruct b; try discriminate. intros _ _.
  simpl. rewrite String.eqb_eq. split; congruence.
Qed.

Lemma str_key_refl a : is_str a = true -> py_key_eqb a a = true.
Proof. intros H. now apply str_key_eqb. Qed.

Lemma existsb_str_key c ids :
  is_str c = true -> Forall (fun k => is_str k = true) ids ->
  existsb (fun k => py_key_eqb k c) ids = true <-> In c ids.
Proof.
  intros Hc Hids. rewrite existsb_exists. rewrite Forall_forall in Hids. split.
  - intros (k & Hin & He). apply str_key_eqb in He; [now subst|auto|exact Hc].
  - intros Hin. exists c. split; [exact Hin|now apply str_key_refl].
Qed.

(** The market ids listed: each kept market id, once. *)
Lemma add_ids_spec cs : forall ids,
  Forall (fun k => is_str k = true) cs ->
  Forall (fun k => is_str k = true) ids -> NoDup ids ->
  Forall (fun k => is_str k = true) (fold_left add_id cs ids)
  /\ NoDup (fold_left add_id cs ids)
  /\ (forall c, In c (fold_left add_id cs ids) <-> In c ids \/ In c cs).
Proof.
  induction cs as [|c cs IH]; simpl; intros ids Hcs Hids Hn.
  - split; [exact Hids|]. split; [exact Hn|]. intros c. tauto.
  - inversion Hcs as [|? ? Hc Hcs']; subst.
    assert (Hadd : Forall (fun k => is_str k = true) (add_id ids c)
                   /\ NoDup (add_id ids c)
                   /\ forall x, In x (add_id ids c) <-> In x ids \/ x = c).
    { unfold add_id.
      destruct (existsb (fun k => py_key_eqb k c) ids) eqn:E.
      - apply (existsb_str_key _ _ Hc Hids) in E.
        split; [exact Hids|]. split; [exact Hn|].
        intros x. split; [auto|]. intros [H| ->]; assumption.
      - assert (Hnin : ~ In c ids).
        { intros Hin. apply (existsb_str_key _ _ Hc Hids) in Hin. congruence. }
        split; [apply Forall_app; split; [exact Hids|now constructor]|].
        split.
        + apply NoDup_app; [exact Hn|constructor; [intros []|constructor]|].
          intros x Hx [<-|[]]. contradiction.
        + intros x. rewrite in_app_iff. simpl. split.
          * intros [H|[<-|[]]]; auto.
          * intros [H| ->]; auto. }
    destruct Hadd as (Ha1 & Ha2 & Ha3).
    destruct (IH _ Hcs' Ha1 Ha2) as (I1 & I2 & I3).
    split; [exact I1|]. split; [exact I2|].
    intros x. rewrite I3, Ha3. split.
    + intros [[H|H]|H]; auto.
    + intros [H|[H|H]]; auto.
Qed.

Lemma market_ids_spec rows :
  Forall (fun t => is_str (row_condition_id t) = true) rows ->
  Forall (fun k => is_str k = true) (market_ids rows)
  /\ NoDup (market_ids rows)
  /\ (forall c, In c (market_ids rows) <-> In c (map row_condition_id rows)).
Proof.
  intros H. unfold market_ids.
  destruct (add_ids_spec (map row_condition_id rows) [])
    as (H1 & H2 & H3); [now apply Forall_map|constructor|constructor|].
  split; [exact H1|]. split; [exact H2|].
  intros c. rewrite H3. simpl. tauto.
Qed.

(** Adding a token to groups given by their keys, at most one of
    which the market id finds. *)
Lemma group_add_map (g : pyval -> list pyval) c tid : forall ids,
  py_key_eqb c c = true ->
  NoDup ids ->
  (forall k, In k ids -> py_key_eqb k c = true -> k = c) ->
  (~ In c ids -> g c = []) ->
  group_add c tid (map (fun k => (k, g k)) ids)
  = map (fun k => (k, g k ++ if py_key_eqb k c then [tid] else []))
        (add_id ids c).
Proof.
  intros ids Hr. unfold add_id.
  induction ids as [|k ids IH]; simpl; intros Hn Hm Hg.
  - rewrite Hr, Hg by tauto. reflexivity.
  - inversion Hn as [|? ? Hk Hn']; subst.
    destruct (py_key_eqb k c) eqn:E; simpl.
    + rewrite E. f_equal. apply map_ext_in. intros k' Hin.
      destruct (py_key_eqb k' c) eqn:E'; [|now rewrite app_nil_r].
      assert (k = c) by (apply Hm; auto).
      assert (k' = c) by (apply Hm; auto).
      subst. contradiction.
    + rewrite IH; [| exact Hn' | intros; apply Hm; auto | ].
      * destruct (existsb (fun k0 => py_key_eqb k0 c) ids); simpl;
          now rewrite E, app_nil_r.
      * intros Hnin. apply Hg. intros [->|Hin]; [|contradiction].
        congruence.
Qed.

Lemma tokens_of_snoc c rows t :
  tokens_of c (rows ++ [t])
  = tokens_of c rows
    ++ (if py_key_eqb c (row_condition_id t) then [row_token_id t] else []).
Proof.
  unfold tokens_of. rewrite filter_app, map_app. simpl.
  now destruct (py_key_eqb c (row_condition_id t)).
Qed.

Lemma market_ids_snoc rows t :
  market_ids (rows ++ [t]) = add_id (market_ids rows) (row_condition_id t).
Proof. unfold market_ids. now rewrite map_app, fold_left_app. Qed.

Lemma partition_add P t :
  keep_row t = true ->
  string_market_ids (P ++ [t]) ->
  group_add (row_condition_id t) (row_token_id t) (partition_by_market P)
  = partition_by_market (P ++ [t]).
Proof.
  intros Hk Hs. unfold partition_by_market.
  rewrite filter_app. simpl. rewrite Hk.
  set (K := filter keep_row P). set (c := row_condition_id t).
  assert (Hc : is_str c = true) by (apply Hs; [apply in_or_app; simpl; auto|exact Hk]).
  assert (HK : Forall (fun t' => is_str (row_condition_id t') = true) K).
  { apply Forall_forall. intros t' Hin. apply filter_In in Hin as [Hin Hk'].
    apply Hs; [apply in_or_app; now left|exact Hk']. }
  destruct (market_ids_spec K HK) as (I1 & I2 & I3).
  rewrite market_ids_snoc. fold c.
  rewrite (group_add_map (fun k => tokens_of k K)).
  - apply map_ext_in. intros k Hin. now rewrite tokens_of_snoc.
  - now apply str_key_refl.
  - exact I2.
  - intros k Hin He. rewrite Forall_forall in I1.
    apply str_key_eqb in He; auto.
  - intros Hnin. unfold tokens_of. rewrite filter_none; [reflexivity|].
    intros t' Hin. destruct (py_key_eqb c (row_condition_id t')) eqn:E;
      [|reflexivity].
    rewrite Forall_forall in HK.
    apply str_key_eqb in E; auto. exfalso. apply Hnin.
    apply I3. rewrite E. now apply in_map.
Qed.

Lemma partition_skip P t :
  keep_row t = false -> partition_by_market (P ++ [t]) = partition_by_market P.
Proof.
  intros Hk. unfold partition_by_market. rewrite filter_app. simpl.
  now rewrite Hk, app_nil_r.
Qed.

Lemma group_tokens_partition tokens : forall P,
  string_market_ids (P ++ tokens) ->
  group_tokens tokens (partition_by_market P)
  = Ok (partition_by_market (P ++ tokens)).
Proof.
  induction tokens as [|t tokens IH]; simpl; intros P Hs.
  - now rewrite app_nil_r.
  - replace (P ++ t :: tokens) with ((P ++ [t]) ++ tokens) in *
      by (now rewrite <- app_assoc).
    assert (Hs' : string_market_ids (P ++ [t])).
    { intros t' Hin. apply Hs. apply in_or_app. now left. }
    destruct (keep_row t) eqn:Hk.
    + assert (Hc : is_str (row_condition_id t) = true).
      { apply Hs'; [apply in_or_app; simpl; auto|exact Hk]. }
      unfold row_condition_id in Hc.
      destruct (dict_get "condition_id" t) eqn:Ec; try discriminate.
      simpl hashable. cbv iota.
      rewrite <- (IH _ Hs). f_equal.
      rewrite <- (partition_add P t Hk Hs').
      unfold row_condition_id, row_token_id. now rewrite Ec.
    + rewrite <- (IH _ Hs). now rewrite (partition_skip P t Hk).
Qed.

(* ================================================================== *)
(** ** Dictionaries *)
(* ================================================================== *)

Lemma dict_lookup_set k k' v d :
  dict_lookup k' (dict_set k v d)
  = if String.eqb k' k then Some v else dict_lookup k' d.
Proof.
  induction d as [|[k0 v0] d IH]; simpl.
  - reflexivity.
  - destruct (String.eqb k k0) eqn:E; simpl.
    + apply String.eqb_eq in E. subst k0.
      now destruct (String.eqb k' k).
    + rewrite IH. destruct (String.eqb k' k0) eqn:E0; [|reflexivity].
      apply String.eqb_eq in E0. subst k0.
      now rewrite String.eqb_sym, E.
Qed.

Lemma dict_mem_set k k' v d :
  dict_mem k' (dict_set k v d) = String.eqb k' k || dict_mem k' d.
Proof.
  unfold dict_mem. rewrite dict_lookup_set.
  now destruct (String.eqb k' k).
Qed.

Lemma dict_mem_In k d : dict_mem k d = true <-> In k (dict_keys d).
Proof.
  unfold dict_mem, dict_keys.
  induction d as [|[k0 v0] d IH]; simpl.
  - split; [discriminate|contradiction].
  - destruct (String.eqb k k0) eqn:E.
    + apply String.eqb_eq in E. subst. split; auto.
    + apply String.eqb_neq in E. rewrite IH. split; [auto|].
      intros [H|H]; [congruence|exact H].
Qed.

Lemma merge_mem k d : forall out,
  dict_mem k (fold_left (fun o kv => dict_set (fst kv) (snd kv) o) d out)
  = dict_mem k out || dict_mem k d.
Proof.
  induction d as [|[k0 v0] d IH]; intros out; simpl.
  - now rewrite orb_false_r.
  - rewrite IH, dict_mem_set.
    replace (dict_mem k ((k0, v0) :: d))
      with (String.eqb k k0 || dict_mem k d)
      by (unfold dict_mem; simpl; now destruct (String.eqb k k0)).
    destruct (String.eqb k k0), (dict_mem k out), (dict_mem k d); reflexivity.
Qed.

Lemma merge_prices_mem k out data :
  dict_mem k (merge_prices out data)
  = dict_mem k out
    || match data with PyDict d => dict_mem k d | _ => false end.
Proof.
  destruct data; simpl; try now rewrite orb_false_r.
  apply merge_mem.
Qed.

(* ================================================================== *)
(** ** Batches *)
(* ================================================================== *)

Lemma py_slice_incl {A} (l : list A) i j : incl (py_slice l i j) l.
Proof.
  unfold py_slice. intros x Hx.
  rewrite <- (firstn_skipn (Z.to_nat i) l). apply in_or_app. right.
  rewrite <- (firstn_skipn (Z.to_nat (j - i)) (skipn (Z.to_nat i) l)).
  apply in_or_app. now left.
Qed.

Section Batches.
Variable tids : list pyval.
Variable bs : Z.
Hypothesis bs_pos : 0 < bs.

Lemma batches_concat : forall fuel i,
  0 <= i -> Z.of_nat (List.length tids) - i <= Z.of_nat fuel ->
  List.concat (batches_of tids (range_from fuel i (Z.of_nat (List.length tids)) bs) bs)
  = skipn (Z.to_nat i) tids.
Proof.
  assert (Hb : (0 <? bs) = true) by (apply Z.ltb_lt; exact bs_pos).
  induction fuel as [|fuel IH]; intros i Hi Hf; simpl.
  - rewrite skipn_all2; [reflexivity|]. lia.
  - rewrite Hb. destruct (i <? Z.of_nat (List.length tids)) eqn:Hin.
    + apply Z.ltb_lt in Hin. simpl. rewrite IH by lia.
      unfold py_slice.
      replace (i + bs - i) with bs by lia.
      replace (Z.to_nat (i + bs)) with (Z.to_nat bs + Z.to_nat i)%nat by lia.
      rewrite <- skipn_skipn. apply firstn_skipn.
    + apply Z.ltb_ge in Hin. simpl.
      rewrite skipn_all2; [reflexivity|]. lia.
Qed.

Lemma batches_bounded : forall fuel i,
  0 <= i ->
  Forall (fun b => b <> [] /\ Z.of_nat (List.length b) <= bs)
         (batches_of tids (range_from fuel i (Z.of_nat (List.length tids)) bs) bs).
Proof.
  assert (Hb : (0 <? bs) = true) by (apply Z.ltb_lt; exact bs_pos).
  induction fuel as [|fuel IH]; intros i Hi; simpl.
  - constructor.
  - rewrite Hb. destruct (i <? Z.of_nat (List.length tids)) eqn:Hin; [|constructor].
    apply Z.ltb_lt in Hin. simpl. constructor; [|apply IH; lia].
    unfold py_slice. replace (i + bs - i) with bs by lia. split.
    + intros E. apply (f_equal (@List.length _)) in E.
      rewrite length_firstn, length_skipn in E. simpl in E. lia.
    + rewrite length_firstn. lia.
Qed.
End Batches.

(* ================================================================== *)
(** ** Price fetching against an arbitrary service *)
(* ================================================================== *)

Lemma requested_ids_batches side exch batches :
  map fst exch = map (fun b => PostPrices (payload side b)) batches ->
  requested_ids exch = List.concat batches.
Proof.
  revert batches. induction exch as [|[q r] exch IH]; intros [|b batches] H;
    try discriminate; [reflexivity|].
  simpl in H. injection H as Hq Ht. simpl. rewrite (IH _ Ht). subst q.
  unfold payload. rewrite map_map. simpl. now rewrite map_id.
Qed.

Lemma raise_for_status_ok r :
  ok_status r = true -> raise_for_status r = Ok tt.
Proof.
  unfold ok_status, raise_for_status.
  now destruct ((400 <=? status_code r) && (status_code r <? 600)).
Qed.

Lemma raise_for_status_error r :
  ok_status r = false -> raise_for_status r = Raise (HTTPError (status_code r)).
Proof.
  unfold ok_status, raise_for_status.
  now destruct ((400 <=? status_code r) && (status_code r <? 600)).
Qed.

Lemma ok_status_false r :
  ok_status r = false -> 400 <= status_code r < 600.
Proof.
  unfold ok_status. intros H. apply negb_false_iff in H.
  apply andb_true_iff in H as [H1 H2].
  apply Z.leb_le in H1. apply Z.ltb_lt in H2. lia.
Qed.

(** A reply gives a body exactly when it is a response without error
    status whose body is JSON. *)
Lemma reply_outcome_ok rp v :
  reply_outcome rp = Ok v <->
  exists r, rp = Answered r /\ ok_status r = true /\ body r = Some v.
Proof.
  unfold reply_outcome, json. split.
  - destruct rp as [r|why]; simpl; try discriminate.
    destruct (ok_status r) eqn:Hs.
    + rewrite (raise_for_status_ok _ Hs). simpl.
      destruct (body r) as [v'|] eqn:Hb; [|discriminate].
      intros H. injection H as <-. eauto.
    + rewrite (raise_for_status_error _ Hs). discriminate.
  - intros (r & -> & Hs & Hb). simpl.
    now rewrite (raise_for_status_ok _ Hs), Hb.
Qed.

(** The three ways a reply makes the client raise. *)
Lemma reply_outcome_raise rp e :
  reply_outcome rp = Raise e <->
  (exists why, rp = NoAnswer why /\ e = RequestFailed why)
  \/ (exists r, rp = Answered r /\ ok_status r = false
                /\ e = HTTPError (status_code r))
  \/ (exists r, rp = Answered r /\ ok_status r = true /\ body r = None
                /\ e = JSONDecodeError).
Proof.
  unfold reply_outcome, json. split.
  - destruct rp as [r|why]; simpl.
    + destruct (ok_status r) eqn:Hs.
      * rewrite (raise_for_status_ok _ Hs). simpl.
        destruct (body r) eqn:Hb; [discriminate|].
        intros H. injection H as <-. right. right. eauto.
      * rewrite (raise_for_status_error _ Hs). simpl.
        intros H. injection H as <-. right. left. eauto.
    + intros H. injection H as <-. left. eauto.
  - intros [(why & -> & ->)|[(r & -> & Hs & ->)|(r & -> & Hs & Hb & ->)]];
      simpl; try reflexivity.
    + now rewrite (raise_for_status_error _ Hs).
    + now rewrite (raise_for_status_ok _ Hs), Hb.
Qed.

Lemma good_reply_body rp v :
  reply_outcome rp = Ok v -> good_reply rp = true /\ reply_body rp = v.
Proof.
  intros H. unfold good_reply. rewrite H. split; [reflexivity|].
  apply reply_outcome_ok in H as (r & -> & _ & Hb). simpl. now rewrite Hb.
Qed.

Lemma merge_answer out v :
  merge_prices out (py_or v (PyDict []))
  = fold_left (fun o kv => dict_set (fst kv) (snd kv) o)
              (match v with PyDict d => d | _ => [] end) out.
Proof.
  unfold py_or.
  destruct v as [|b|z|x|s|l|d]; simpl; try reflexivity.
  - now destruct b.
  - now destruct (negb (z =? 0)).
  - now destruct (negb (Float64.eqb x Float64.zero)).
  - now destruct (negb (String.eqb s "")).
  - now destruct l.
  - now destruct d.
Qed.

Lemma dict_lookup_app k d1 d2 :
  dict_lookup k (d1 ++ d2)
  = match dict_lookup k d1 with
    | Some v => Some v
    | None => dict_lookup k d2
    end.
Proof.
  induction d1 as [|[k0 v0] d1 IH]; simpl; [reflexivity|].
  now destruct (String.eqb k k0).
Qed.

Lemma fold_set_lookup k items : forall out,
  dict_lookup k (fold_left (fun o kv => dict_set (fst kv) (snd kv) o) items out)
  = match lookup_last k items with
    | Some v => Some v
    | None => dict_lookup k out
    end.
Proof.
  unfold lookup_last.
  induction items as [|[k0 v0] items IH]; intros out; simpl; [reflexivity|].
  rewrite IH, dict_lookup_app, dict_lookup_set. simpl.
  destruct (dict_lookup k (rev items)); [reflexivity|].
  now destruct (String.eqb k k0).
Qed.

Lemma lookup_last_app k i1 i2 :
  lookup_last k (i1 ++ i2)
  = match lookup_last k i2 with
    | Some v => Some v
    | None => lookup_last k i1
    end.
Proof. unfold lookup_last. now rewrite rev_app_distr, dict_lookup_app. Qed.

Lemma lookup_last_mem k items :
  In k (dict_keys items) -> exists v, lookup_last k items = Some v.
Proof.
  unfold lookup_last, dict_keys. intros H.
  assert (Hm : dict_mem k (rev items) = true).
  { apply dict_mem_In. unfold dict_keys. rewrite map_rev.
    now apply in_rev in H. }
  unfold dict_mem in Hm. destruct (dict_lookup k (rev items)); eauto.
  discriminate.
Qed.

Section Fetch.
Variable S : Type.
Variable clob : S -> request -> reply * S.

Lemma send_spec q (w : world S) :
  send S clob q w
  = if encodable_request q then
      (received (fst (clob (srv w) q)),
       {| srv := snd (clob (srv w) q);
          trace := trace w ++ [(q, fst (clob (srv w) q))] |})
    else (Raise InvalidJSONError, w).
Proof.
  unfold send. destruct (encodable_request q); [|reflexivity].
  now destruct (clob (srv w) q).
Qed.

Lemma payload_encodable side b :
  encodable_request (PostPrices (payload side b)) = forallb json_encodable b.
Proof.
  unfold payload. simpl. induction b as [|t b IH]; simpl; [reflexivity|].
  now rewrite IH.
Qed.

(** One round of the loop. *)
Lemma fetch_batches_step side b rest out (w : world S) :
  fetch_batches S clob side (b :: rest) out w
  = if forallb json_encodable b then
      match reply_outcome (fst (clob (srv w) (PostPrices (payload side b)))) with
      | Ok v =>
          fetch_batches S clob side rest
            (merge_prices out (py_or v (PyDict [])))
            {| srv := snd (clob (srv w) (PostPrices (payload side b)));
               trace := trace w
                        ++ [(PostPrices (payload side b),
                             fst (clob (srv w) (PostPrices (payload side b))))] |}
      | Raise e =>
          (Raise e,
           {| srv := snd (clob (srv w) (PostPrices (payload side b)));
              trace := trace w
                       ++ [(PostPrices (payload side b),
                            fst (clob (srv w) (PostPrices (payload side b))))] |})
      end
    else (Raise InvalidJSONError, w).
Proof.
  simpl. unfold bind at 1. rewrite send_spec, payload_encodable.
  destruct (forallb json_encodable b); [|reflexivity].
  unfold reply_outcome.
  destruct (fst (clob (srv w) (PostPrices (payload side b)))) as [r|why];
    simpl; try reflexivity.
  unfold bind, lift.
  destruct (raise_for_status r); simpl; [|reflexivity].
  now destruct (json r).
Qed.

(** The run of the loop, whatever its outcome: the batches sent are
    a front part of the batches, each with its reply; on success all
    were sent and answered well; otherwise the run stopped at a
    batch that cannot be written, before sending it, or at a reply
    that raises. *)
Lemma fetch_batches_outcome side batches : forall out w r w',
  fetch_batches S clob side batches out w = (r, w') ->
  exists exch sent rest,
    trace w' = trace w ++ exch
    /\ batches = sent ++ rest
    /\ map fst exch = map (fun b => PostPrices (payload side b)) sent
    /\ match r with
       | Ok out' =>
           rest = []
           /\ Forall (fun qr => good_reply (snd qr) = true) exch
           /\ forall k, dict_lookup k out'
                        = match lookup_last k (answered_items exch) with
                          | Some v => Some v
                          | None => dict_lookup k out
                          end
       | Raise e =>
           (e = InvalidJSONError
            /\ Forall (fun qr => good_reply (snd qr) = true) exch
            /\ exists b rest', rest = b :: rest'
                               /\ forallb json_encodable b = false)
           \/ (exists exch0 q rp,
                 exch = exch0 ++ [(q, rp)]
                 /\ Forall (fun qr => good_reply (snd qr) = true) exch0
                 /\ reply_outcome rp = Raise e)
       end.
Proof.
  induction batches as [|b batches IH]; intros out w r w' H.
  - simpl in H. injection H as <- <-. exists [], [], [].
    rewrite app_nil_r. repeat split; try reflexivity. constructor.
  - rewrite fetch_batches_step in H.
    set (q := PostPrices (payload side b)) in *.
    set (rp := fst (clob (srv w) q)) in *.
    destruct (forallb json_encodable b) eqn:He.
    + destruct (reply_outcome rp) as [v|e] eqn:Ho.
      * destruct (good_reply_body _ _ Ho) as [Hgood Hbody].
        apply IH in H as (exch & sent & rest & Ht & Hb & Hq & Hr).
        simpl in Ht. exists ((q, rp) :: exch), (b :: sent), rest.
        split; [rewrite Ht, <- app_assoc; reflexivity|].
        split; [now rewrite Hb|]. split; [simpl; now rewrite Hq|].
        destruct r as [out'|e].
        -- destruct Hr as (-> & Hok & Hl).
           split; [reflexivity|]. split; [constructor; assumption|].
           intros k. rewrite Hl. unfold answered_items. simpl.
           fold (answered_items exch). rewrite lookup_last_app.
           destruct (lookup_last k (answered_items exch)); [reflexivity|].
           rewrite merge_answer. unfold answer_items. simpl snd.
           rewrite Hbody. apply fold_set_lookup.
        -- destruct Hr as [(-> & Hok & Hbad)
                          |(exch0 & q' & rp' & -> & Hok & Hbad)].
           ++ left. split; [reflexivity|]. split; [constructor; assumption|].
              exact Hbad.
           ++ right. exists ((q, rp) :: exch0), q', rp'.
              split; [reflexivity|]. split; [constructor; assumption|].
              exact Hbad.
      * injection H as <- <-. exists [(q, rp)], [b], batches.
        split; [reflexivity|]. split; [reflexivity|]. split; [reflexivity|].
        right. exists [], q, rp. split; [reflexivity|].
        split; [constructor|exact Ho].
    + injection H as <- <-. exists [], [], (b :: batches).
      rewrite app_nil_r. split; [reflexivity|]. split; [reflexivity|].
      split; [reflexivity|]. left. split; [reflexivity|].
      split; [constructor|]. eauto.
Qed.

(** Whatever the outcome, only tokens of the batches are asked for. *)
Lemma fetch_batches_trace side batches out w r w' :
  fetch_batches S clob side batches out w = (r, w') ->
  exists exch, trace w' = trace w ++ exch
               /\ incl (requested_ids exch) (List.concat batches).
Proof.
  intros H.
  apply fetch_batches_outcome in H as (exch & sent & rest & Ht & -> & Hq & _).
  exists exch. split; [exact Ht|].
  rewrite (requested_ids_batches _ _ _ Hq), concat_app.
  apply incl_appl, incl_refl.
Qed.

(** On success every batch was sent, in order, every reply was good,
    and every key of every answer is a key of the merged mapping. *)
Lemma fetch_batches_ok side batches out w out' w' :
  fetch_batches S clob side batches out w = (Ok out', w') ->
  exists exch,
    trace w' = trace w ++ exch
    /\ map fst exch = map (fun b => PostPrices (payload side b)) batches
    /\ Forall (fun qr => good_reply (snd qr) = true) exch
    /\ (forall k, dict_mem k out = true -> dict_mem k out' = true)
    /\ Forall (keys_kept out') exch.
Proof.
  intros H.
  apply fetch_batches_outcome in H
    as (exch & sent & rest & Ht & -> & Hq & -> & Hok & Hl).
  rewrite app_nil_r. exists exch.
  split; [exact Ht|]. split; [exact Hq|]. split; [exact Hok|]. split.
  - intros k. unfold dict_mem. rewrite Hl.
    destruct (lookup_last k (answered_items exch)); auto.
  - apply Forall_forall. intros [q rp] Hin r d k Hrp Hb Hk. simpl in Hrp.
    subst rp. unfold dict_mem. rewrite Hl.
    destruct (lookup_last_mem k (answered_items exch)) as [v Hv].
    { unfold answered_items, dict_keys. rewrite flat_map_concat_map.
      rewrite concat_map. apply in_concat.
      exists (map fst d). split; [|exact Hk].
      rewrite map_map. apply in_map_iff. exists (q, Answered r).
      split; [|exact Hin]. unfold answer_items. simpl. now rewrite Hb. }
    now rewrite Hv.
Qed.

Lemma get_best_prices_trace tids side bs w r w' :
  get_best_prices S clob tids side bs w = (r, w') ->
  exists exch, trace w' = trace w ++ exch
               /\ incl (requested_ids exch) tids.
Proof.
  unfold get_best_prices. destruct tids as [|t0 tids'] eqn:E.
  - intros H. injection H as _ <-. exists []. rewrite app_nil_r.
    split; [reflexivity|apply incl_refl].
  - rewrite <- E. clear E. unfold py_range.
    destruct (bs =? 0).
    + intros H. injection H as _ <-. exists []. rewrite app_nil_r.
      split; [reflexivity|]. intros x [].
    + intros H. apply fetch_batches_trace in H as (exch & Ht & Hi).
      exists exch. split; [exact Ht|].
      intros x Hx. apply Hi in Hx. apply in_concat in Hx as (b & Hb & Hx).
      unfold batches_of in Hb. apply in_map_iff in Hb as (i & <- & _).
      eapply py_slice_incl, Hx.
Qed.

Lemma get_best_prices_batches tids side bs :
  0 < bs -> tids <> [] ->
  exists batches,
    get_best_prices S clob tids side bs
    = fetch_batches S clob side batches []
    /\ List.concat batches = tids
    /\ Forall (fun b => b <> [] /\ Z.of_nat (List.length b) <= bs) batches.
Proof.
  intros Hb Hne.
  exists (batches_of tids
            (range_from (Z.abs_nat (Z.of_nat (List.length tids) - 0)) 0
                        (Z.of_nat (List.length tids)) bs) bs).
  split; [|split].
  - unfold get_best_prices, py_range.
    destruct tids; [congruence|].
    destruct (bs =? 0) eqn:E; [apply Z.eqb_eq in E; lia|reflexivity].
  - rewrite batches_concat by lia. reflexivity.
  - apply batches_bounded; lia.
Qed.

Lemma sum_yes_by_market_inv tokens w res w' :
  sum_yes_by_market S clob tokens w = (Ok res, w') ->
  exists bm pm results,
    group_tokens tokens [] = Ok bm
    /\ get_best_prices S clob (all_token_ids bm) "BUY" 50 w = (Ok pm, w')
    /\ market_sums pm bm = Ok results
    /\ res = py_sort sort_key results.
Proof.
  unfold sum_yes_by_market, bind, lift, ret.
  destruct (group_tokens tokens []) as [bm|e] eqn:Hg; [|discriminate].
  destruct (get_best_prices _ _ _ _ _ w) as [[pm|e] w1] eqn:Hp; [|discriminate].
  destruct (market_sums pm bm) as [results|e] eqn:Hm; [|discriminate].
  intros H. injection H as <- <-. exists bm, pm, results. auto.
Qed.

Lemma sum_yes_by_market_trace tokens w r w' :
  sum_yes_by_market S clob tokens w = (r, w') ->
  exists exch, trace w' = trace w ++ exch
    /\ incl (requested_ids exch) (map row_token_id (filter keep_row tokens)).
Proof.
  unfold sum_yes_by_market, bind, lift, ret.
  destruct (group_tokens tokens []) as [bm|e] eqn:Hg.
  - destruct (get_best_prices _ _ _ _ _ w) as [r1 w1] eqn:Hp.
    apply get_best_prices_trace in Hp as (exch & Ht & Hi).
    intros H.
    assert (Hw : w1 = w').
    { destruct r1 as [pm|e]; [destruct (market_sums pm bm)|]; congruence. }
    subst w1. exists exch. split; [exact Ht|].
    intros x Hx. apply Hi in Hx.
    eapply Permutation_in; [apply (group_tokens_ids _ _ _ Hg)|exact Hx].
  - intros H. injection H as _ <-. exists []. rewrite app_nil_r.
    split; [reflexivity|]. intros x [].
Qed.
End Fetch.

(* ================================================================== *)
(** ** Sums per market *)
(* ================================================================== *)

Lemma asks_of_spec pm tids : forall asks,
  asks_of pm tids = Ok asks ->
  Forall2 (fun tid a => exists p, quote pm tid = Ok p /\ a = _to_float p)
          tids asks.
Proof.
  induction tids as [|tid tids IH]; simpl; intros asks H.
  - injection H as <-. constructor.
  - destruct (quote pm tid) as [p|] eqn:Hq; [|discriminate]. simpl in H.
    destruct (asks_of pm tids) as [asks'|]; [|discriminate]. simpl in H.
    injection H as <-. constructor; eauto.
Qed.

Lemma sum_or_nan_some asks :
  (exists a, In a asks /\ Float64.isnan a = false) ->
  sum_or_nan (finite_of asks)
  = fold_left Float64.add (filter (fun a => negb (Float64.isnan a)) asks)
              Float64.zero.
Proof.
  intros (a & Hin & Hn).
  assert (Hf : In a (finite_of asks))
    by (apply filter_In; split; [exact Hin|now rewrite Hn]).
  unfold sum_or_nan, finite_of in *.
  destruct (filter _ asks); [contradiction|reflexivity].
Qed.

Lemma sum_or_nan_none asks :
  (forall a, In a asks -> Float64.isnan a = true) ->
  sum_or_nan (finite_of asks) = Float64.nan.
Proof.
  intros H. unfold finite_of.
  replace (filter _ asks) with (@nil float); [reflexivity|].
  symmetry. induction asks as [|a asks IH]; [reflexivity|].
  simpl. rewrite (H a) by now left. simpl.
  apply IH. intros b Hb. apply H. now right.
Qed.

Lemma market_sums_spec pm bm : forall results,
  market_sums pm bm = Ok results ->
  Forall2 (entry_of_group pm) bm results.
Proof.
  induction bm as [|[cond tids] bm IH]; simpl; intros results H.
  - injection H as <-. constructor.
  - destruct (asks_of pm tids) as [asks|] eqn:Ha; [|discriminate]. simpl in H.
    destruct (market_sums pm bm) as [rs|]; [|discriminate]. simpl in H.
    injection H as <-. constructor; [|apply IH; reflexivity].
    unfold entry_of_group. simpl. split; [reflexivity|]. split; [reflexivity|].
    exists asks. split; [apply asks_of_spec, Ha|].
    split; [apply sum_or_nan_some|apply sum_or_nan_none].
Qed.

Lemma sort_key_not_nan (x : entry) : Float64.isnan (sort_key x) = false.
Proof.
  unfold sort_key. destruct (Float64.isnan (entry_sum x)) eqn:E;
    [reflexivity|exact E].
Qed.

Lemma group_tokens_none tokens : forall bm,
  filter keep_row tokens = [] -> group_tokens tokens bm = Ok bm.
Proof.
  induction tokens as [|t tokens IH]; simpl; intros bm H; [reflexivity|].
  destruct (keep_row t); [discriminate|]. apply IH, H.
Qed.

Lemma group_tokens_live tokens : forall bm,
  group_tokens (live_rows tokens) bm = group_tokens tokens bm.
Proof.
  unfold live_rows.
  induction tokens as [|t tokens IH]; simpl; intros bm; [reflexivity|].
  destruct (truthy (dict_get "token_id" t) && negb (truthy (dict_get "closed" t)))
    eqn:Hl; simpl.
  - destruct (keep_row t); [destruct (hashable _)|]; auto.
  - assert (Hk : keep_row t = false).
    { unfold keep_row. rewrite <- andb_assoc, Hl. apply andb_false_r. }
    rewrite Hk. apply IH.
Qed.

Lemma group_tokens_raise tokens : forall bm e,
  group_tokens tokens bm = Raise e ->
  e = TypeError /\ exists t, In t tokens /\ unhashable_row t.
Proof.
  induction tokens as [|t tokens IH]; simpl; intros bm e H; [discriminate|].
  destruct (keep_row t) eqn:Hk.
  - destruct (hashable _) eqn:Hh.
    + destruct (IH _ _ H) as (-> & t' & Hin & Hu). eauto.
    + injection H as <-. split; [reflexivity|].
      exists t. split; [now left|]. split; assumption.
  - destruct (IH _ _ H) as (-> & t' & Hin & Hu). eauto.
Qed.

Lemma group_tokens_unhashable tokens : forall bm,
  (exists t, In t tokens /\ unhashable_row t) ->
  group_tokens tokens bm = Raise TypeError.
Proof.
  induction tokens as [|t tokens IH]; simpl; intros bm (t' & Hin & Hu);
    [contradiction|].
  destruct Hin as [->|Hin].
  - destruct Hu as [Hk Hh]. unfold row_condition_id in Hh. now rewrite Hk, Hh.
  - destruct (keep_row t); [destruct (hashable _)|]; eauto.
Qed.

Lemma group_add_nonempty c tid bm :
  Forall (fun g => snd g <> []) bm ->
  Forall (fun g : pyval * list pyval => snd g <> []) (group_add c tid bm).
Proof.
  induction 1 as [|[k tids] bm Hg Hbm IH]; simpl.
  - constructor; [discriminate|constructor].
  - destruct (py_key_eqb k c).
    + constructor; [|exact Hbm]. simpl. now destruct tids.
    + constructor; assumption.
Qed.

Lemma group_tokens_nonempty tokens : forall bm0 bm,
  group_tokens tokens bm0 = Ok bm ->
  Forall (fun g => snd g <> []) bm0 ->
  Forall (fun g : pyval * list pyval => snd g <> []) bm.
Proof.
  induction tokens as [|t tokens IH]; simpl; intros bm0 bm H Hn.
  - now injection H as <-.
  - destruct (keep_row t).
    + destruct (hashable _); [|discriminate].
      apply (IH _ _ H), group_add_nonempty, Hn.
    + apply (IH _ _ H Hn).
Qed.

Lemma total_perm l l' :
  Permutation l l' -> fold_right Z.add 0 l = fold_right Z.add 0 l'.
Proof. induction 1; simpl; lia. Qed.

Lemma group_heads_total bm :
  fold_right Z.add 0 (map snd (map group_head bm))
  = Z.of_nat (List.length (all_token_ids bm)).
Proof.
  unfold all_token_ids.
  induction bm as [|[k tids] bm IH]; simpl; [reflexivity|].
  rewrite IH, length_app. lia.
Qed.

Lemma quote_raise pm tid e :
  quote pm tid = Raise e -> e = TypeError \/ e = AttributeError.
Proof.
  unfold quote. destruct (hashable tid); [|intros H; injection H; auto].
  destruct tid; try discriminate.
  destruct (dict_lookup s pm) as [v|]; [|discriminate].
  destruct v; simpl; intros H; try discriminate; injection H; auto.
Qed.

Lemma asks_of_raise pm tids e :
  asks_of pm tids = Raise e -> e = TypeError \/ e = AttributeError.
Proof.
  induction tids as [|tid tids IH]; simpl; [discriminate|].
  destruct (quote pm tid) as [p|e'] eqn:Hq; simpl.
  - destruct (asks_of pm tids) as [asks|e'']; simpl; [discriminate|].
    intros H. injection H as <-. auto.
  - intros H. injection H as <-. eapply quote_raise, Hq.
Qed.

Lemma market_sums_raise pm bm e :
  market_sums pm bm = Raise e -> e = TypeError \/ e = AttributeError.
Proof.
  induction bm as [|[c tids] bm IH]; simpl; [discriminate|].
  destruct (asks_of pm tids) as [asks|e'] eqn:Ha; simpl.
  - destruct (market_sums pm bm) as [rs|e'']; simpl; [discriminate|].
    intros H. injection H as <-. auto.
  - intros H. injection H as <-. eapply asks_of_raise, Ha.
Qed.

Lemma StronglySorted_filter {A} (R : A -> A -> Prop) f l :
  StronglySorted R l -> StronglySorted R (filter f l).
Proof.
  induction 1 as [|x l Hs IH Hall]; simpl; [constructor|].
  destruct (f x); [|exact IH].
  constructor; [exact IH|].
  apply Forall_forall. intros y Hy. apply filter_In in Hy as [Hy _].
  rewrite Forall_forall in Hall. auto.
Qed.

Lemma StronglySorted_on {A} (P : A -> Prop) (R R' : A -> A -> Prop) l :
  (forall a b, P a -> P b -> R a b -> R' a b) ->
  Forall P l -> StronglySorted R l -> StronglySorted R' l.
Proof.
  intros HR HP Hs. induction Hs as [|x l Hs IH Hall]; [constructor|].
  inversion HP as [|? ? Hx Hl]; subst.
  constructor; [apply IH, Hl|].
  rewrite Forall_forall in *. intros y Hy. apply HR; auto.
Qed.

Lemma shown_from_spec sums : forall shown n,
  Z.of_nat (Datatypes.S n) = 15 - shown ->
  shown_from sums shown
  = firstn (Datatypes.S n)
           (filter (fun x => negb (Float64.isnan (entry_sum x))) sums).
Proof.
  induction sums as [|x sums IH]; intros shown n Hs; [reflexivity|].
  cbn [shown_from filter].
  destruct (negb (Float64.isnan (entry_sum x))).
  - cbn [firstn]. f_equal.
    destruct (15 <=? shown + 1) eqn:E.
    + apply Z.leb_le in E. destruct n; [reflexivity|lia].
    + apply Z.leb_gt in E. destruct n as [|n]; [lia|].
      apply IH. lia.
  - destruct (15 <=? shown) eqn:E; [apply Z.leb_le in E; lia|].
    apply IH, Hs.
Qed.


Lemma entry_heads pm bm results :
  Forall2 (entry_of_group pm) bm results ->
  map entry_head results = map group_head bm.
Proof.
  induction 1 as [|g e bm results (H1 & H2 & _) _ IH]; simpl; [reflexivity|].
  f_equal; [|exact IH].
  unfold entry_head, group_head. destruct e as [[c n] x]. simpl in *.
  now subst.
Qed.

(** The result has the market id and the token count of every
    group. *)
Lemma sorted_heads pm bm results :
  market_sums pm bm = Ok results ->
  Permutation (map entry_head (py_sort sort_key results)) (map group_head bm).
Proof.
  intros Hm.
  rewrite <- (entry_heads pm bm results) by (apply market_sums_spec, Hm).
  apply Permutation_map, py_sort_perm.
Qed.

Lemma sorted_total pm bm results :
  market_sums pm bm = Ok results ->
  total_count (py_sort sort_key results)
  = Z.of_nat (List.length (all_token_ids bm)).
Proof.
  intros Hm. unfold total_count.
  replace (map entry_count (py_sort sort_key results))
    with (map snd (map entry_head (py_sort sort_key results)))
    by (now rewrite map_map).
  rewrite (total_perm _ _ (Permutation_map snd (sorted_heads _ _ _ Hm))).
  apply group_heads_total.
Qed.

(** *** When the sums are produced *)

Lemma quote_ok pm tid :
  (exists p, quote pm tid = Ok p) <-> has_quote pm tid = true.
Proof.
  unfold quote, has_quote. destruct (hashable tid); simpl.
  - destruct tid; try (split; eauto; fail).
    destruct (dict_lookup s pm) as [v|]; [|split; eauto].
    destruct v; simpl; split; eauto; try discriminate;
      intros [p Hp]; discriminate.
  - split; [intros [p Hp]|]; discriminate.
Qed.

Lemma asks_of_ok pm tids :
  (exists asks, asks_of pm tids = Ok asks)
  <-> forallb (has_quote pm) tids = true.
Proof.
  induction tids as [|tid tids IH]; simpl; [split; eauto|].
  rewrite andb_true_iff, <- IH, <- quote_ok. split.
  - intros [asks H]. destruct (quote pm tid) as [p|]; [|discriminate].
    simpl in H. destruct (asks_of pm tids) as [a|]; [|discriminate].
    split; eauto.
  - intros [[p Hp] [a Ha]]. rewrite Hp, Ha. simpl. eauto.
Qed.

Lemma market_sums_ok pm bm :
  (exists results, market_sums pm bm = Ok results)
  <-> all_quoted pm bm = true.
Proof.
  unfold all_quoted.
  induction bm as [|[c tids] bm IH]; simpl; [split; eauto|].
  rewrite andb_true_iff, <- IH, <- asks_of_ok. split.
  - intros [rs H]. destruct (asks_of pm tids) as [a|]; [|discriminate].
    simpl in H. destruct (market_sums pm bm) as [r|]; [|discriminate].
    split; eauto.
  - intros [[a Ha] [r Hr]]. rewrite Ha, Hr. simpl. eauto.
Qed.

Lemma asks_of_ext pm pm' tids :
  (forall tid, In tid tids -> quote pm' tid = quote pm tid) ->
  asks_of pm' tids = asks_of pm tids.
Proof.
  induction tids as [|tid tids IH]; simpl; intros H; [reflexivity|].
  rewrite (H tid) by now left. rewrite IH; [reflexivity|].
  intros t Ht. apply H. now right.
Qed.

(** Each entry is the one the group gives alone. *)
Lemma market_sums_each pm bm : forall results,
  market_sums pm bm = Ok results ->
  Forall2 (fun g e => market_sums pm [g] = Ok [e]) bm results.
Proof.
  induction bm as [|[c tids] bm IH]; simpl; intros results H.
  - injection H as <-. constructor.
  - destruct (asks_of pm tids) as [asks|] eqn:Ha; [|discriminate]. simpl in H.
    destruct (market_sums pm bm) as [rs|]; [|discriminate]. simpl in H.
    injection H as <-. constructor; [|apply IH; reflexivity].
    simpl. rewrite Ha. reflexivity.
Qed.

Lemma oracle_entries_dict oracle side s l v :
  dict_lookup s (map (oracle_entry oracle side) l) = Some v ->
  is_dict v = true.
Proof.
  induction l as [|k l IH]; simpl; [discriminate|].
  destruct (String.eqb s k); [|exact IH].
  intros H. now injection H as <-.
Qed.

(* ================================================================== *)
(** ** Price fetching against an oracle *)
(* ================================================================== *)

Lemma existsb_snoc k l k' :
  existsb (String.eqb k) (l ++ [k']) = existsb (String.eqb k) l || String.eqb k k'.
Proof. rewrite existsb_app. simpl. now rewrite orb_false_r. Qed.

Lemma add_uniq_news ks : forall l,
  fold_left add_uniq ks l = l ++ news l ks.
Proof.
  induction ks as [|k ks IH]; intros l; simpl.
  - now rewrite app_nil_r.
  - rewrite IH. unfold add_uniq.
    destruct (existsb (String.eqb k) l); [reflexivity|].
    now rewrite <- app_assoc.
Qed.

Lemma news_news ks : forall l l2,
  (forall x, existsb (String.eqb x) l2 = true -> existsb (String.eqb x) l = true) ->
  news l (news l2 ks) = news l ks.
Proof.
  induction ks as [|k ks IH]; intros l l2 Hsub; simpl; [reflexivity|].
  destruct (existsb (String.eqb k) l2) eqn:E2.
  - rewrite (Hsub _ E2). apply IH, Hsub.
  - simpl. destruct (existsb (String.eqb k) l) eqn:E1.
    + apply IH. intros x Hx. rewrite existsb_snoc in Hx.
      apply orb_true_iff in Hx as [Hx|Hx]; [apply Hsub, Hx|].
      apply String.eqb_eq in Hx. now subst.
    + f_equal. apply IH. intros x Hx. rewrite existsb_snoc in *.
      apply orb_true_iff in Hx as [Hx|Hx].
      * now rewrite (Hsub _ Hx).
      * rewrite Hx. apply orb_true_r.
Qed.

Lemma add_uniq_twice ks l :
  fold_left add_uniq (fold_left add_uniq ks []) l = fold_left add_uniq ks l.
Proof.
  rewrite !add_uniq_news. simpl. f_equal.
  apply news_news. intros x Hx. discriminate.
Qed.

Section OracleFacts.
Variable oracle : string -> string -> option pyval.
Variable side : string.

Lemma dict_set_entry k v l :
  (oracle_entry oracle side) k = (k, v) ->
  dict_set k v (map (oracle_entry oracle side) l) = map (oracle_entry oracle side) (add_uniq l k).
Proof.
  intros Hv. unfold add_uniq.
  induction l as [|k0 l IH]; simpl; [now rewrite Hv|].
  replace ((oracle_entry oracle side) k0) with (k0, snd ((oracle_entry oracle side) k0)) by reflexivity.
  destruct (String.eqb k k0) eqn:E; simpl.
  - apply String.eqb_eq in E. subst k0. now rewrite Hv.
  - rewrite IH. now destruct (existsb (String.eqb k) l).
Qed.

Lemma oracle_put_entries b : forall l,
  fold_left (oracle_put oracle) (payload side b) (map (oracle_entry oracle side) l)
  = map (oracle_entry oracle side) (fold_left add_uniq (oracle_keys oracle side b) l).
Proof.
  induction b as [|tid b IH]; intros l; simpl; [reflexivity|].
  unfold oracle_put at 2. simpl.
  destruct tid; simpl; try apply IH.
  destruct (oracle s side) as [p|] eqn:Ho; simpl; [|apply IH].
  rewrite dict_set_entry; [apply IH|].
  unfold oracle_entry. now rewrite Ho.
Qed.

Lemma merge_entries l' : forall l,
  merge_prices (map (oracle_entry oracle side) l) (PyDict (map (oracle_entry oracle side) l'))
  = map (oracle_entry oracle side) (fold_left add_uniq l' l).
Proof.
  simpl. induction l' as [|k l' IH]; intros l; simpl; [reflexivity|].
  rewrite dict_set_entry; [apply IH|reflexivity].
Qed.

Lemma py_or_dict d : py_or (PyDict d) (PyDict []) = PyDict d.
Proof. now destruct d. Qed.

Lemma oracle_reply b w :
  reply_outcome (fst (oracle_clob oracle w (PostPrices (payload side b))))
  = Ok (PyDict (oracle_prices oracle (payload side b))).
Proof. reflexivity. Qed.

Lemma fetch_batches_oracle batches : forall l w,
  forallb json_encodable (List.concat batches) = true ->
  fst (fetch_batches unit (oracle_clob oracle) side batches (map (oracle_entry oracle side) l) w)
  = Ok (map (oracle_entry oracle side) (fold_left add_uniq
                   (oracle_keys oracle side (List.concat batches)) l)).
Proof.
  induction batches as [|b batches IH]; intros l w He; [reflexivity|].
  simpl List.concat in *. rewrite forallb_app in He.
  apply andb_true_iff in He as [Hb Hrest].
  rewrite fetch_batches_step, Hb, oracle_reply.
  rewrite py_or_dict. unfold oracle_prices.
  change (@nil (string * pyval)) with (map (oracle_entry oracle side) []) at 1.
  rewrite (oracle_put_entries b []). rewrite merge_entries.
  rewrite add_uniq_twice. rewrite IH by exact Hrest.
  unfold oracle_keys. now rewrite flat_map_app, fold_left_app.
Qed.

(** A token id that cannot be written as JSON stops the run before
    its batch is sent. *)
Lemma fetch_batches_unencodable batches : forall l w,
  forallb json_encodable (List.concat batches) = false ->
  fst (fetch_batches unit (oracle_clob oracle) side batches l w)
  = Raise InvalidJSONError.
Proof.
  induction batches as [|b batches IH]; intros l w He; [discriminate|].
  simpl List.concat in *. rewrite forallb_app in He.
  rewrite fetch_batches_step.
  destruct (forallb json_encodable b); [|reflexivity].
  rewrite oracle_reply. apply IH, He.
Qed.

Lemma get_best_prices_oracle tids bs w :
  0 < bs ->
  forallb json_encodable tids = true ->
  fst (get_best_prices unit (oracle_clob oracle) tids side bs w)
  = Ok (map (oracle_entry oracle side) (fold_left add_uniq (oracle_keys oracle side tids) [])).
Proof.
  intros Hb He. destruct tids as [|t0 tids'] eqn:E; [reflexivity|].
  rewrite <- E in *.
  destruct (get_best_prices_batches unit (oracle_clob oracle) tids side bs Hb)
    as (batches & Hg & Hc & _); [now subst|].
  rewrite Hg. rewrite <- Hc in He.
  change (@nil (string * pyval)) with (map (oracle_entry oracle side) []) at 1.
  rewrite (fetch_batches_oracle batches [] w He). now rewrite Hc.
Qed.

Lemma get_best_prices_unencodable tids bs w :
  0 < bs ->
  forallb json_encodable tids = false ->
  fst (get_best_prices unit (oracle_clob oracle) tids side bs w)
  = Raise InvalidJSONError.
Proof.
  intros Hb He. destruct tids as [|t0 tids'] eqn:E; [discriminate|].
  rewrite <- E in *.
  destruct (get_best_prices_batches unit (oracle_clob oracle) tids side bs Hb)
    as (batches & Hg & Hc & _); [now subst|].
  rewrite Hg. rewrite <- Hc in He.
  apply fetch_batches_unencodable, He.
Qed.
End OracleFacts.

Lemma leb_inf x : Float64.leb Float64.inf x = true -> x = Float64.inf.
Proof.
  unfold Float64.leb, SFleb, Float64.inf.
  destruct x as [s|s| |s m e]; simpl; try discriminate.
  now destruct s.
Qed.

Lemma StronglySorted_after {A} (R : A -> A -> Prop) l1 a l2 :
  StronglySorted R (l1 ++ a :: l2) -> Forall (R a) l2.
Proof.
  induction l1 as [|x l1 IH]; simpl; intros H; inversion H; subst; auto.
Qed.

(* ================================================================== *)
(** ** The claims *)
(* ================================================================== *)

Section Claims.
Variable S : Type.
Variable clob : S -> request -> reply * S.

(** On success with a positive batch size: the batches are
    consecutive pieces of the list within the bounds, each was sent
    once, in order, and no key of an answer is lost. *)
Lemma get_best_prices_ok tids side bs w out w' :
  0 < bs ->
  get_best_prices S clob tids side bs w = (Ok out, w') ->
  exists batches exch,
    List.concat batches = tids
    /\ Forall (batch_ok bs) batches
    /\ trace w' = trace w ++ exch
    /\ map fst exch = map (fun b => PostPrices (payload side b)) batches
    /\ Forall (keys_kept out) exch.
Proof.
  intros Hb H. destruct tids as [|t0 tids'] eqn:E.
  - injection H as <- <-. exists [], []. rewrite app_nil_r.
    repeat split; constructor.
  - rewrite <- E in *.
    destruct (get_best_prices_batches S clob tids side bs Hb)
      as (batches & Hg & Hc & Hf); [now subst|].
    rewrite Hg in H.
    apply fetch_batches_ok in H as (exch & Ht & Hq & _ & _ & Hk).
    exists batches, exch. auto.
Qed.

(** On success the ids requested are the ids of the groups, in their
    order. *)
Lemma sum_yes_by_market_requests tokens w res w' :
  sum_yes_by_market S clob tokens w = (Ok res, w') ->
  exists bm pm results exch,
    group_tokens tokens [] = Ok bm
    /\ market_sums pm bm = Ok results
    /\ res = py_sort sort_key results
    /\ trace w' = trace w ++ exch
    /\ requested_ids exch = all_token_ids bm.
Proof.
  intros H.
  apply sum_yes_by_market_inv in H as (bm & pm & results & Hg & Hq & Hm & ->).
  apply get_best_prices_ok in Hq as (batches & exch & Hc & _ & Ht & Hq & _);
    [|lia].
  exists bm, pm, results, exch. split; [exact Hg|]. split; [exact Hm|].
  split; [reflexivity|]. split; [exact Ht|].
  rewrite (requested_ids_batches _ _ _ Hq). exact Hc.
Qed.

(** C10: for the empty list of token ids, and any side and batch
    size, [get_best_prices] returns the empty mapping and leaves the
    world as it was: no request is sent, the service is not
    consulted. *)
Theorem get_best_prices_empty side batch_size (w : world S) :
  get_best_prices S clob [] side batch_size w = (Ok [], w).
Proof. reflexivity. Qed.

(** C6, amended: [get_book] sends one request, the lookup of the
    token.  When the answer has status 404 it returns
    [{error: "not_found", token_id: <id>}] and does not raise,
    whatever the body.  Otherwise it does what the reply makes of
    [raise_for_status()] and [json()]: it raises exactly when no
    answer came (a timeout, no connection), when the status is
    another error status (400 to 599), or when the body is not JSON;
    and it returns the decoded body of an answer without error
    status. *)
Theorem get_book_not_found token_id (w : world S) :
  let rp := fst (clob (srv w) (GetBook token_id)) in
  let out := get_book S clob token_id w in
  (forall r, rp = Answered r -> status_code r = 404 ->
     fst out = Ok (not_found_answer token_id))
  /\ ((forall r, rp = Answered r -> status_code r <> 404) ->
      fst out = reply_outcome rp)
  /\ ((exists e, fst out = Raise e)
      <-> (exists why, rp = NoAnswer why)
          \/ exists r, rp = Answered r /\ status_code r <> 404
                       /\ (400 <= status_code r < 600 \/ body r = None))
  /\ (forall r v, rp = Answered r -> ~ 400 <= status_code r < 600 ->
        body r = Some v -> fst out = Ok v)
  /\ snd out = {| srv := snd (clob (srv w) (GetBook token_id));
                  trace := trace w ++ [(GetBook token_id, rp)] |}.
Proof.
  intros rp out.
  assert (Hout : out
    = (match rp with
       | Answered r => if status_code r =? 404
                       then Ok (not_found_answer token_id)
                       else reply_outcome rp
       | _ => reply_outcome rp
       end,
       {| srv := snd (clob (srv w) (GetBook token_id));
          trace := trace w ++ [(GetBook token_id, rp)] |})).
  { unfold out, get_book, bind. rewrite send_spec. cbn [encodable_request].
    fold rp. destruct rp as [r|why]; cbn [received]; try reflexivity.
    destruct (status_code r =? 404); [reflexivity|].
    unfold reply_outcome, lift. cbn [received rbind].
    now destruct (raise_for_status r). }
  rewrite Hout. cbn [fst snd]. clear Hout out.
  split; [|split; [|split; [|split]]].
  - intros r -> H404. apply Z.eqb_eq in H404. now rewrite H404.
  - intros Hn. destruct rp as [r|why]; try reflexivity.
    specialize (Hn r eq_refl). apply Z.eqb_neq in Hn. now rewrite Hn.
  - split.
    + intros [e He]. destruct rp as [r|why]; [|eauto].
      right. exists r. split; [reflexivity|].
      destruct (status_code r =? 404) eqn:E4; [discriminate|].
      apply Z.eqb_neq in E4. split; [exact E4|].
      apply reply_outcome_raise
        in He as [(why & Hr & _)|[(r' & Hr & Hs & _)|(r' & Hr & _ & Hb & _)]];
        try discriminate; injection Hr as <-.
      * left. apply ok_status_false, Hs.
      * right. exact Hb.
    + intros [[why ->]|(r & -> & Hn & Hc)]; [eexists; reflexivity|].
      apply Z.eqb_neq in Hn. rewrite Hn.
      destruct (ok_status r) eqn:Hs.
      * destruct Hc as [Hc|Hc].
        -- unfold ok_status in Hs. apply negb_true_iff in Hs.
           apply andb_false_iff in Hs as [Hs|Hs];
             [apply Z.leb_gt in Hs|apply Z.ltb_ge in Hs]; lia.
        -- exists JSONDecodeError. apply reply_outcome_raise.
           right. right. eauto.
      * exists (HTTPError (status_code r)). apply reply_outcome_raise.
        right. left. eauto.
  - intros r v -> Hn Hb.
    assert (Hs : ok_status r = true).
    { unfold ok_status. apply negb_true_iff.
      destruct ((400 <=? status_code r) && (status_code r <? 600)) eqn:E;
        [|reflexivity].
      apply andb_true_iff in E as [E1 E2].
      apply Z.leb_le in E1. apply Z.ltb_lt in E2. lia. }
    destruct (status_code r =? 404) eqn:E4; [apply Z.eqb_eq in E4; lia|].
    apply reply_outcome_ok. eauto.
  - reflexivity.
Qed.

(** C7, amended: the conversion of a quote never raises and yields
    NaN for a missing or null quote and for every value [float]
    rejects, a non-numeric string among them.  The sums are produced
    exactly when every token id can be looked up and what the price
    map holds for it, if anything, is an object; then every group
    has its entry, the entry of a group is the one the group gives
    alone, it is the same under every price map with the same quotes
    for the tokens of the group, and its sum leaves out exactly the
    quotes that convert to NaN: a malformed quote degrades the sum
    of its market only.  Otherwise, as when the price map holds null
    or a string for a token, [sum_yes_by_market] raises [TypeError]
    or [AttributeError] and produces no result at all. *)
Theorem to_float_total :
  _to_float PyNone = Float64.nan
  /\ (forall x e, py_float x = Raise e -> _to_float x = Float64.nan)
  /\ (forall s, FloatParse.parse s = None ->
                _to_float (PyStr s) = Float64.nan)
  /\ (forall pm tid, hashable tid = true ->
        (forall s, tid = PyStr s -> dict_lookup s pm = None) ->
        quote pm tid = Ok PyNone)
  /\ (forall pm s d, dict_lookup s pm = Some (PyDict d) ->
        dict_lookup "BUY" d = None ->
        quote pm (PyStr s) = Ok PyNone)
  /\ (forall pm bm,
        (exists results, market_sums pm bm = Ok results)
        <-> all_quoted pm bm = true)
  /\ (forall pm bm results,
        market_sums pm bm = Ok results ->
        Forall2 (entry_of_group pm) bm results
        /\ Forall2 (fun g e => market_sums pm [g] = Ok [e]) bm results)
  /\ (forall pm pm' g,
        (forall tid, In tid (snd g) -> quote pm' tid = quote pm tid) ->
        market_sums pm' [g] = market_sums pm [g])
  /\ (forall tokens w bm pm w',
        group_tokens tokens [] = Ok bm ->
        get_best_prices S clob (all_token_ids bm) "BUY" 50 w = (Ok pm, w') ->
        (all_quoted pm bm = true ->
         exists results,
           market_sums pm bm = Ok results
           /\ sum_yes_by_market S clob tokens w
              = (Ok (py_sort sort_key results), w'))
        /\ (all_quoted pm bm = false ->
            exists e,
              sum_yes_by_market S clob tokens w = (Raise e, w')
              /\ (e = TypeError \/ e = AttributeError))).
Proof.
  split; [reflexivity|].
  split; [|split; [|split; [|split; [|split; [|split; [|split]]]]]].
  - intros x e H. unfold _to_float. rewrite H. now destruct x.
  - intros s H. unfold _to_float. simpl. now rewrite H.
  - intros pm tid Hh Hs. unfold quote. rewrite Hh.
    destruct tid; try reflexivity. now rewrite (Hs s eq_refl).
  - intros pm s d Hs Hd. unfold quote. simpl. rewrite Hs. simpl.
    unfold dict_get. now rewrite Hd.
  - intros pm bm. apply market_sums_ok.
  - intros pm bm results H.
    split; [apply market_sums_spec, H|apply market_sums_each, H].
  - intros pm pm' [c tids] H. simpl in *. now rewrite (asks_of_ext _ _ _ H).
  - intros tokens w bm pm w' Hg Hp.
    unfold sum_yes_by_market, bind, lift, ret. rewrite Hg, Hp. split.
    + intros Hq. apply market_sums_ok in Hq as [results Hr].
      exists results. now rewrite Hr.
    + intros Hq. destruct (market_sums pm bm) as [rs|e] eqn:Hm.
      * assert (all_quoted pm bm = true) by (apply market_sums_ok; eauto).
        congruence.
      * exists e. split; [reflexivity|]. apply (market_sums_raise _ _ _ Hm).
Qed.

(** C8: for the rows [{M1, T1, open}, {M1, T2, open}], when the
    service answers the one request for T1 and T2 with the price map
    [{T1: {BUY: "0.45"}, T2: {BUY: "0.52"}}], [sum_yes_by_market]
    returns exactly [[("M1", 2, 0.97)]]. *)
Theorem sum_yes_by_market_end_to_end (w : world S) :
  fst (clob (srv w) (PostPrices [(PyStr "T1", "BUY"); (PyStr "T2", "BUY")]))
  = Answered
      {| status_code := 200;
         body := Some (PyDict [("T1", quote_of "BUY" "0.45");
                               ("T2", quote_of "BUY" "0.52")]) |} ->
  fst (sum_yes_by_market S clob
         [token_row_of (PyStr "M1") (PyStr "T1") (PyBool false);
          token_row_of (PyStr "M1") (PyStr "T2") (PyBool false)] w)
  = Ok [(PyStr "M1", 2, flt "0.97")].
Proof.
  intros H.
  assert (Hp : get_best_prices S clob [PyStr "T1"; PyStr "T2"] "BUY" 50 w
               = fetch_batches S clob "BUY" [[PyStr "T1"; PyStr "T2"]] [] w)
    by reflexivity.
  assert (Hg : group_tokens
                 [token_row_of (PyStr "M1") (PyStr "T1") (PyBool false);
                  token_row_of (PyStr "M1") (PyStr "T2") (PyBool false)] []
               = Ok [(PyStr "M1", [PyStr "T1"; PyStr "T2"])])
    by reflexivity.
  unfold sum_yes_by_market, bind at 1, lift at 1. rewrite Hg.
  unfold bind at 1. change (all_token_ids _) with [PyStr "T1"; PyStr "T2"].
  rewrite Hp, fetch_batches_step.
  change (payload "BUY" [PyStr "T1"; PyStr "T2"])
    with [(PyStr "T1", "BUY"); (PyStr "T2", "BUY")].
  rewrite H. vm_compute. reflexivity.
Qed.

(** C4: for every list of token ids and every positive batch size,
    [get_best_prices] sends the list in consecutive batches of at most
    [batch_size] ids, one request per batch and in order, and every
    key of every answer is a key of the merged mapping; against a
    price oracle the outcome does not depend on the batch size, and
    it is the mapping with the quote of every token the oracle knows
    (unless a token id cannot be written as JSON, when nothing is
    returned with any batch size), so [[a,b,c,d,e]] gives the same
    mapping with batches of 2 and of 50. *)
Theorem get_best_prices_batching tids side batch_size :
  0 < batch_size ->
  (exists batches,
      List.concat batches = tids
      /\ Forall (batch_ok batch_size) batches
      /\ get_best_prices S clob tids side batch_size
         = fetch_batches S clob side batches []
      /\ forall w out w',
           get_best_prices S clob tids side batch_size w = (Ok out, w') ->
           exists exch,
             trace w' = trace w ++ exch
             /\ map fst exch
                = map (fun b => PostPrices (payload side b)) batches
             /\ Forall (keys_kept out) exch)
  /\ (forall oracle batch_size' w w',
        0 < batch_size' ->
        fst (get_best_prices unit (oracle_clob oracle) tids side batch_size w)
        = fst (get_best_prices unit (oracle_clob oracle) tids side
                               batch_size' w')
        /\ fst (get_best_prices unit (oracle_clob oracle) tids side
                                batch_size w)
           = if forallb json_encodable tids
             then Ok (map (oracle_entry oracle side)
                          (fold_left add_uniq (oracle_keys oracle side tids) []))
             else Raise InvalidJSONError)
  /\ (forall oracle a b c d e w w',
        fst (get_best_prices unit (oracle_clob oracle)
               (map PyStr [a; b; c; d; e]) side 2 w)
        = fst (get_best_prices unit (oracle_clob oracle)
                 (map PyStr [a; b; c; d; e]) side 50 w')
        /\ exists out,
             fst (get_best_prices unit (oracle_clob oracle)
                    (map PyStr [a; b; c; d; e]) side 2 w) = Ok out).
Proof.
  intros Hb. split; [|split].
  - destruct tids as [|t0 tids'] eqn:E.
    + exists []. split; [reflexivity|]. split; [constructor|].
      split; [reflexivity|].
      intros w out w' H. injection H as <- <-. exists [].
      rewrite app_nil_r. repeat split; constructor.
    + rewrite <- E.
      destruct (get_best_prices_batches S clob tids side batch_size Hb)
        as (batches & Hg & Hc & Hf); [now subst|].
      exists batches. split; [exact Hc|]. split; [exact Hf|].
      split; [exact Hg|].
      intros w out w' H. rewrite Hg in H.
      apply fetch_batches_ok in H as (exch & Ht & Hq & _ & _ & Hk).
      exists exch. auto.
  - intros oracle bs' w w' Hb'.
    destruct (forallb json_encodable tids) eqn:He.
    + rewrite !get_best_prices_oracle by assumption. auto.
    + rewrite !get_best_prices_unencodable by assumption. auto.
  - intros oracle a b c d e w w'.
    rewrite !get_best_prices_oracle by (lia || reflexivity). eauto.
Qed.

(** C1, amended: [sum_yes_by_market] puts the rows it keeps, those
    with a truthy market id, a truthy token id and a falsy closed
    flag, into groups keyed by market id, one group per market id.
    Every kept row has a group, under a key equal to its market id,
    that holds its token id; every group holds, in the order of the
    rows, the token ids of exactly the kept rows whose market id
    finds it, and nothing else.  The token ids of all groups together
    are, with repetitions, exactly the token ids of the kept rows, so
    no token id is in two groups when the kept rows have distinct
    token ids; the result has one entry per group, and exactly the
    grouped ids are sent to the price service.  When the market ids
    of the kept rows are strings, the groups are the partition of the
    kept rows by market id, the markets in the order they first
    occur. *)
Theorem sum_yes_by_market_groups tokens :
  (forall bm,
     group_tokens tokens [] = Ok bm ->
     keys_distinct bm
     /\ grouped_by_market tokens bm
     /\ rows_grouped tokens bm
     /\ groups_exact tokens bm
     /\ Permutation (all_token_ids bm)
                    (map row_token_id (filter keep_row tokens))
     /\ (NoDup (map row_token_id (filter keep_row tokens)) ->
         NoDup (all_token_ids bm))
     /\ (forall w res w',
           sum_yes_by_market S clob tokens w = (Ok res, w') ->
           Permutation (map entry_head res) (map group_head bm)
           /\ exists exch, trace w' = trace w ++ exch
                           /\ requested_ids exch = all_token_ids bm))
  /\ (string_market_ids tokens ->
      group_tokens tokens [] = Ok (partition_by_market tokens)).
Proof.
  split.
  - intros bm Hg.
    assert (Hp := group_tokens_ids _ _ _ Hg). simpl in Hp.
    assert (He : grouped_so_far tokens bm).
    { apply (group_tokens_exact tokens [] [] bm Hg). split.
      - intros t [].
      - intros i k tids Hn. now destruct i. }
    split; [eapply group_tokens_distinct; [exact Hg|constructor]|].
    split; [eapply group_tokens_grouped;
            [apply incl_refl|exact Hg|intros c tids tid []]|].
    split; [apply grouped_so_far_rows, He|].
    split; [apply He|].
    split; [exact Hp|]. split.
    + intros Hn. eapply Permutation_NoDup; [apply Permutation_sym, Hp|exact Hn].
    + intros w res w' H.
      apply sum_yes_by_market_requests
        in H as (bm' & pm & results & exch & Hg' & Hm & -> & Ht & Hr).
      rewrite Hg in Hg'. injection Hg' as <-.
      split; [apply (sorted_heads _ _ _ Hm)|eauto].
  - intros Hs. apply (group_tokens_partition tokens []). exact Hs.
Qed.

(** C9: [sum_yes_by_market] keeps a row exactly when its market id is
    truthy, its token id is truthy and its closed flag is falsy.  On
    a run that returns, every kept row is grouped under its market
    id, its token id is sent to the price service, and its market has
    an entry in the result that counts it: the ids sent are the token
    ids of the kept rows and the counts add up to their number.  A
    row that is not kept, such as one with a null or empty market id
    whatever its token id and closed flag, leaves no mark: the groups,
    the requests and the result are those of the run without it.  A
    row with no closed flag, or a null one, is kept when the two ids
    are truthy.  Whatever the outcome, no token id is sent but those
    of kept rows; and against a price oracle the run returns whenever
    the ids of the kept rows can be keys and can be written as
    JSON. *)
Theorem sum_yes_by_market_keeps :
  (forall t, keep_row t = true
             <-> truthy (row_condition_id t) = true
                 /\ truthy (row_token_id t) = true
                 /\ truthy (row_closed t) = false)
  /\ (forall tokens bm, group_tokens tokens [] = Ok bm ->
        Permutation (all_token_ids bm)
                    (map row_token_id (filter keep_row tokens)))
  /\ (forall tokens w res w',
        sum_yes_by_market S clob tokens w = (Ok res, w') ->
        exists bm exch,
          group_tokens tokens [] = Ok bm
          /\ trace w' = trace w ++ exch
          /\ Permutation (requested_ids exch)
                         (map row_token_id (filter keep_row tokens))
          /\ total_count res
             = Z.of_nat (List.length (filter keep_row tokens))
          /\ forall t, In t tokens -> keep_row t = true ->
               In (row_token_id t) (requested_ids exch)
               /\ exists k tids,
                    In (k, tids) bm
                    /\ py_key_eqb k (row_condition_id t) = true
                    /\ In (row_token_id t) tids
                    /\ In (k, Z.of_nat (List.length tids))
                          (map entry_head res))
  /\ (forall t, row_condition_id t = PyNone \/ row_condition_id t = PyStr "" ->
                keep_row t = false)
  /\ (forall t l1 l2 w,
        keep_row t = false ->
        group_tokens (l1 ++ t :: l2) [] = group_tokens (l1 ++ l2) []
        /\ sum_yes_by_market S clob (l1 ++ t :: l2) w
           = sum_yes_by_market S clob (l1 ++ l2) w)
  /\ (forall t,
        truthy (row_condition_id t) = true ->
        truthy (row_token_id t) = true ->
        dict_lookup "closed" t = None \/ dict_lookup "closed" t = Some PyNone ->
        keep_row t = true)
  /\ (forall tokens w r w',
        sum_yes_by_market S clob tokens w = (r, w') ->
        exists exch,
          trace w' = trace w ++ exch
          /\ incl (requested_ids exch)
                  (map row_token_id (filter keep_row tokens)))
  /\ (forall oracle tokens w,
        (forall t, In t tokens -> keep_row t = true ->
                   hashable (row_condition_id t) = true
                   /\ hashable (row_token_id t) = true
                   /\ json_encodable (row_token_id t) = true) ->
        exists res,
          fst (sum_yes_by_market unit (oracle_clob oracle) tokens w) = Ok res
          /\ total_count res
             = Z.of_nat (List.length (filter keep_row tokens))).
Proof.
  split; [|split; [|split; [|split; [|split; [|split; [|split]]]]]].
  - intros t. unfold keep_row, row_condition_id, row_token_id, row_closed.
    rewrite !andb_true_iff, negb_true_iff. tauto.
  - intros tokens bm H. apply (group_tokens_ids _ _ _ H).
  - intros tokens w res w' H.
    apply sum_yes_by_market_requests
      in H as (bm & pm & results & exch & Hg & Hm & -> & Ht & Hr).
    assert (Hp := group_tokens_ids _ _ _ Hg). simpl in Hp.
    assert (He : grouped_so_far tokens bm).
    { apply (group_tokens_exact tokens [] [] bm Hg). split.
      - intros t [].
      - intros i k tids Hn. now destruct i. }
    exists bm, exch. split; [exact Hg|]. split; [exact Ht|].
    split; [now rewrite Hr|]. split.
    + rewrite (sorted_total _ _ _ Hm). f_equal.
      rewrite <- (length_map row_token_id). apply Permutation_length, Hp.
    + intros t Hin Hk.
      destruct (grouped_so_far_rows _ _ He t Hin Hk)
        as (i & k & tids & _ & Hn & Hke & Htid).
      apply nth_error_In in Hn. split.
      * rewrite Hr. unfold all_token_ids. apply in_flat_map.
        exists (k, tids). auto.
      * exists k, tids. split; [exact Hn|]. split; [exact Hke|].
        split; [exact Htid|].
        eapply Permutation_in;
          [apply Permutation_sym, (sorted_heads _ _ _ Hm)|].
        apply in_map_iff. exists (k, tids). auto.
  - intros t Hc. unfold keep_row. unfold row_condition_id in Hc.
    destruct Hc as [-> | ->]; reflexivity.
  - intros t l1 l2 w Hk.
    split; [apply group_tokens_skip, Hk|].
    unfold sum_yes_by_market. now rewrite (group_tokens_skip _ _ _ _ Hk).
  - intros t Hc Ht Hcl. unfold keep_row.
    unfold row_condition_id, row_token_id in *. rewrite Hc, Ht.
    unfold dict_get. destruct Hcl as [-> | ->]; reflexivity.
  - intros tokens w r w' H. eapply sum_yes_by_market_trace, H.
  - intros oracle tokens w Hok.
    destruct (group_tokens_total tokens []) as [bm Hg].
    { intros t Hin Hk. now apply Hok. }
    assert (Hp := group_tokens_ids _ _ _ Hg). simpl in Hp.
    assert (Hall : forall tid, In tid (all_token_ids bm) ->
                     hashable tid = true /\ json_encodable tid = true).
    { intros tid Hin. eapply Permutation_in in Hin; [|exact Hp].
      apply in_map_iff in Hin as (t & <- & Hin).
      apply filter_In in Hin as [Hin Hk].
      destruct (Hok t Hin Hk) as (_ & H1 & H2). auto. }
    set (pm := map (oracle_entry oracle "BUY")
                   (fold_left add_uniq
                      (oracle_keys oracle "BUY" (all_token_ids bm)) [])).
    assert (Hq : fst (get_best_prices unit (oracle_clob oracle)
                        (all_token_ids bm) "BUY" 50 w) = Ok pm).
    { apply get_best_prices_oracle; [lia|].
      apply forallb_forall. intros tid Hin. now apply Hall. }
    assert (Hm : exists results, market_sums pm bm = Ok results).
    { apply market_sums_ok. unfold all_quoted.
      apply forallb_forall. intros [k tids] Hin.
      apply forallb_forall. intros tid Htid. simpl in Htid.
      assert (Hh : hashable tid = true).
      { apply Hall. unfold all_token_ids. apply in_flat_map.
        exists (k, tids). auto. }
      unfold has_quote. rewrite Hh. simpl.
      destruct tid; try reflexivity.
      destruct (dict_lookup s pm) as [v|] eqn:Hl; [|reflexivity].
      apply (oracle_entries_dict _ _ _ _ _ Hl). }
    destruct Hm as [results Hm].
    exists (py_sort sort_key results).
    unfold sum_yes_by_market, bind, lift, ret. rewrite Hg.
    destruct (get_best_prices unit (oracle_clob oracle)
                (all_token_ids bm) "BUY" 50 w) as [r1 w1].
    simpl in Hq. subst r1. rewrite Hm. split; [reflexivity|].
    rewrite (sorted_total _ _ _ Hm). f_equal.
    rewrite <- (length_map row_token_id). apply Permutation_length, Hp.
Qed.

(** C2: each entry of the result is the entry of one group: when
    the group has a quote that is not NaN, its sum is the sum, from
    left to right, of exactly the quotes that are not NaN; when it
    has none, its sum is NaN. *)
Theorem sum_yes_by_market_sums tokens w res w' :
  sum_yes_by_market S clob tokens w = (Ok res, w') ->
  exists bm pm results,
    group_tokens tokens [] = Ok bm
    /\ get_best_prices S clob (all_token_ids bm) "BUY" 50 w = (Ok pm, w')
    /\ Forall2 (entry_of_group pm) bm results
    /\ Permutation results res.
Proof.
  intros H.
  apply sum_yes_by_market_inv in H as (bm & pm & results & Hg & Hq & Hm & ->).
  exists bm, pm, results. split; [exact Hg|]. split; [exact Hq|].
  split; [apply market_sums_spec, Hm|].
  apply Permutation_sym, py_sort_perm.
Qed.

(** C3: the result is in ascending order of the sums, NaN counting as
    positive infinity; no market with a finite sum comes after one
    with a NaN sum; markets that tie keep the order of their groups;
    and the sums [0.92, NaN, 1.05, 0.5] come out as
    [0.5, 0.92, 1.05, NaN]. *)
Theorem sum_yes_by_market_sorted tokens w res w' :
  sum_yes_by_market S clob tokens w = (Ok res, w') ->
  StronglySorted (key_le sort_key) res
  /\ (forall l1 a l2 b,
        res = l1 ++ a :: l2 -> Float64.isnan (entry_sum a) = true ->
        In b l2 -> Float64.isfinite (entry_sum b) = false)
  /\ (exists bm pm results,
        group_tokens tokens [] = Ok bm
        /\ market_sums pm bm = Ok results
        /\ res = py_sort sort_key results
        /\ Permutation res results
        /\ forall k,
             filter (fun e => Float64.eqb (sort_key e) k) res
             = filter (fun e => Float64.eqb (sort_key e) k) results)
  /\ py_sort sort_key
        [(PyStr "A", 1, flt "0.92"); (PyStr "B", 1, Float64.nan);
         (PyStr "C", 1, flt "1.05"); (PyStr "D", 1, flt "0.5")]
     = [(PyStr "D", 1, flt "0.5"); (PyStr "A", 1, flt "0.92");
        (PyStr "C", 1, flt "1.05"); (PyStr "B", 1, Float64.nan)].
Proof.
  intros H.
  apply sum_yes_by_market_inv in H as (bm & pm & results & Hg & Hq & Hm & ->).
  assert (Hs : StronglySorted (key_le sort_key) (py_sort sort_key results))
    by (apply py_sort_sorted, sort_key_not_nan).
  split; [exact Hs|]. split; [|split].
  - intros l1 a l2 b E Ha Hb. rewrite E in Hs.
    apply StronglySorted_after in Hs.
    rewrite Forall_forall in Hs. specialize (Hs b Hb).
    unfold key_le, sort_key in Hs. rewrite Ha in Hs.
    apply leb_inf in Hs.
    destruct (Float64.isnan (entry_sum b)) eqn:Eb.
    + now destruct (entry_sum b).
    + now rewrite Hs.
  - exists bm, pm, results. split; [exact Hg|]. split; [exact Hm|].
    split; [reflexivity|]. split; [apply py_sort_perm|].
    intros k. apply py_sort_stable.
  - vm_compute. reflexivity.
Qed.
End Claims.

(* ================================================================== *)
(** ** The normalizer *)
(* ================================================================== *)

Section FlattenFacts.
Variable py_repr : pyval -> string.

Lemma token_row_spec m cond active closed t :
  field "condition_id" m = cond ->
  field "active" m = active ->
  field "closed" m = closed ->
  is_dict t = true ->
  exists row, token_row py_repr cond active closed t = Ok row
              /\ row_of_token py_repr label_first_truthy (m, t) row.
Proof.
  intros <- <- <- Ht. destruct t as [| | | | | |td]; try discriminate.
  eexists. split; [reflexivity|].
  unfold row_of_token. repeat split.
  unfold dict_get at 1. simpl dict_lookup. simpl field.
  now destruct (dict_get "token_id" td).
Qed.

Lemma token_rows_spec m cond active closed ts :
  field "condition_id" m = cond ->
  field "active" m = active ->
  field "closed" m = closed ->
  forallb is_dict ts = true ->
  exists rows, token_rows py_repr cond active closed ts = Ok rows
               /\ Forall2 (row_of_token py_repr label_first_truthy)
                          (map (pair m) ts) rows.
Proof.
  intros Hc Ha Hcl. induction ts as [|t ts IH]; simpl; intros H.
  - eexists. split; [reflexivity|constructor].
  - apply andb_true_iff in H as [Ht Hts].
    destruct (token_row_spec m _ _ _ t Hc Ha Hcl Ht) as (row & Hr & Hrow).
    destruct (IH Hts) as (rows & Hrs & Hrows).
    rewrite Hr, Hrs. simpl. eexists. split; [reflexivity|].
    constructor; assumption.
Qed.

Lemma market_rows_spec m :
  well_shaped_market m = true ->
  exists rows, market_rows py_repr m = Ok rows
               /\ Forall2 (row_of_token py_repr label_first_truthy)
                          (map (pair m) (market_tokens m)) rows.
Proof.
  unfold well_shaped_market, market_rows, market_tokens.
  destruct m as [| | | | | |md]; try discriminate.
  destruct (py_or (dict_get "tokens" md) (PyList [])) as [| | | | |ts|];
    try discriminate.
  intros H. simpl rbind.
  apply (token_rows_spec (PyDict md)); auto.
Qed.

Lemma flatten_markets_spec ms :
  forallb well_shaped_market ms = true ->
  exists rows, flatten_markets py_repr ms = Ok rows
               /\ Forall2 (row_of_token py_repr label_first_truthy)
                          (flat_map (fun m => map (pair m) (market_tokens m)) ms)
                          rows.
Proof.
  induction ms as [|m ms IH]; simpl; intros H.
  - eexists. split; [reflexivity|constructor].
  - apply andb_true_iff in H as [Hm Hms].
    destruct (market_rows_spec m Hm) as (rows & Hr & Hrows).
    destruct (IH Hms) as (rows' & Hr' & Hrows').
    rewrite Hr, Hr'. simpl. eexists. split; [reflexivity|].
    apply Forall2_app; assumption.
Qed.

(** C5, amended: for every simplified-markets page the normalizer
    emits exactly one row per outcome token of each market, in page
    order, each row carrying the market id of its market, the
    market's active and closed flags as booleans, the token id as a
    string (null when the token has none; such rows are retained),
    and as label the first truthy of name, outcome and title, or
    what title holds when none is truthy; a page of one market with
    two tokens gives exactly two rows with that market's id and
    closed flag. *)
Theorem flatten_rows page :
  well_shaped_page page = true ->
  exists rows,
    flatten_tokens_from_simplified py_repr page = Ok rows
    /\ Forall2 (row_of_token py_repr label_first_truthy)
               (page_tokens page) rows
    /\ List.length rows = List.length (page_tokens page)
    /\ (forall m t1 t2,
          page_markets page = [m] -> market_tokens m = [t1; t2] ->
          exists r1 r2,
            rows = [r1; r2]
            /\ dict_get "condition_id" r1 = field "condition_id" m
            /\ dict_get "condition_id" r2 = field "condition_id" m
            /\ dict_get "closed" r1 = PyBool (truthy (field "closed" m))
            /\ dict_get "closed" r2 = PyBool (truthy (field "closed" m))).
Proof.
  unfold well_shaped_page, flatten_tokens_from_simplified, page_tokens,
    page_markets.
  destruct (dict_get_default "data" (PyList []) page) as [| | | | |ms|];
    try discriminate.
  intros H. destruct (flatten_markets_spec ms H) as (rows & Hr & Hrows).
  exists rows. split; [exact Hr|]. split; [exact Hrows|].
  split; [symmetry; eapply Forall2_length, Hrows|].
  intros m t1 t2 -> Ht. simpl in Hrows. rewrite Ht in Hrows. simpl in Hrows.
  inversion Hrows as [|x1 r1 l1 rs1 H1 Hrest]; subst.
  inversion Hrest as [|x2 r2 l2 rs2 H2 Hnil]; subst.
  inversion Hnil; subst.
  exists r1, r2. unfold row_of_token in H1, H2.
  destruct H1 as (_ & Hc1 & _ & Hcl1 & _).
  destruct H2 as (_ & Hc2 & _ & Hcl2 & _). auto.
Qed.
End FlattenFacts.

(** C5, as stated, fails: a token with an empty name and the outcome
    "Yes" gets the label "Yes", though its name is present: the label
    is not the first present of name, outcome and title. *)
Lemma flatten_label_skips_empty_name :
  exists row,
    flatten_tokens_from_simplified no_repr unnamed_page = Ok [row]
    /\ dict_get "label" row = PyStr "Yes"
    /\ label_first_present unnamed_token = PyStr ""
    /\ dict_get "label" row <> label_first_present unnamed_token.
Proof.
  eexists. split; [reflexivity|]. split; [reflexivity|].
  split; [reflexivity|]. discriminate.
Qed.

(** C1, as stated, fails: the row without market id is open and has a
    token id, yet is in no group, so the groups do not cover the open
    token ids; and the token listed under two markets is in two
    groups, so there are duplicates across groups. *)
Lemma sum_yes_by_market_drops_and_repeats :
  exists bm,
    group_tokens stray_rows [] = Ok bm
    /\ In (PyStr "T0") (open_token_ids stray_rows)
    /\ ~ In (PyStr "T0") (all_token_ids bm)
    /\ ~ (forall tid, In tid (all_token_ids bm)
                      <-> In tid (open_token_ids stray_rows))
    /\ ~ NoDup (all_token_ids bm)
    /\ fst (sum_yes_by_market unit (const_clob two_prices) stray_rows w0)
       = Ok [(PyStr "M1", 1, flt "0.45"); (PyStr "M2", 1, flt "0.45")].
Proof.
  eexists. split; [reflexivity|].
  assert (Hin : In (PyStr "T0") (open_token_ids stray_rows)) by (now left).
  assert (Hout : ~ In (PyStr "T0")
                   (all_token_ids [(PyStr "M1", [PyStr "T1"]);
                                   (PyStr "M2", [PyStr "T1"])])).
  { intros [H|[H|[]]]; discriminate. }
  split; [exact Hin|]. split; [exact Hout|]. split; [|split].
  - intros H. apply Hout, H, Hin.
  - intros H. inversion H as [|x l Hn _]; subst. apply Hn. now left.
  - vm_compute. reflexivity.
Qed.

(** C6, as stated, fails: [get_book] raises though no error status
    came, on an answer with status 200 whose body is not JSON, and
    when no answer comes within the timeout. *)
Lemma get_book_raises_without_error_status :
  fst (text_clob tt (GetBook (PyStr "T1")))
  = Answered {| status_code := 200; body := None |}
  /\ fst (get_book unit text_clob (PyStr "T1") w0) = Raise JSONDecodeError
  /\ fst (silent_clob tt (GetBook (PyStr "T1"))) = NoAnswer ReadTimeout
  /\ fst (get_book unit silent_clob (PyStr "T1") w0)
     = Raise (RequestFailed ReadTimeout).
Proof. repeat split. Qed.

(** C7, as stated, fails: when the price map holds null in the place
    of the quotes of T1, the run raises and market M2, whose quote is
    good, gets no sum either: the malformed entry aborts the
    computation.  A null quote inside an object does degrade the
    sum of M1 only. *)
Lemma sum_yes_by_market_aborts_on_null_entry :
  fst (sum_yes_by_market unit (const_clob null_entry_prices) two_markets w0)
  = Raise AttributeError
  /\ fst (sum_yes_by_market unit (const_clob null_quote_prices) two_markets w0)
     = Ok [(PyStr "M2", 1, flt "0.52"); (PyStr "M1", 1, Float64.nan)].
Proof. split; vm_compute; reflexivity. Qed.

(* ================================================================== *)
(** ** The statements at sample inputs *)
(* ================================================================== *)

Lemma four_rows_run :
  sum_yes_by_market unit (const_clob four_prices) four_rows w0
  = (Ok four_result, four_world).
Proof. vm_compute. reflexivity. Defined.

Lemma four_rows_strings : string_market_ids four_rows.
Proof.
  intros t Hin _. unfold four_rows in Hin. simpl in Hin.
  destruct Hin as [<-|[<-|[<-|[<-|[]]]]]; reflexivity.
Defined.

Lemma sum_yes_by_market_groups_witness :
  group_tokens four_rows [] = Ok four_groups
  /\ rows_grouped four_rows four_groups
  /\ groups_exact four_rows four_groups
  /\ Permutation (all_token_ids four_groups)
                 (map row_token_id (filter keep_row four_rows))
  /\ Permutation (map entry_head four_result) (map group_head four_groups)
  /\ group_tokens four_rows [] = Ok (partition_by_market four_rows).
Proof.
  pose proof (sum_yes_by_market_groups unit (const_clob four_prices)
                four_rows) as [Hg Hs].
  pose proof (Hg four_groups eq_refl) as (_ & _ & H1 & H2 & Hp & _ & Hr).
  split; [reflexivity|]. split; [exact H1|]. split; [exact H2|].
  split; [exact Hp|]. split.
  - exact (proj1 (Hr w0 four_result four_world four_rows_run)).
  - exact (Hs four_rows_strings).
Defined.

Lemma sum_yes_by_market_sums_witness :
  exists bm pm results,
    group_tokens four_rows [] = Ok bm
    /\ get_best_prices unit (const_clob four_prices) (all_token_ids bm) "BUY" 50 w0
       = (Ok pm, four_world)
    /\ Forall2 (entry_of_group pm) bm results
    /\ Permutation results four_result.
Proof.
  exact (sum_yes_by_market_sums unit (const_clob four_prices) four_rows w0
           four_result four_world four_rows_run).
Defined.

Lemma sum_yes_by_market_sorted_witness :
  StronglySorted (key_le sort_key) four_result
  /\ forall l1 a l2 b,
       four_result = l1 ++ a :: l2 -> Float64.isnan (entry_sum a) = true ->
       In b l2 -> Float64.isfinite (entry_sum b) = false.
Proof.
  pose proof (sum_yes_by_market_sorted unit (const_clob four_prices) four_rows
                w0 four_result four_world four_rows_run) as (Hs & Hn & _).
  split; [exact Hs|exact Hn].
Defined.

Lemma get_best_prices_batching_witness :
  0 < 2
  /\ fst (get_best_prices unit (oracle_clob abc_oracle)
            (map PyStr ["a"; "b"; "c"; "d"; "e"]) "BUY" 2 w0)
     = fst (get_best_prices unit (oracle_clob abc_oracle)
              (map PyStr ["a"; "b"; "c"; "d"; "e"]) "BUY" 50 w0)
  /\ fst (get_best_prices unit (oracle_clob abc_oracle)
            (map PyStr ["a"; "b"; "c"; "d"; "e"]) "BUY" 2 w0)
     = Ok [("a", quote_of "BUY" "0.5"); ("b", quote_of "BUY" "0.5");
           ("d", quote_of "BUY" "0.5"); ("e", quote_of "BUY" "0.5")].
Proof.
  pose proof (get_best_prices_batching unit (oracle_clob abc_oracle)
                (map PyStr ["a"; "b"; "c"; "d"; "e"]) "BUY" 2 eq_refl)
    as (_ & H & _).
  split; [reflexivity|]. split; [|reflexivity].
  exact (proj1 (H abc_oracle 50 w0 w0 eq_refl)).
Defined.

Lemma flatten_rows_witness :
  well_shaped_page binary_page = true
  /\ exists rows,
       flatten_tokens_from_simplified no_repr binary_page = Ok rows
       /\ List.length rows = 2%nat.
Proof.
  split; [reflexivity|].
  destruct (flatten_rows no_repr binary_page eq_refl) as (rows & Hr & _ & Hl & _).
  exists rows. split; [exact Hr|exact Hl].
Defined.

Lemma get_book_not_found_witness :
  fst (get_book unit (status_clob 404) (PyStr "T1") w0)
  = Ok (PyDict [("error", PyStr "not_found"); ("token_id", PyStr "T1")])
  /\ fst (get_book unit (status_clob 500) (PyStr "T1") w0)
     = Raise (HTTPError 500)
  /\ fst (get_book unit (status_clob 200) (PyStr "T1") w0) = Ok (PyDict []).
Proof.
  split; [|split].
  - exact (proj1 (get_book_not_found unit (status_clob 404) (PyStr "T1") w0)
                 _ eq_refl eq_refl).
  - reflexivity.
  - exact (proj1 (proj2 (proj2 (proj2
             (get_book_not_found unit (status_clob 200) (PyStr "T1") w0))))
             {| status_code := 200; body := Some (PyDict []) |} (PyDict [])
             eq_refl ltac:(simpl; lia) eq_refl).
Defined.

Lemma to_float_total_witness :
  py_float (PyStr "n/a") = Raise ValueError
  /\ _to_float (PyStr "n/a") = Float64.nan
  /\ _to_float (PyList []) = Float64.nan
  /\ exists results,
       market_sums [("T1", PyDict [("BUY", PyNone)]);
                    ("T2", quote_of "BUY" "0.52")]
                   [(PyStr "M1", [PyStr "T1"]); (PyStr "M2", [PyStr "T2"])]
       = Ok results
       /\ sum_yes_by_market unit (const_clob null_quote_prices) two_markets w0
          = (Ok (py_sort sort_key results),
             {| srv := tt;
                trace := [(PostPrices (payload "BUY" [PyStr "T1"; PyStr "T2"]),
                           Answered {| status_code := 200;
                                       body := Some null_quote_prices |})] |}).
Proof.
  destruct (to_float_total unit (const_clob null_quote_prices))
    as (_ & H & _ & _ & _ & _ & _ & _ & Hs).
  split; [reflexivity|]. split; [|split].
  - exact (H (PyStr "n/a") ValueError eq_refl).
  - exact (H (PyList []) TypeError eq_refl).
  - exact (proj1 (Hs two_markets w0 _ _ _ eq_refl eq_refl) eq_refl).
Defined.

Lemma sum_yes_by_market_end_to_end_witness :
  fst (sum_yes_by_market unit (const_clob two_prices) two_rows w0)
  = Ok [(PyStr "M1", 2, flt "0.97")].
Proof.
  exact (sum_yes_by_market_end_to_end unit (const_clob two_prices) w0 eq_refl).
Defined.

Lemma stray_rows_run :
  sum_yes_by_market unit (const_clob two_prices) stray_rows w0
  = (Ok [(PyStr "M1", 1, flt "0.45"); (PyStr "M2", 1, flt "0.45")],
     {| srv := tt;
        trace := [(PostPrices (payload "BUY" [PyStr "T1"; PyStr "T1"]),
                   Answered {| status_code := 200;
                               body := Some two_prices |})] |}).
Proof. vm_compute. reflexivity. Defined.

Lemma sum_yes_by_market_keeps_witness :
  (exists bm exch,
     group_tokens stray_rows [] = Ok bm
     /\ trace (snd (sum_yes_by_market unit (const_clob two_prices)
                       stray_rows w0)) = trace w0 ++ exch
     /\ Permutation (requested_ids exch) [PyStr "T1"; PyStr "T1"]
     /\ total_count [(PyStr "M1", 1, flt "0.45"); (PyStr "M2", 1, flt "0.45")]
        = 2)
  /\ sum_yes_by_market unit (const_clob two_prices) stray_rows w0
     = sum_yes_by_market unit (const_clob two_prices) (tl stray_rows) w0
  /\ keep_row (token_row_of (PyStr "M1") (PyStr "T1") PyNone) = true
  /\ keep_row [("condition_id", PyStr "M1"); ("token_id", PyStr "T1")] = true.
Proof.
  destruct (sum_yes_by_market_keeps unit (const_clob two_prices))
    as (_ & _ & Hrun & _ & Hd & Hk & _).
  split; [|split; [|split]].
  - destruct (Hrun stray_rows w0 _ _ stray_rows_run)
      as (bm & exch & Hg & Ht & Hp & Hc & _).
    exists bm, exch. split; [exact Hg|]. split; [exact Ht|].
    split; [exact Hp|exact Hc].
  - exact (proj2 (Hd (token_row_of PyNone (PyStr "T0") (PyBool false)) []
                     (tl stray_rows) w0 eq_refl)).
  - exact (Hk (token_row_of (PyStr "M1") (PyStr "T1") PyNone)
              eq_refl eq_refl (or_intror eq_refl)).
  - exact (Hk [("condition_id", PyStr "M1"); ("token_id", PyStr "T1")]
              eq_refl eq_refl (or_introl eq_refl)).
Defined.

(* ================================================================== *)
(** ** Further properties of [get_best_prices] *)
(* ================================================================== *)

Lemma range_from_length bs n : 0 < bs -> forall fuel i,
  0 <= i -> n - i <= Z.of_nat fuel ->
  Z.of_nat (List.length (range_from fuel i n bs))
  = Z.max 0 ((n - i + bs - 1) / bs).
Proof.
  intros Hb. assert (Hbt : (0 <? bs) = true) by (apply Z.ltb_lt; exact Hb).
  induction fuel as [|fuel IH]; intros i Hi Hf; simpl.
  - assert (H : (n - i + bs - 1) / bs <= 0).
    { apply Z.lt_succ_r. apply Z.div_lt_upper_bound; lia. }
    lia.
  - rewrite Hbt. destruct (i <? n) eqn:Hin.
    + apply Z.ltb_lt in Hin. simpl List.length.
      rewrite Nat2Z.inj_succ, IH by lia.
      replace (n - (i + bs) + bs - 1) with (n - i - 1) by lia.
      replace (n - i + bs - 1) with (n - i - 1 + 1 * bs) by lia.
      rewrite Z.div_add by lia.
      assert (0 <= (n - i - 1) / bs) by (apply Z.div_pos; lia).
      lia.
    + apply Z.ltb_ge in Hin. simpl.
      assert (H : (n - i + bs - 1) / bs <= 0).
      { apply Z.lt_succ_r. apply Z.div_lt_upper_bound; lia. }
      lia.
Qed.

Lemma reply_outcome_error rp e :
  reply_outcome rp = Raise e -> request_error e.
Proof.
  intros H. unfold request_error.
  apply reply_outcome_raise
    in H as [(why & _ & ->)|[(r & _ & Hs & ->)|(r & _ & _ & _ & ->)]]; eauto.
  do 3 right. exists (status_code r). split; [reflexivity|].
  apply ok_status_false, Hs.
Qed.

Lemma In_firstn_app {A} (x : A) l1 l2 n :
  In x l1 -> (List.length l1 <= n)%nat -> In x (firstn n (l1 ++ l2)).
Proof.
  intros Hin Hl. rewrite firstn_app.
  apply in_or_app. left. now rewrite firstn_all2.
Qed.

Section FurtherPrices.
Variable S : Type.
Variable clob : S -> request -> reply * S.

Lemma get_best_prices_unfold tids side bs :
  0 < bs -> tids <> [] ->
  get_best_prices S clob tids side bs
  = fetch_batches S clob side
      (batches_of tids
         (range_from (Z.abs_nat (Z.of_nat (List.length tids) - 0)) 0
                     (Z.of_nat (List.length tids)) bs) bs) [].
Proof.
  intros Hb Hne. unfold get_best_prices, py_range.
  destruct tids; [congruence|].
  destruct (bs =? 0) eqn:E; [apply Z.eqb_eq in E; lia|reflexivity].
Qed.

Lemma get_best_prices_raise tids side bs w e w' :
  0 < bs ->
  get_best_prices S clob tids side bs w = (Raise e, w') ->
  request_error e.
Proof.
  intros Hb H. destruct tids as [|t0 tids'] eqn:E; [discriminate|].
  rewrite <- E in *.
  rewrite get_best_prices_unfold in H by (auto; now subst).
  apply fetch_batches_outcome in H
    as (exch & sent & rest & _ & _ & _
        & [(-> & _)|(exch0 & q & rp & _ & _ & Hbad)]).
  - left. reflexivity.
  - apply (reply_outcome_error _ _ Hbad).
Qed.

(** X1: with a batch size of zero a non-empty list of ids raises
    [ValueError], and with a negative batch size it returns the empty
    mapping; in both cases no request is sent. *)
Theorem get_best_prices_bad_batch_size tids side batch_size (w : world S) :
  tids <> [] -> batch_size <= 0 ->
  get_best_prices S clob tids side batch_size w
  = (if batch_size =? 0 then Raise ValueError else Ok [], w).
Proof.
  intros Hne Hb. unfold get_best_prices, py_range.
  destruct tids as [|t0 tids']; [congruence|].
  destruct (batch_size =? 0) eqn:E; [reflexivity|].
  apply Z.eqb_neq in E.
  assert (Hl : (0 <? batch_size) = false) by (apply Z.ltb_ge; lia).
  remember (t0 :: tids') as tids.
  destruct (Z.abs_nat (Z.of_nat (List.length tids) - 0)) as [|fuel]; simpl.
  - reflexivity.
  - rewrite Hl.
    assert (Hn : (Z.of_nat (List.length tids) <? 0) = false)
      by (apply Z.ltb_ge; lia).
    rewrite Hn. reflexivity.
Qed.

(** X2: with a positive batch size, the ids sent are a front part
    of the list, and the replies before the last are all good:
    answers without error status whose body is JSON.  The call
    raises in two ways only: before sending a batch that holds an id
    that cannot be written as JSON, with [InvalidJSONError], all
    replies so far being good; or at a reply that makes the client
    raise (no answer within the timeout, no connection, an error
    status, a body that is not JSON), with the exception of that
    reply.  Then no further batch is sent.  On success all ids were
    sent and all replies were good. *)
Theorem get_best_prices_stops_at_error tids side batch_size w r w' :
  0 < batch_size ->
  get_best_prices S clob tids side batch_size w = (r, w') ->
  exists exch rest,
    trace w' = trace w ++ exch
    /\ requested_ids exch ++ rest = tids
    /\ match r with
       | Ok _ =>
           rest = [] /\ Forall (fun qr => good_reply (snd qr) = true) exch
       | Raise e =>
           (e = InvalidJSONError
            /\ Forall (fun qr => good_reply (snd qr) = true) exch
            /\ exists tid,
                 In tid (firstn (Z.to_nat batch_size) rest)
                 /\ json_encodable tid = false)
           \/ (exists exch0 q rp,
                  exch = exch0 ++ [(q, rp)]
                  /\ Forall (fun qr => good_reply (snd qr) = true) exch0
                  /\ reply_outcome rp = Raise e)
       end.
Proof.
  intros Hb H. destruct tids as [|t0 tids'] eqn:E.
  - injection H as <- <-. exists [], []. rewrite app_nil_r.
    repeat split; constructor.
  - rewrite <- E in *.
    destruct (get_best_prices_batches S clob tids side batch_size Hb)
      as (batches & Hg & Hc & Hf); [now subst|].
    rewrite Hg in H.
    apply fetch_batches_outcome in H as (exch & sent & rest & Ht & Hs & Hq & Hr).
    exists exch, (List.concat rest).
    split; [exact Ht|]. split.
    { rewrite (requested_ids_batches _ _ _ Hq), <- Hc, Hs.
      now rewrite concat_app. }
    destruct r as [out|e].
    + destruct Hr as (-> & Hok & _). auto.
    + destruct Hr as [(-> & Hok & b & rest' & -> & Hbad)|Hr]; [|right; exact Hr].
      left. split; [reflexivity|]. split; [exact Hok|].
      assert (Hbb : (List.length b <= Z.to_nat batch_size)%nat).
      { rewrite Hs in Hf. apply Forall_app in Hf as [_ Hf].
        inversion Hf as [|? ? [_ Hl] _]; subst. lia. }
      assert (Hex : exists tid, In tid b /\ json_encodable tid = false).
      { clear - Hbad. induction b as [|x b IH]; [discriminate|].
        simpl in Hbad. destruct (json_encodable x) eqn:Ex.
        - destruct (IH Hbad) as (tid & Hin & Ht). exists tid. split; auto.
          now right.
        - exists x. split; [now left|exact Ex]. }
      destruct Hex as (tid & Hin & Hbt).
      exists tid. split; [|exact Hbt].
      simpl. now apply In_firstn_app.
Qed.

(** X3: on success with a positive batch size the number of requests
    is the number of ids divided by the batch size, rounded up. *)
Theorem get_best_prices_request_count tids side batch_size w out w' :
  0 < batch_size ->
  get_best_prices S clob tids side batch_size w = (Ok out, w') ->
  exists exch,
    trace w' = trace w ++ exch
    /\ Z.of_nat (List.length exch)
       = (Z.of_nat (List.length tids) + batch_size - 1) / batch_size.
Proof.
  intros Hb H. destruct tids as [|t0 tids'] eqn:E.
  - injection H as <- <-. exists []. rewrite app_nil_r.
    split; [reflexivity|]. simpl.
    symmetry. apply Z.div_small. lia.
  - rewrite <- E in *.
    rewrite get_best_prices_unfold in H by (auto; now subst).
    apply fetch_batches_ok in H as (exch & Ht & Hq & _).
    exists exch. split; [exact Ht|].
    apply (f_equal (@List.length _)) in Hq.
    rewrite !length_map in Hq. unfold batches_of in Hq.
    rewrite length_map in Hq. rewrite Hq.
    rewrite (range_from_length batch_size _ Hb) by lia.
    rewrite Z.sub_0_r.
    assert (0 <= (Z.of_nat (List.length tids) + batch_size - 1) / batch_size)
      by (apply Z.div_pos; lia).
    lia.
Qed.

(** X4: on success the merged mapping holds exactly the keys of the
    objects answered, each with the value given last; an answer that
    is not an object adds nothing. *)
Theorem get_best_prices_last_wins tids side batch_size w out w' :
  get_best_prices S clob tids side batch_size w = (Ok out, w') ->
  exists exch,
    trace w' = trace w ++ exch
    /\ forall k, dict_lookup k out = lookup_last k (answered_items exch).
Proof.
  unfold get_best_prices. destruct tids as [|t0 tids'] eqn:E.
  - intros H. injection H as <- <-. exists []. rewrite app_nil_r.
    split; reflexivity.
  - rewrite <- E. destruct (py_range _ _ _) as [starts|e]; [|discriminate].
    intros H.
    apply fetch_batches_outcome in H as (exch & sent & rest & Ht & _ & _ & Hr).
    destruct Hr as (_ & _ & Hl).
    exists exch. split; [exact Ht|].
    intros k. rewrite Hl. now destruct (lookup_last k (answered_items exch)).
Qed.
End FurtherPrices.

(* ================================================================== *)
(** ** Further properties of [sum_yes_by_market] and of its caller *)
(* ================================================================== *)

Section FurtherSums.
Variable S : Type.
Variable clob : S -> request -> reply * S.

(** X5: when no row is kept, the empty input among the cases, the
    result is empty and no request is sent, whatever the service
    would have answered. *)
Theorem sum_yes_by_market_nothing_kept tokens (w : world S) :
  filter keep_row tokens = [] ->
  sum_yes_by_market S clob tokens w = (Ok [], w).
Proof.
  intros H. unfold sum_yes_by_market, bind, lift.
  now rewrite (group_tokens_none _ _ H).
Qed.

(** X6: the token counts of the result add up to the number of kept
    rows, and every entry counts at least one token. *)
Theorem sum_yes_by_market_counts tokens w res w' :
  sum_yes_by_market S clob tokens w = (Ok res, w') ->
  total_count res = Z.of_nat (List.length (filter keep_row tokens))
  /\ Forall (fun x => 1 <= entry_count x) res.
Proof.
  intros H.
  apply sum_yes_by_market_inv in H as (bm & pm & results & Hg & _ & Hm & ->).
  assert (Hp : Permutation (map entry_head (py_sort sort_key results))
                           (map group_head bm)).
  { rewrite <- (entry_heads pm bm results) by (apply market_sums_spec, Hm).
    apply Permutation_map, py_sort_perm. }
  split.
  - unfold total_count.
    replace (map entry_count (py_sort sort_key results))
      with (map snd (map entry_head (py_sort sort_key results)))
      by (now rewrite map_map).
    rewrite (total_perm _ _ (Permutation_map snd Hp)), group_heads_total.
    f_equal. rewrite <- (length_map row_token_id).
    apply Permutation_length. apply (group_tokens_ids _ _ _ Hg).
  - assert (Hn : Forall (fun h : pyval * Z => 1 <= snd h) (map group_head bm)).
    { apply Forall_map.
      eapply Forall_impl;
        [|apply (group_tokens_nonempty _ _ _ Hg); constructor].
      intros [k tids] Hne. simpl in *. destruct tids; [congruence|].
      simpl List.length. lia. }
    apply (Permutation_Forall (Permutation_sym Hp)) in Hn.
    rewrite Forall_map in Hn. exact Hn.
Qed.

(** X7: grouping raises, and then [TypeError], exactly when some kept
    row has a market id that is not hashable (a list or an object);
    [sum_yes_by_market] then raises before any request is sent. *)
Theorem sum_yes_by_market_unhashable tokens :
  ((exists e, group_tokens tokens [] = Raise e)
   <-> exists t, In t tokens /\ unhashable_row t)
  /\ ((exists t, In t tokens /\ unhashable_row t) ->
      forall w : world S,
        sum_yes_by_market S clob tokens w = (Raise TypeError, w)).
Proof.
  split; [split|].
  - intros [e He]. apply (group_tokens_raise _ _ _ He).
  - intros H. rewrite (group_tokens_unhashable _ _ H). eauto.
  - intros H w. unfold sum_yes_by_market, bind, lift.
    now rewrite (group_tokens_unhashable _ _ H).
Qed.

(** X8: [sum_yes_by_market] raises at one of three places, and
    nowhere else.  While grouping: [TypeError], some kept row having
    a market id that cannot be a key, and nothing is sent.  While
    fetching the prices: the exception of the request that failed.
    While adding up: [TypeError] or [AttributeError], some token id
    being unhashable or some entry of the price map not being an
    object.  The conversion of the quotes raises nothing: what
    [float] raises on a malformed quote never leaves [_to_float]. *)
Theorem sum_yes_by_market_raises_only tokens w e w' :
  sum_yes_by_market S clob tokens w = (Raise e, w') ->
  (e = TypeError /\ w' = w
   /\ exists t, In t tokens /\ unhashable_row t)
  \/ (request_error e
      /\ exists bm,
           group_tokens tokens [] = Ok bm
           /\ get_best_prices S clob (all_token_ids bm) "BUY" 50 w
              = (Raise e, w'))
  \/ ((e = TypeError \/ e = AttributeError)
      /\ exists bm pm,
           group_tokens tokens [] = Ok bm
           /\ get_best_prices S clob (all_token_ids bm) "BUY" 50 w
              = (Ok pm, w')
           /\ market_sums pm bm = Raise e
           /\ all_quoted pm bm = false).
Proof.
  unfold sum_yes_by_market, bind, lift, ret.
  destruct (group_tokens tokens []) as [bm|e0] eqn:Hg.
  - destruct (get_best_prices _ _ _ _ _ w) as [[pm|e1] w1] eqn:Hp.
    + destruct (market_sums pm bm) as [rs|e2] eqn:Hm; [discriminate|].
      intros H. injection H as <- <-. right. right.
      split; [apply (market_sums_raise _ _ _ Hm)|].
      exists bm, pm. split; [reflexivity|]. split; [exact Hp|].
      split; [exact Hm|].
      destruct (all_quoted pm bm) eqn:Hq; [|reflexivity].
      apply market_sums_ok in Hq as [rs Hrs]. congruence.
    + intros H. injection H as <- <-. right. left.
      split; [eapply get_best_prices_raise; [|exact Hp]; lia|].
      exists bm. auto.
  - intros H. injection H as <- <-. left.
    destruct (group_tokens_raise _ _ _ Hg) as [-> Ht]. auto.
Qed.

(** X9: the filter [main] applies before the call, keeping the rows
    with a truthy token id that are not closed, changes nothing:
    [sum_yes_by_market] gives the same result and sends the same
    requests on the filtered rows as on all rows. *)
Theorem main_live_filter_redundant tokens (w : world S) :
  sum_yes_by_market S clob (live_rows tokens) w
  = sum_yes_by_market S clob tokens w.
Proof. unfold sum_yes_by_market. now rewrite group_tokens_live. Qed.

(** X10: what [main] prints of a result are its first 15 entries with
    a sum that is not NaN, and these entries are in ascending order
    of their sums: the markets shown are those of the smallest
    sums. *)
Theorem main_shows_smallest tokens w sums w' :
  sum_yes_by_market S clob tokens w = (Ok sums, w') ->
  shown_entries sums
  = firstn 15 (filter (fun x => negb (Float64.isnan (entry_sum x))) sums)
  /\ StronglySorted (key_le entry_sum)
       (filter (fun x => negb (Float64.isnan (entry_sum x))) sums).
Proof.
  intros H. split; [apply (shown_from_spec sums 0 14); reflexivity|].
  apply sum_yes_by_market_inv in H as (bm & pm & results & _ & _ & _ & ->).
  apply (StronglySorted_on
           (fun x => Float64.isnan (entry_sum x) = false)
           (key_le sort_key)).
  - intros a b Ha Hb. unfold key_le, sort_key. now rewrite Ha, Hb.
  - apply Forall_forall. intros x Hx. apply filter_In in Hx as [_ Hx].
    now apply negb_true_iff in Hx.
  - apply StronglySorted_filter, py_sort_sorted, sort_key_not_nan.
Qed.
End FurtherSums.

(* ================================================================== *)
(** ** Further properties of the normalizer *)
(* ================================================================== *)

Section FurtherFlatten.
Variable py_repr : pyval -> string.

Lemma token_row_inv cond active closed t row :
  token_row py_repr cond active closed t = Ok row ->
  is_dict t = true /\ null_or_string (dict_get "token_id" row).
Proof.
  destruct t as [| | | | | |td]; try discriminate.
  intros H. injection H as <-. split; [reflexivity|].
  unfold null_or_string, dict_get at 1. simpl dict_lookup.
  destruct (dict_get "token_id" td);
    [left; reflexivity|right; eexists; reflexivity ..].
Qed.

Lemma token_rows_inv cond active closed ts : forall rows,
  token_rows py_repr cond active closed ts = Ok rows ->
  forallb is_dict ts = true
  /\ Forall (fun row => null_or_string (dict_get "token_id" row)) rows.
Proof.
  induction ts as [|t ts IH]; simpl; intros rows H.
  - injection H as <-. split; [reflexivity|constructor].
  - destruct (token_row _ _ _ _ t) as [row|] eqn:Hr; [|discriminate].
    simpl in H.
    destruct (token_rows _ _ _ _ ts) as [rows'|]; [|discriminate].
    simpl in H. injection H as <-.
    destruct (token_row_inv _ _ _ _ _ Hr) as [Hd Hn].
    destruct (IH _ eq_refl) as [Hds Hns].
    split; [now rewrite Hd, Hds|constructor; assumption].
Qed.

Lemma chars_not_dicts s rows cond active closed :
  token_rows py_repr cond active closed (chars s) = Ok rows -> s = "".
Proof. destruct s as [|c s]; [reflexivity|discriminate]. Qed.

Lemma market_rows_inv m rows :
  market_rows py_repr m = Ok rows ->
  well_shaped_market m = true
  /\ Forall (fun row => null_or_string (dict_get "token_id" row)) rows.
Proof.
  unfold market_rows, well_shaped_market.
  destruct m as [| | | | | |md]; try discriminate.
  unfold py_or.
  destruct (dict_get "tokens" md) as [|b|z|x|s|l|d] eqn:Ht; simpl truthy.
  - simpl. intros H. injection H as <-. split; [reflexivity|constructor].
  - destruct b; simpl; [discriminate|].
    intros H. injection H as <-. split; [reflexivity|constructor].
  - destruct (negb (z =? 0)); simpl; [discriminate|].
    intros H. injection H as <-. split; [reflexivity|constructor].
  - destruct (negb (Float64.eqb x Float64.zero)); simpl; [discriminate|].
    intros H. injection H as <-. split; [reflexivity|constructor].
  - destruct s as [|c s]; simpl; [|discriminate].
    intros H. injection H as <-. split; [reflexivity|constructor].
  - destruct l as [|t l].
    + simpl. intros H. injection H as <-. split; [reflexivity|constructor].
    + intros H. apply (token_rows_inv _ _ _ _ _ H).
  - destruct d as [|[k v] d]; simpl; [|discriminate].
    intros H. injection H as <-. split; [reflexivity|constructor].
Qed.

Lemma flatten_markets_inv ms : forall rows,
  flatten_markets py_repr ms = Ok rows ->
  forallb well_shaped_market ms = true
  /\ Forall (fun row => null_or_string (dict_get "token_id" row)) rows.
Proof.
  induction ms as [|m ms IH]; simpl; intros rows H.
  - injection H as <-. split; [reflexivity|constructor].
  - destruct (market_rows py_repr m) as [r1|] eqn:Hm; [|discriminate].
    simpl in H.
    destruct (flatten_markets py_repr ms) as [r2|]; [|discriminate].
    simpl in H. injection H as <-.
    destruct (market_rows_inv _ _ Hm) as [Hw Hn].
    destruct (IH _ eq_refl) as [Hws Hns].
    split; [now rewrite Hw, Hws|apply Forall_app; split; assumption].
Qed.

Lemma flatten_inv page rows :
  flatten_tokens_from_simplified py_repr page = Ok rows ->
  accepted_page page = true
  /\ Forall (fun row => null_or_string (dict_get "token_id" row)) rows.
Proof.
  unfold flatten_tokens_from_simplified, accepted_page.
  destruct (dict_get_default "data" (PyList []) page) as [|b|z|x|s|l|d];
    simpl; try discriminate.
  - destruct s as [|c s]; simpl; [|discriminate].
    intros H. injection H as <-. split; [reflexivity|constructor].
  - apply flatten_markets_inv.
  - destruct d as [|[k v] d]; simpl; [|discriminate].
    intros H. injection H as <-. split; [reflexivity|constructor].
Qed.

Lemma flatten_markets_app ms1 : forall ms2,
  flatten_markets py_repr (ms1 ++ ms2)
  = rbind (flatten_markets py_repr ms1) (fun r1 =>
    rbind (flatten_markets py_repr ms2) (fun r2 => Ok (r1 ++ r2))).
Proof.
  induction ms1 as [|m ms1 IH]; intros ms2; simpl.
  - now destruct (flatten_markets py_repr ms2).
  - destruct (market_rows py_repr m) as [rows|]; simpl; [|reflexivity].
    rewrite IH.
    destruct (flatten_markets py_repr ms1) as [r1|]; simpl; [|reflexivity].
    destruct (flatten_markets py_repr ms2) as [r2|]; simpl; [|reflexivity].
    now rewrite app_assoc.
Qed.

(** X11: the normalizer returns rows exactly for the pages whose
    [data] is a list of objects whose [tokens] are missing, falsy or
    a list of objects (or whose [data] is missing, an empty object or
    an empty string), and raises for every other page; a page without
    [data] gives no rows, a page with a null [data] raises
    [TypeError]. *)
Theorem flatten_accepts page :
  ((exists rows, flatten_tokens_from_simplified py_repr page = Ok rows)
   <-> accepted_page page = true)
  /\ (dict_lookup "data" page = None ->
      flatten_tokens_from_simplified py_repr page = Ok [])
  /\ (dict_lookup "data" page = Some PyNone ->
      flatten_tokens_from_simplified py_repr page = Raise TypeError).
Proof.
  split; [split|split].
  - intros [rows H]. apply (flatten_inv _ _ H).
  - unfold accepted_page, flatten_tokens_from_simplified.
    destruct (dict_get_default "data" (PyList []) page) as [|b|z|x|s|l|d];
      simpl; try discriminate.
    + destruct s; [intros _; eexists; reflexivity|discriminate].
    + intros H. destruct (flatten_markets_spec py_repr l H) as (rows & Hr & _).
      eauto.
    + destruct d; [intros _; eexists; reflexivity|discriminate].
  - intros H. unfold flatten_tokens_from_simplified, dict_get_default.
    now rewrite H.
  - intros H. unfold flatten_tokens_from_simplified, dict_get_default.
    now rewrite H.
Qed.

(** X12: the rows of a page are the rows of its markets one after the
    other: when two pages flatten, a page holding the markets of the
    first followed by those of the second flattens to the rows of
    the first followed by those of the second. *)
Theorem flatten_concat p1 p2 p ms1 ms2 rows1 rows2 :
  dict_lookup "data" p1 = Some (PyList ms1) ->
  dict_lookup "data" p2 = Some (PyList ms2) ->
  dict_lookup "data" p = Some (PyList (ms1 ++ ms2)) ->
  flatten_tokens_from_simplified py_repr p1 = Ok rows1 ->
  flatten_tokens_from_simplified py_repr p2 = Ok rows2 ->
  flatten_tokens_from_simplified py_repr p = Ok (rows1 ++ rows2).
Proof.
  unfold flatten_tokens_from_simplified, dict_get_default.
  intros -> -> ->. simpl. intros H1 H2.
  now rewrite flatten_markets_app, H1, H2.
Qed.

(** X13: the rows of a page go into [sum_yes_by_market] safely: every
    token id the grouping keeps is a non-empty string, so no token id
    of a page makes the price lookup raise. *)
Theorem flatten_rows_feed_groups page rows bm :
  flatten_tokens_from_simplified py_repr page = Ok rows ->
  group_tokens rows [] = Ok bm ->
  Forall (fun tid => exists s, tid = PyStr s /\ s <> "") (all_token_ids bm)
  /\ forall pm e, market_sums pm bm = Raise e -> e = AttributeError.
Proof.
  intros Hf Hg.
  assert (Hids : Forall (fun tid => exists s, tid = PyStr s /\ s <> "")
                        (all_token_ids bm)).
  { eapply Permutation_Forall;
      [apply Permutation_sym, (group_tokens_ids _ _ _ Hg)|].
    simpl. apply Forall_map, Forall_forall. intros t Ht.
    apply filter_In in Ht as [Hin Hk].
    destruct (flatten_inv _ _ Hf) as [_ Hn].
    rewrite Forall_forall in Hn. specialize (Hn t Hin).
    unfold keep_row in Hk. apply andb_true_iff in Hk as [Hk _].
    apply andb_true_iff in Hk as [_ Hk]. unfold row_token_id.
    destruct Hn as [Hn|[s Hn]]; rewrite Hn in *; [discriminate|].
    exists s. split; [reflexivity|]. intros ->. discriminate. }
  split; [exact Hids|].
  clear Hf Hg. unfold all_token_ids in Hids.
  induction bm as [|[c tids] bm IH]; simpl; intros pm e; [discriminate|].
  simpl in Hids. apply Forall_app in Hids as [Ht Hrest].
  assert (Ha : forall e', asks_of pm tids = Raise e' -> e' = AttributeError).
  { clear - Ht. induction tids as [|tid tids IHt]; simpl; intros e';
      [discriminate|].
    inversion Ht as [|? ? (s & -> & _) Ht']; subst.
    unfold quote at 1. simpl.
    destruct (dict_lookup s pm) as [v|]; simpl.
    - destruct v; simpl; try (intros H; now injection H as <-).
      destruct (asks_of pm tids); simpl; [discriminate|].
      intros H. injection H as <-. now apply IHt.
    - destruct (asks_of pm tids); simpl; [discriminate|].
      intros H. injection H as <-. now apply IHt. }
  destruct (asks_of pm tids) as [asks|e'] eqn:Hasks; simpl.
  - destruct (market_sums pm bm) as [rs|e''] eqn:Hm; simpl; [discriminate|].
    intros H. injection H as <-. apply (IH Hrest pm). exact Hm.
  - intros H. injection H as <-. now apply Ha.
Qed.
End FurtherFlatten.

(* ================================================================== *)
(** ** Properties of the paginated reads *)
(* ================================================================== *)

Section FurtherReads.
Variable S : Type.
Variable http_get : S -> get_request -> reply * S.

Lemma fetch_json_spec q (w : rworld S) :
  fetch_json S http_get q w
  = (reply_outcome (fst (http_get (rsrv w) q)),
     {| rsrv := snd (http_get (rsrv w) q);
        gets := gets w ++ [(q, fst (http_get (rsrv w) q))] |}).
Proof.
  unfold fetch_json, gbind, gsend, glift, reply_outcome.
  destruct (http_get (rsrv w) q) as [rp s']. simpl.
  destruct rp as [r|why]; simpl; try reflexivity.
  now destruct (raise_for_status r).
Qed.

Lemma simplified_pages_spec n : forall cursor w pages e w',
  simplified_pages_from S http_get n cursor w = ((pages, e), w') ->
  exists exch,
    gets w' = gets w ++ exch
    /\ (List.length pages <= n)%nat
    /\ (List.length exch <= n)%nat
    /\ cursors_chained cursor exch
    /\ pages = map (fun qr => reply_body (snd qr))
                   (firstn (List.length pages) exch)
    /\ Forall (fun qr => good_reply (snd qr) = true)
              (firstn (List.length pages) exch)
    /\ ((List.length exch = List.length pages
         /\ (e = None \/ e = Some AttributeError))
        \/ (exists q rp e',
              exch = firstn (List.length pages) exch ++ [(q, rp)]
              /\ reply_outcome rp = Raise e'
              /\ e = Some e'))
    /\ Forall (fun p => truthy (next_cursor_of p) = true) (removelast pages)
    /\ (e = None -> (List.length pages < n)%nat ->
        pages <> [] /\ truthy (next_cursor_of (last pages PyNone)) = false).
Proof.
  induction n as [|n IH]; intros cursor w pages e w' H.
  - simpl in H. injection H as <- <- <-. exists []. rewrite app_nil_r.
    repeat match goal with |- _ /\ _ => split end;
      try solve [reflexivity | constructor | left; auto].
    simpl. intros _ Hlt. lia.
  - cbn [simplified_pages_from] in H.
    unfold list_simplified_markets in H. rewrite fetch_json_spec in H.
    set (q := {| url := CLOB ++ "/simplified-markets";
                 params := simplified_params cursor |}) in *.
    set (rp := fst (http_get (rsrv w) q)) in *.
    destruct (reply_outcome rp) as [page|e0] eqn:Ho.
    + destruct (good_reply_body _ _ Ho) as [Hgood Hbody].
      destruct page as [| | | | | |d];
        try (simpl in H; injection H as <- <- <-; exists [(q, rp)];
             simpl; rewrite ?Hbody;
             repeat match goal with |- _ /\ _ => split end;
             solve [reflexivity | constructor | discriminate | lia
                   | left; auto
                   | constructor; [assumption|constructor]]).
      simpl py_get in H. cbv beta iota in H.
      destruct (truthy (dict_get "next_cursor" d)) eqn:Ht.
      * destruct (simplified_pages_from S http_get n _ _)
          as [[pages' e'] w2] eqn:Hrec.
        injection H as <- <- <-.
        apply IH in Hrec
          as (exch & Hg & Hlen & Hlen' & Hch & Hpg & Hok & He & Hall & Hlast).
        simpl in Hg. exists ((q, rp) :: exch).
        split; [rewrite Hg, <- app_assoc; reflexivity|].
        split; [simpl; lia|]. split; [simpl; lia|].
        split; [simpl; rewrite Hbody; split; [reflexivity|exact Hch]|].
        split; [simpl; rewrite Hbody; f_equal; exact Hpg|].
        split; [simpl; constructor; assumption|].
        split.
        { destruct He as [[He1 He2]|(q' & rp' & e1 & He1 & He2 & He3)].
          - left. split; [simpl; now rewrite He1|exact He2].
          - right. exists q', rp', e1.
            split; [simpl; f_equal; exact He1|auto]. }
        split.
        { destruct pages' as [|p pages']; [constructor|].
          change (removelast (PyDict d :: p :: pages'))
            with (PyDict d :: removelast (p :: pages')).
          constructor; [exact Ht|exact Hall]. }
        intros -> Hlt. simpl in Hlt.
        destruct (Hlast eq_refl) as [Hne Hl]; [lia|].
        split; [discriminate|].
        destruct pages' as [|p pages']; [congruence|exact Hl].
      * injection H as <- <- <-. exists [(q, rp)].
        simpl. rewrite Hbody.
        repeat match goal with |- _ /\ _ => split end;
          try solve [reflexivity | constructor | lia | left; auto
                    | constructor; [assumption|constructor]].
        intros _ _. split; [discriminate|exact Ht].
    + injection H as <- <- <-. exists [(q, rp)].
      split; [reflexivity|]. split; [simpl; lia|]. split; [simpl; lia|].
      split; [simpl; auto|]. split; [reflexivity|].
      split; [constructor|].
      split; [right; exists q, rp, e0; auto|].
      split; [constructor|]. discriminate.
Qed.

(** X14: run to its end, [clob_simplified_pages] yields at most
    [max_pages] pages and sends at most [max_pages] requests, none
    when [max_pages] is zero or negative; the pages are the decoded
    bodies of the first replies, in order, all of them good (answers
    without error status whose body is JSON).  Either there is one
    request per page, the run ending without exception or on a page
    that is not an object ([AttributeError]); or there is one
    request more, whose reply made the client raise (no answer within
    the timeout, no connection, an error status, a body that is not
    JSON), and the run ends with that exception. *)
Theorem clob_simplified_pages_bounds max_pages w pages e w' :
  clob_simplified_pages S http_get max_pages w = ((pages, e), w') ->
  exists exch,
    gets w' = gets w ++ exch
    /\ (List.length pages <= Z.to_nat max_pages)%nat
    /\ (List.length exch <= Z.to_nat max_pages)%nat
    /\ pages = map (fun qr => reply_body (snd qr))
                   (firstn (List.length pages) exch)
    /\ Forall (fun qr => good_reply (snd qr) = true)
              (firstn (List.length pages) exch)
    /\ ((List.length exch = List.length pages
         /\ (e = None \/ e = Some AttributeError))
        \/ (List.length exch = Datatypes.S (List.length pages)
            /\ exists q rp e',
                 exch = firstn (List.length pages) exch ++ [(q, rp)]
                 /\ reply_outcome rp = Raise e'
                 /\ e = Some e'
                 /\ request_error e')).
Proof.
  unfold clob_simplified_pages. intros H.
  apply simplified_pages_spec in H
    as (exch & Hg & Hlen & Hlen' & _ & Hpg & Hok & He & _ & _).
  exists exch.
  split; [exact Hg|]. split; [exact Hlen|]. split; [exact Hlen'|].
  split; [exact Hpg|]. split; [exact Hok|].
  destruct He as [He|(q & rp & e' & He1 & He2 & He3)]; [left; exact He|].
  right. split.
  - assert (Hm : List.length (firstn (List.length pages) exch)
                 = List.length pages).
    { rewrite Hpg at 2. now rewrite length_map. }
    rewrite He1 at 1. rewrite length_app, Hm. simpl. lia.
  - exists q, rp, e'. split; [exact He1|]. split; [exact He2|].
    split; [exact He3|]. apply (reply_outcome_error _ _ He2).
Qed.

(** X15: the first request carries no cursor, and each request after
    it carries exactly the [next_cursor] of the page answered just
    before, to the same address. *)
Theorem clob_simplified_pages_chain max_pages w pages e w' :
  clob_simplified_pages S http_get max_pages w = ((pages, e), w') ->
  exists exch,
    gets w' = gets w ++ exch
    /\ cursors_chained PyNone exch
    /\ (forall q r rest, exch = (q, r) :: rest -> params q = []).
Proof.
  intros H. apply simplified_pages_spec in H
    as (exch & Hg & _ & _ & Hch & _).
  exists exch. split; [exact Hg|]. split; [exact Hch|].
  intros q r rest ->. simpl in Hch. destruct Hch as [-> _]. reflexivity.
Qed.

(** X16: every page yielded before the last has a truthy
    [next_cursor]; and a run that ends without exception before
    [max_pages] pages ends on a page whose [next_cursor] is missing,
    null or empty. *)
Theorem clob_simplified_pages_stops max_pages w pages e w' :
  clob_simplified_pages S http_get max_pages w = ((pages, e), w') ->
  Forall (fun p => truthy (next_cursor_of p) = true) (removelast pages)
  /\ (e = None -> Z.of_nat (List.length pages) < max_pages ->
      pages <> [] /\ truthy (next_cursor_of (last pages PyNone)) = false).
Proof.
  intros H. apply simplified_pages_spec in H
    as (exch & _ & _ & _ & _ & _ & _ & _ & Hall & Hlast).
  split; [exact Hall|]. intros He Hlt. apply Hlast; [exact He|lia].
Qed.

(** X17: [list_markets_gamma], [list_simplified_markets] and
    [get_trades_dataapi] each send exactly one GET, to their address
    and with their parameters.  Each raises when no answer comes
    within the timeout or there is no connection; when the answer
    has an error status, 404 included, with the HTTP error of that
    status; and when the body of an answer without error status is
    not JSON.  Otherwise each returns the decoded body. *)
Theorem reads_raise_on_error_status limit cursor closed active next_cursor
        condition_id (w : rworld S) :
  let one_get (run : G S pyval) (q : get_request) :=
    let rp := fst (http_get (rsrv w) q) in
    snd (run w) = {| rsrv := snd (http_get (rsrv w) q);
                     gets := gets w ++ [(q, rp)] |}
    /\ fst (run w) = reply_outcome rp
    /\ (forall why, rp = NoAnswer why ->
                    fst (run w) = Raise (RequestFailed why))
    /\ (forall r, rp = Answered r -> 400 <= status_code r < 600 ->
                  fst (run w) = Raise (HTTPError (status_code r)))
    /\ (forall r, rp = Answered r -> status_code r = 404 ->
                  fst (run w) = Raise (HTTPError 404))
    /\ (forall r, rp = Answered r -> ~ 400 <= status_code r < 600 ->
                  body r = None -> fst (run w) = Raise JSONDecodeError)
    /\ (forall r v, rp = Answered r -> ~ 400 <= status_code r < 600 ->
                    body r = Some v -> fst (run w) = Ok v) in
  one_get (list_markets_gamma S http_get limit cursor closed active)
          {| url := GAMMA ++ "/markets";
             params := gamma_params limit cursor closed active |}
  /\ one_get (list_simplified_markets S http_get next_cursor)
             {| url := CLOB ++ "/simplified-markets";
                params := simplified_params next_cursor |}
  /\ one_get (get_trades_dataapi S http_get condition_id limit)
             {| url := DATA ++ "/trades";
                params := trades_params condition_id limit |}.
Proof.
  assert (Hs : forall r, ok_status r = true <-> ~ 400 <= status_code r < 600).
  { intros r. unfold ok_status. rewrite negb_true_iff, andb_false_iff.
    rewrite Z.leb_gt, Z.ltb_ge. lia. }
  assert (H : forall q,
             let rp := fst (http_get (rsrv w) q) in
             snd (fetch_json S http_get q w)
             = {| rsrv := snd (http_get (rsrv w) q);
                  gets := gets w ++ [(q, rp)] |}
             /\ fst (fetch_json S http_get q w) = reply_outcome rp
             /\ (forall why, rp = NoAnswer why ->
                   fst (fetch_json S http_get q w) = Raise (RequestFailed why))
             /\ (forall r, rp = Answered r -> 400 <= status_code r < 600 ->
                   fst (fetch_json S http_get q w)
                   = Raise (HTTPError (status_code r)))
             /\ (forall r, rp = Answered r -> status_code r = 404 ->
                   fst (fetch_json S http_get q w) = Raise (HTTPError 404))
             /\ (forall r, rp = Answered r -> ~ 400 <= status_code r < 600 ->
                   body r = None ->
                   fst (fetch_json S http_get q w) = Raise JSONDecodeError)
             /\ (forall r v, rp = Answered r -> ~ 400 <= status_code r < 600 ->
                   body r = Some v ->
                   fst (fetch_json S http_get q w) = Ok v)).
  { intros q rp. rewrite fetch_json_spec. fold rp. cbn [fst snd].
    split; [reflexivity|]. split; [reflexivity|].
    split; [intros why ->; reflexivity|].
    assert (Herr : forall r, rp = Answered r -> 400 <= status_code r < 600 ->
                     reply_outcome rp = Raise (HTTPError (status_code r))).
    { intros r -> Hr. apply reply_outcome_raise. right. left.
      exists r. split; [reflexivity|]. split; [|reflexivity].
      destruct (ok_status r) eqn:E; [|reflexivity].
      apply Hs in E. contradiction. }
    split; [exact Herr|]. split; [|split].
    - intros r Hrp H404. rewrite (Herr r Hrp) by lia. now rewrite H404.
    - intros r -> Hr Hb. apply reply_outcome_raise. right. right.
      exists r. split; [reflexivity|]. split; [now apply Hs|]. auto.
    - intros r v -> Hr Hb. apply reply_outcome_ok.
      exists r. split; [reflexivity|]. split; [now apply Hs|exact Hb]. }
  cbv zeta. split; [apply H|]. split; apply H.
Qed.
End FurtherReads.

(* ================================================================== *)
(** ** The further statements at sample inputs *)
(* ================================================================== *)

Lemma get_best_prices_bad_batch_size_witness :
  get_best_prices unit (const_clob two_prices) abcde "BUY" 0 w0
  = (Raise ValueError, w0)
  /\ get_best_prices unit (const_clob two_prices) abcde "BUY" (-2) w0
     = (Ok [], w0).
Proof.
  split.
  - apply (get_best_prices_bad_batch_size unit (const_clob two_prices)
             abcde "BUY" 0 w0); [discriminate|lia].
  - apply (get_best_prices_bad_batch_size unit (const_clob two_prices)
             abcde "BUY" (-2) w0); [discriminate|lia].
Defined.

Lemma get_best_prices_stops_at_error_witness :
  fst (get_best_prices nat failing_clob abcde "BUY" 2 f0)
  = Raise (HTTPError 503)
  /\ fst (get_best_prices unit (const_clob two_prices)
            [PyStr "a"; PyFloat Float64.inf] "BUY" 1 w0)
     = Raise InvalidJSONError
  /\ exists exch rest,
       trace (snd (get_best_prices nat failing_clob abcde "BUY" 2 f0))
       = trace f0 ++ exch
       /\ requested_ids exch ++ rest = abcde
       /\ List.length exch = 2%nat.
Proof.
  split; [reflexivity|]. split; [reflexivity|].
  destruct (get_best_prices_stops_at_error nat failing_clob abcde "BUY" 2 f0
              (fst (get_best_prices nat failing_clob abcde "BUY" 2 f0))
              (snd (get_best_prices nat failing_clob abcde "BUY" 2 f0))
              eq_refl eq_refl) as (exch & rest & Ht & Hr & _).
  exists exch, rest. split; [exact Ht|]. split; [exact Hr|].
  change (trace f0 ++ exch) with exch in Ht. rewrite <- Ht. reflexivity.
Defined.

Lemma get_best_prices_request_count_witness :
  exists exch,
    trace (snd (get_best_prices unit (const_clob two_prices) abcde "BUY" 2 w0))
    = trace w0 ++ exch
    /\ Z.of_nat (List.length exch) = 3.
Proof.
  exact (get_best_prices_request_count unit (const_clob two_prices) abcde
           "BUY" 2 w0 _ _ eq_refl eq_refl).
Defined.

Lemma get_best_prices_last_wins_witness :
  exists exch,
    trace (snd (get_best_prices unit (const_clob two_prices) abcde "BUY" 2 w0))
    = trace w0 ++ exch
    /\ forall k,
         dict_lookup k
           [("T1", quote_of "BUY" "0.45"); ("T2", quote_of "BUY" "0.52")]
         = lookup_last k (answered_items exch).
Proof.
  exact (get_best_prices_last_wins unit (const_clob two_prices) abcde
           "BUY" 2 w0 _ _ eq_refl).
Defined.

Lemma sum_yes_by_market_nothing_kept_witness :
  sum_yes_by_market unit (status_clob 500)
    [token_row_of PyNone (PyStr "T0") (PyBool false);
     token_row_of (PyStr "M1") (PyStr "T1") (PyBool true)] w0
  = (Ok [], w0).
Proof.
  exact (sum_yes_by_market_nothing_kept unit (status_clob 500)
           [token_row_of PyNone (PyStr "T0") (PyBool false);
            token_row_of (PyStr "M1") (PyStr "T1") (PyBool true)] w0 eq_refl).
Defined.

Lemma sum_yes_by_market_counts_witness :
  total_count four_result = 4
  /\ Forall (fun x => 1 <= entry_count x) four_result.
Proof.
  exact (sum_yes_by_market_counts unit (const_clob four_prices) four_rows w0
           four_result four_world four_rows_run).
Defined.

Lemma sum_yes_by_market_unhashable_witness :
  sum_yes_by_market unit (const_clob two_prices) unhashable_rows w0
  = (Raise TypeError, w0).
Proof.
  apply (proj2 (sum_yes_by_market_unhashable unit (const_clob two_prices)
                  unhashable_rows)).
  exists (token_row_of (PyList [PyStr "M2"]) (PyStr "T2") (PyBool false)).
  split; [right; left; reflexivity|split; reflexivity].
Defined.

Lemma sum_yes_by_market_raises_only_witness :
  fst (sum_yes_by_market unit (status_clob 500) two_rows w0)
  = Raise (HTTPError 500)
  /\ fst (sum_yes_by_market unit silent_clob two_rows w0)
     = Raise (RequestFailed ReadTimeout)
  /\ fst (sum_yes_by_market unit text_clob two_rows w0)
     = Raise JSONDecodeError
  /\ request_error (HTTPError 500).
Proof.
  split; [reflexivity|]. split; [reflexivity|]. split; [reflexivity|].
  destruct (sum_yes_by_market_raises_only unit (status_clob 500) two_rows w0
              (HTTPError 500)
              (snd (sum_yes_by_market unit (status_clob 500) two_rows w0))
              eq_refl) as [[H _]|[[H _]|[[H|H] _]]];
    [discriminate H|exact H|discriminate H|discriminate H].
Defined.

Lemma main_shows_smallest_witness :
  shown_entries four_result
  = [(PyStr "D", 1, flt "0.5"); (PyStr "A", 1, flt "0.92");
     (PyStr "C", 1, flt "1.05")].
Proof.
  rewrite (proj1 (main_shows_smallest unit (const_clob four_prices) four_rows
                    w0 four_result four_world four_rows_run)).
  reflexivity.
Defined.

Lemma flatten_concat_witness :
  exists rows1 rows2,
    flatten_tokens_from_simplified no_repr unnamed_page = Ok rows1
    /\ flatten_tokens_from_simplified no_repr binary_page = Ok rows2
    /\ flatten_tokens_from_simplified no_repr merged_page
       = Ok (rows1 ++ rows2)
    /\ List.length (rows1 ++ rows2) = 3%nat.
Proof.
  eexists. eexists. split; [reflexivity|]. split; [reflexivity|].
  split; [|reflexivity].
  exact (flatten_concat no_repr unnamed_page binary_page merged_page
           _ _ _ _ eq_refl eq_refl eq_refl eq_refl eq_refl).
Defined.

Lemma flatten_rows_feed_groups_witness :
  Forall (fun tid => exists s, tid = PyStr s /\ s <> "")
         (all_token_ids [(PyStr "M1", [PyStr "7"])]).
Proof.
  exact (proj1 (flatten_rows_feed_groups no_repr binary_page _
                  [(PyStr "M1", [PyStr "7"])] eq_refl eq_refl)).
Defined.

Lemma clob_simplified_pages_bounds_witness :
  fst (clob_simplified_pages nat (page_service three_pages) 2 r0)
  = (firstn 2 three_pages, None)
  /\ exists exch,
       gets (snd (clob_simplified_pages nat (page_service three_pages) 2 r0))
       = gets r0 ++ exch
       /\ (List.length exch <= 2)%nat.
Proof.
  split; [reflexivity|].
  destruct (clob_simplified_pages_bounds nat (page_service three_pages) 2 r0
              (firstn 2 three_pages) None
              (snd (clob_simplified_pages nat (page_service three_pages) 2 r0))
              eq_refl) as (exch & Hg & _ & Hl & _).
  exists exch. split; [exact Hg|exact Hl].
Defined.

Lemma clob_simplified_pages_chain_witness :
  exists exch,
    gets (snd (clob_simplified_pages nat (page_service three_pages) 5 r0))
    = gets r0 ++ exch
    /\ cursors_chained PyNone exch
    /\ map (fun qr => cursor_sent (fst qr)) exch
       = [PyNone; PyStr "c1"; PyStr "c2"].
Proof.
  destruct (clob_simplified_pages_chain nat (page_service three_pages) 5 r0
              three_pages None
              (snd (clob_simplified_pages nat (page_service three_pages) 5 r0))
              eq_refl) as (exch & Hg & Hc & _).
  exists exch. split; [exact Hg|]. split; [exact Hc|].
  change (gets r0 ++ exch) with exch in Hg. rewrite <- Hg. reflexivity.
Defined.

Lemma clob_simplified_pages_stops_witness :
  fst (clob_simplified_pages nat (page_service three_pages) 5 r0)
  = (three_pages, None)
  /\ truthy (next_cursor_of (last three_pages PyNone)) = false.
Proof.
  split; [reflexivity|].
  exact (proj2 (proj2 (clob_simplified_pages_stops nat
                         (page_service three_pages) 5 r0 three_pages None
                         (snd (clob_simplified_pages nat
                                 (page_service three_pages) 5 r0))
                         eq_refl)
                      eq_refl eq_refl)).
Defined.
